(** * trackv-backend: streaming analytics core

    A shallow embedding of the detection, scoring, tracking, alerting and
    feed-management code of the backend, with the properties of its
    specification stated and settled against it.

    Conventions of the embedding.
    - Python [int] is [Z]; a Python [float] is idealised as an exact
      rational [Q] (no rounding, no NaN), compared with [Qeq] / [Qle]. The
      one exception is the distance test of the stability tracker of the
      OpenCV analyzer, whose outcome depends on the rounding: its
      coordinates are binary64 numbers ([float]) and its operations the
      rounded ones.
    - A [dict] used as a map is a [gmap]; a [dict] with a fixed set of keys
      is a record whose fields carry the keys' names.
    - [datetime] values are microseconds since the epoch ([Z]); the clock
      ([datetime.now()], [time.time()]) is an explicit argument.
    - An exception is [None] (or an explicit outcome constructor); state that
      the code mutates is passed in and returned. *)

From Stdlib Require Import Floats.
From Stdlib Require Import ZArith QArith Qminmax Qround Lia Lqa.
From stdpp Require Import gmap strings list fin_maps pretty.

Local Open Scope Z_scope.

(** ** Numeric helpers *)

(** [x < y] on floats, as a boolean. *)
Definition Qlt_bool (x y : Q) : bool := negb (Qle_bool y x).

(** [int(x)] on a float: truncation towards zero. *)
Definition py_int (x : Q) : Z := Z.quot (Qnum x) (Z.pos (Qden x)).

(** [sum(xs)] on a list of floats. *)
Definition Qsum (xs : list Q) : Q := foldr Qplus (0%Q) xs.

(** [sum(d.values())] on a histogram. *)
Definition histogram_total (h : gmap string Z) : Z :=
  map_fold (fun _ v acc => v + acc) 0 h.

(** [d[k] = d.get(k, 0) + 1], which is also [d[k] += 1] on a
    [defaultdict(int)]. *)
Definition histogram_incr (k : string) (h : gmap string Z) : gmap string Z :=
  <[k := default 0 (h !! k) + 1]> h.

(** A [datetime] difference in seconds, [timedelta.total_seconds()]. *)
Definition total_seconds (micros : Z) : Q := (micros # 1000000)%Q.

(** ** The detector's raw output (ultralytics [Results] / [Boxes]) *)

Record yolo_box := {
  cls : Z;                       (* int(box.cls[0]) *)
  conf : Q;                      (* float(box.conf[0]) *)
  xyxy : Q * Q * Q * Q           (* box.xyxy[0] *)
}.

Record yolo_result := { boxes : list yolo_box }.

(** One entry of the ["detections"] list. *)
Record detection := {
  type : string;
  confidence : Q;
  bbox : Q * Q * Q * Q
}.

(** ** backend/video_processor.py : class VehicleDetector *)
Module VehicleDetector.

(** The dictionary returned by [detect_vehicles]. The key
    ["confidence_scores"] exists on the normal path only. *)
Record detection_dict := {
  vehicle_count : Z;
  vehicle_types : gmap string Z;
  detections : list detection;
  confidence_scores : option (list Q);
  avg_confidence : Q
}.

Definition vehicle_classes : list Z := [2; 3; 5; 7].

Definition _get_vehicle_type (class_id : Z) : string :=
  if class_id =? 2 then "car"
  else if class_id =? 3 then "motorcycle"
  else if class_id =? 5 then "bus"
  else if class_id =? 7 then "truck"
  else "unknown".

(** Body of the inner [for box in result.boxes] loop. *)
Definition add_box (d : detection_dict) (box : yolo_box) : detection_dict :=
  if bool_decide (cls box ∈ vehicle_classes) then
    let vehicle_type := _get_vehicle_type (cls box) in
    {| vehicle_count := vehicle_count d + 1;
       vehicle_types := histogram_incr vehicle_type (vehicle_types d);
       detections := detections d ++
         [{| type := vehicle_type; confidence := conf box; bbox := xyxy box |}];
       confidence_scores := option_map (fun l => l ++ [conf box]) (confidence_scores d);
       avg_confidence := avg_confidence d |}
  else d.

Definition empty_detections : detection_dict :=
  {| vehicle_count := 0; vehicle_types := ∅; detections := [];
     confidence_scores := Some []; avg_confidence := 0%Q |}.

(** The two nested loops over [results] and [result.boxes]. *)
Definition collect (results : list yolo_result) : detection_dict :=
  foldl (fun d result => foldl add_box d (boxes result)) empty_detections results.

Definition fallback_detections : detection_dict :=
  {| vehicle_count := 0; vehicle_types := ∅; detections := [];
     confidence_scores := None; avg_confidence := 0%Q |}.

(** [detect_vehicles(frame)]. The model call [self.model(frame, conf=0.5)]
    yields its results or raises ([None]); the [except Exception] branch
    turns a raise into the fallback dictionary. *)
Definition detect_vehicles {Frame : Type}
    (model : Frame -> option (list yolo_result)) (frame : Frame) : detection_dict :=
  match model frame with
  | Some results =>
      let d := collect results in
      let scores := default [] (confidence_scores d) in
      {| vehicle_count := vehicle_count d;
         vehicle_types := vehicle_types d;
         detections := detections d;
         confidence_scores := confidence_scores d;
         avg_confidence :=
           match scores with
           | [] => 0%Q
           | _ => (Qsum scores / inject_Z (Z.of_nat (length scores)))%Q
           end |}
  | None => fallback_detections
  end.

(** The dictionary returned by [analyze_congestion]. *)
Record congestion_dict := {
  congestion_score : Q;
  congestion_level : string;
  vehicle_density : Q;
  cd_vehicle_count : Z
}.

(** [analyze_congestion(detections, frame_shape)]. The division raises
    [ZeroDivisionError] when the frame area is zero ([None]). *)
Definition analyze_congestion (d : detection_dict) (frame_shape : Z * Z)
    : option congestion_dict :=
  let frame_area := fst frame_shape * snd frame_shape in
  let vehicle_count := vehicle_count d in
  if frame_area =? 0 then None
  else
    let density := ((inject_Z vehicle_count / inject_Z frame_area) * 100000)%Q in
    let '(level, score) :=
      if Qlt_bool density 2 then ("low", density * 10)%Q
      else if Qlt_bool density 5 then ("medium", 20 + (density - 2) * 10)%Q
      else if Qlt_bool density 10 then ("high", 50 + (density - 5) * 10)%Q
      else ("critical", 100%Q) in
    Some {| congestion_score := Qmin score 100;
            congestion_level := level;
            vehicle_density := density;
            cd_vehicle_count := vehicle_count |}.

(** *** The key-based stability table *)

(** The key [f"{frame_id}_{bbox[0]}_{bbox[1]}"]: the string determines the
    three numbers and is determined by them, so the triple stands for it. *)
Definition vehicle_key : Type := Z * Q * Q.

Definition key_eqb (a b : vehicle_key) : bool :=
  let '(f1, x1, y1) := a in
  let '(f2, x2, y2) := b in
  (f1 =? f2) && Qeq_bool x1 x2 && Qeq_bool y1 y2.

(** A value of [self.stable_vehicles]. *)
Record stable_info := {
  count : Z;
  first_seen : option Z;
  info_bbox : Q * Q * Q * Q
}.

(** An element of the returned [stable_alerts]. *)
Record stable_alert := {
  alert_vehicle_key : vehicle_key;
  stable_duration_minutes : Z;
  alert_bbox : Q * Q * Q * Q;
  severity : string
}.

(** [self.stable_vehicles], a dictionary in insertion order. *)
Definition stable_table : Type := list (vehicle_key * stable_info).

Fixpoint table_get (k : vehicle_key) (t : stable_table) : option stable_info :=
  match t with
  | [] => None
  | (k', info) :: rest => if key_eqb k k' then Some info else table_get k rest
  end.

(** [t[k]["count"] += 1] on a key that is present. *)
Fixpoint table_count_up (k : vehicle_key) (t : stable_table) : stable_table :=
  match t with
  | [] => []
  | (k', info) :: rest =>
      if key_eqb k k'
      then (k', {| count := count info + 1; first_seen := first_seen info;
                   info_bbox := info_bbox info |}) :: rest
      else (k', info) :: table_count_up k rest
  end.

(** [del t[k]]. *)
Definition table_del (k : vehicle_key) (t : stable_table) : stable_table :=
  List.filter (fun entry => negb (key_eqb k (fst entry))) t.

(** Body of the first loop of [detect_stable_vehicles]. *)
Definition note_detection (current_time frame_id : Z) (t : stable_table)
    (detection : detection) : stable_table :=
  let '(x1, y1, _, _) := bbox detection in
  let vehicle_key := (frame_id, x1, y1) in
  match table_get vehicle_key t with
  | None => t ++ [(vehicle_key,
                   {| count := 1; first_seen := Some current_time;
                      info_bbox := bbox detection |})]
  | Some _ => table_count_up vehicle_key t
  end.

(** Body of the second loop, over a copy of the items. *)
Definition review_entry (current_time stability_threshold : Z)
    (acc : stable_table * list stable_alert) (item : vehicle_key * stable_info)
    : stable_table * list stable_alert :=
  let '(t, stable_alerts) := acc in
  let '(vehicle_key, vehicle_info) := item in
  match first_seen vehicle_info with
  | Some seen =>
      let duration := (total_seconds (current_time - seen) / 60)%Q in
      if Qlt_bool (inject_Z stability_threshold) duration then
        (t, stable_alerts ++
            [{| alert_vehicle_key := vehicle_key;
                stable_duration_minutes := py_int duration;
                alert_bbox := info_bbox vehicle_info;
                severity := if Qlt_bool 20 duration then "high" else "medium" |}])
      else if Qlt_bool duration (inject_Z (stability_threshold - 5)) then
        (table_del vehicle_key t, stable_alerts)
      else (t, stable_alerts)
  | None => (t, stable_alerts)
  end.

(** [detect_stable_vehicles(detections, frame_id, stability_threshold)] at
    clock reading [current_time]: the table afterwards and [stable_alerts]. *)
Definition detect_stable_vehicles (current_time : Z) (t : stable_table)
    (detections : detection_dict) (frame_id stability_threshold : Z)
    : stable_table * list stable_alert :=
  let t1 := foldl (note_detection current_time frame_id) t
                  (VehicleDetector.detections detections) in
  foldl (review_entry current_time stability_threshold) (t1, []) t1.

End VehicleDetector.

(** ** backend/video_processor/opencv_analyzer.py : class OpenCVAnalyzer *)
Module OpenCVAnalyzer.

(** The dictionary returned by [process_frame]. *)
Record frame_dict := {
  vehicle_count : Z;
  vehicle_types : gmap string Z;
  detections : list detection
}.

Definition vehicle_classes : gmap Z string :=
  {[ 2 := "car"; 3 := "motorbike"; 5 := "bus"; 7 := "truck" ]}.

Definition stable_threshold_seconds : Q := 600%Q.

(** Body of [for box in boxes]. *)
Definition add_box (d : frame_dict) (box : yolo_box) : frame_dict :=
  match vehicle_classes !! cls box with
  | Some vehicle_type =>
      {| vehicle_count := vehicle_count d + 1;
         vehicle_types := histogram_incr vehicle_type (vehicle_types d);
         detections := detections d ++
           [{| type := vehicle_type; confidence := conf box; bbox := xyxy box |}] |}
  | None => d
  end.

Definition empty_frame_dict : frame_dict :=
  {| vehicle_count := 0; vehicle_types := ∅; detections := [] |}.

(** [process_frame(frame)]: no handler here, a raise of the model call
    leaves the function ([None]). *)
Definition process_frame {Frame : Type}
    (model : Frame -> option (list yolo_result)) (frame : Frame) : option frame_dict :=
  match model frame with
  | Some results =>
      Some (foldl (fun d result => foldl add_box d (boxes result)) empty_frame_dict results)
  | None => None
  end.

(** *** The per-vehicle stability tracker *)
Section Tracker.
Context {Id : Type} `{Countable Id}.

(** One element of [vehicle_positions]; the coordinates are binary64
    numbers. *)
Record vehicle := { id : Id; position : float * float }.

(** One value of [self.stable_vehicles]. *)
Record stable_entry := { entry_position : float * float; start_time : Q }.

(** [distance]:
    [np.sqrt((position[0] - prev_pos[0])**2 + (position[1] - prev_pos[1])**2)]
    in binary64 arithmetic, every operation rounded to nearest; [x ** 2] is
    the rounded product of [x] with itself. *)
Definition distance (position prev_pos : float * float) : float :=
  let dx := (fst position - fst prev_pos)%float in
  let dy := (snd position - snd prev_pos)%float in
  sqrt (dx * dx + dy * dy)%float.

(** [distance < 10]; the comparison is false on a NaN. *)
Definition distance_lt_10 (position prev_pos : float * float) : bool :=
  (distance position prev_pos <? 10)%float.

(** Body of [for vehicle in vehicle_positions], on the pair
    ([self.stable_vehicles], [stable_count]). *)
Definition track_vehicle (current_time : Q)
    (acc : gmap Id stable_entry * Z) (v : vehicle) : gmap Id stable_entry * Z :=
  let '(stable_vehicles, stable_count) := acc in
  match stable_vehicles !! id v with
  | None =>
      (<[id v := {| entry_position := position v; start_time := current_time |}]>
         stable_vehicles, stable_count)
  | Some e =>
      if distance_lt_10 (position v) (entry_position e) then
        let time_elapsed := (current_time - start_time e)%Q in
        if Qlt_bool stable_threshold_seconds time_elapsed
        then (stable_vehicles, stable_count + 1)
        else (stable_vehicles, stable_count)
      else
        (<[id v := {| entry_position := position v; start_time := current_time |}]>
           stable_vehicles, stable_count)
  end.

(** [detect_stable_vehicles(vehicle_positions)] at clock reading
    [current_time]: the new tracker state and the returned count. *)
Definition detect_stable_vehicles (current_time : Q)
    (stable_vehicles : gmap Id stable_entry) (vehicle_positions : list vehicle)
    : gmap Id stable_entry * Z :=
  foldl (track_vehicle current_time) (stable_vehicles, 0) vehicle_positions.


End Tracker.

End OpenCVAnalyzer.

(** ** backend/vehicle_detection.py : class CongestionAnalyzer *)
Module CongestionAnalyzer.

(** A row of the table [congestion_alerts]. *)
Record alert_row := {
  id : Z;
  junction_id : Z;
  video_feed_id : option Z;
  alert_type : string;
  stable_duration_minutes : Z;
  alert_status : string
}.

(** A value of [self.vehicle_tracking]. *)
Record tracking := {
  first_detected : Z;
  vehicle_count : Z;
  last_update : Z
}.

(** The analyzer: the table [congestion_alerts] of the store behind
    [self.supabase], and [self.vehicle_tracking]. *)
Record analyzer := {
  congestion_alerts : list alert_row;
  vehicle_tracking : gmap string tracking
}.

Definition stable_threshold_minutes : Z := 10.

(** How the store answers the calls of one [check_and_create_alerts]:
    whether its [select] raises, and whether its [insert] of a row of a
    given alert type raises. A call that raises stores nothing. *)
Record store_answers := {
  select_raises : bool;
  insert_raises : string -> bool
}.

(** The store answers every call. *)
Definition store_up : store_answers :=
  {| select_raises := false; insert_raises := fun _ => false |}.

(** [table("congestion_alerts").insert(alert_data).execute()] where it
    returns: the store numbers the row and appends it; [alert.data[0]] is
    the stored row. *)
Definition insert (table : list alert_row)
    (junction_id : Z) (video_feed_id : option Z) (alert_type : string)
    (stable_duration_minutes : Z) (alert_status : string)
    : list alert_row * alert_row :=
  let row := {| id := Z.of_nat (length table) + 1;
                junction_id := junction_id;
                video_feed_id := video_feed_id;
                alert_type := alert_type;
                stable_duration_minutes := stable_duration_minutes;
                alert_status := alert_status |} in
  (table ++ [row], row).

(** [select("*").eq("junction_id", j).eq("alert_status", s).eq("alert_type", t)]. *)
Definition select_eq (table : list alert_row) (j : Z) (s t : string) : list alert_row :=
  filter (fun r => junction_id r = j /\ alert_status r = s /\ alert_type r = t) table.

(** [check_and_create_alerts(junction_id, detections, video_feed_id)] at
    clock reading [current_time], with the store answering as [store] says:
    the analyzer afterwards and [alerts_created]. A raising [select] leaves
    the outer [try] before anything is done; a raising [insert] is logged by
    its own handler and the method goes on. *)
Definition check_and_create_alerts (store : store_answers) (current_time : Z)
    (a : analyzer) (junction_id : Z) (detections : VehicleDetector.detection_dict)
    (video_feed_id : option Z) : analyzer * list alert_row :=
  let count := VehicleDetector.vehicle_count detections in
  if select_raises store then (a, [])
  else
  let stable_vehicles := select_eq (congestion_alerts a) junction_id "active" "stable_vehicle" in
  (* high congestion *)
  let '(table, alerts_created) :=
    if 30 <? count then
      if insert_raises store "high_congestion" then (congestion_alerts a, [])
      else
        let '(table, alert) :=
          insert (congestion_alerts a) junction_id video_feed_id "high_congestion" 0 "active" in
        (table, [alert])
    else (congestion_alerts a, []) in
  (* track vehicle stability *)
  let vehicle_key := "junction_" +:+ pretty junction_id in
  let tracking_data :=
    match vehicle_tracking a !! vehicle_key with
    | None => {| first_detected := current_time;
                 vehicle_count := count;
                 last_update := current_time |}
    | Some t => {| first_detected := first_detected t;
                   vehicle_count := count;
                   last_update := current_time |}
    end in
  let vehicle_tracking := <[vehicle_key := tracking_data]> (vehicle_tracking a) in
  let duration :=
    (total_seconds (current_time - first_detected tracking_data) / 60)%Q in
  if Qlt_bool (inject_Z stable_threshold_minutes) duration then
    let has_alert :=
      existsb (fun alert => stable_threshold_minutes <=? stable_duration_minutes alert)
              stable_vehicles in
    if negb has_alert then
      if insert_raises store "stable_vehicle" then
        ({| congestion_alerts := table; vehicle_tracking := vehicle_tracking |},
         alerts_created)
      else
        let '(table, alert) :=
          insert table junction_id video_feed_id "stable_vehicle" (py_int duration) "active" in
        ({| congestion_alerts := table; vehicle_tracking := vehicle_tracking |},
         alerts_created ++ [alert])
    else
      ({| congestion_alerts := table; vehicle_tracking := vehicle_tracking |}, alerts_created)
  else
    if count <? 10 then
      ({| congestion_alerts := table; vehicle_tracking := delete vehicle_key vehicle_tracking |},
       alerts_created)
    else
      ({| congestion_alerts := table; vehicle_tracking := vehicle_tracking |}, alerts_created).

End CongestionAnalyzer.

(** ** notifications/alert_service.py : class AlertService *)
Module AlertService.

(** A row of the table [alerts]. *)
Record alert_row := {
  id : Z;
  junction_id : string;
  alert_type : string;
  severity : string;
  title : string;
  description : string;
  created_by : string
}.

(** The database behind [self.db_connection]: the table [alerts], whether
    the connection answers ([cursor.execute] raises when it does not), and
    the notification rounds requested with
    [send_notifications_to_inspectors] (junction, alert id); that method
    absorbs its own errors, delivery to the inspectors is outside the
    embedding. *)
Record database := {
  alerts : list alert_row;
  db_up : bool;
  notified : list (string * Z)
}.

(** [create_alert(...)]: the id of the new alert with the database
    afterwards, or [None] when the insert raised (after the rollback the
    database is as before, and the exception is raised again). *)
Definition create_alert (db : database)
    (junction_id alert_type severity title description created_by : string)
    : option (database * Z) :=
  if db_up db then
    let alert_id := Z.of_nat (length (alerts db)) + 1 in
    let row := {| id := alert_id; junction_id := junction_id;
                  alert_type := alert_type; severity := severity;
                  title := title; description := description;
                  created_by := created_by |} in
    Some ({| alerts := alerts db ++ [row];
             db_up := db_up db;
             notified := notified db ++ [(junction_id, alert_id)] |}, alert_id)
  else None.

(** [detect_bottleneck_and_alert(junction_id, vehicle_count, stable_vehicles)]:
    the database afterwards; the [except] branch only logs. *)
Definition detect_bottleneck_and_alert (db : database)
    (junction_id : string) (vehicle_count stable_vehicles : Z) : database :=
  if (100 <? vehicle_count) || (5 <? stable_vehicles) then
    let alert_type := "bottleneck" in
    let severity := if 10 <? stable_vehicles then "critical" else "high" in
    let title := "Traffic Bottleneck Detected at Junction " +:+ junction_id in
    let description :=
      "High congestion: " +:+ pretty vehicle_count +:+ " vehicles, " +:+
      pretty stable_vehicles +:+ " stable for 10+ mins" in
    match create_alert db junction_id alert_type severity title description "system" with
    | Some (db', _) => db'
    | None => db
    end
  else db.

End AlertService.

(** ** backend/video_processor/video_handler.py *)
Module video_handler.

(** The value stored in [analysis_results] for a feed. *)
Record snapshot := {
  snap_frame_count : Z;
  snap_vehicle_count : Z;
  snap_vehicle_types : gmap string Z;
  snap_timestamp : Z;
  snap_detections : list detection
}.

(** What a worker does that is visible outside the service object: the
    log lines of the module, the assignment that publishes a snapshot, and
    the row handed to [_save_analysis_result]. *)
Inductive effect :=
| log_stream_ended
| log_frame_error (feed_id : string)
| publish (feed_id : string) (snap : snapshot)
| save_analysis_result (feed_id junction_id : string)
    (vehicle_count : Z) (vehicle_types : gmap string Z).

Section Frames.
Context {Frame : Type}.

(** A [cv2.VideoCapture]: whether it is open and the frames it will
    still deliver. *)
Record VideoCapture := {
  isOpened : bool;
  pending : list Frame;
  CAP_PROP_FPS : Q
}.

(** [cap.read()]: [None] is [ret = False]. *)
Definition read (c : VideoCapture) : option (Frame * VideoCapture) :=
  if isOpened c then
    match pending c with
    | frame :: rest =>
        Some (frame, {| isOpened := true; pending := rest;
                        CAP_PROP_FPS := CAP_PROP_FPS c |})
    | [] => None
    end
  else None.

(** [cap.release()]. *)
Definition cap_release (c : VideoCapture) : VideoCapture :=
  {| isOpened := false; pending := pending c; CAP_PROP_FPS := CAP_PROP_FPS c |}.

(** What lies outside the process: the file system, the video sources,
    the stream resolver, the image resize and the detection model. *)
Record world := {
  path_exists : string -> bool;               (* os.path.exists *)
  VideoCapture_of : string -> VideoCapture;   (* cv2.VideoCapture(path or url) *)
  VideoCapture_index : Z -> VideoCapture;     (* cv2.VideoCapture(index) *)
  extract_info : string -> string -> option string;
    (* the yt_dlp block for (url, quality): info['url'], or a raise *)
  resize : Frame -> Frame;                    (* cv2.resize(frame, (640, 480)) *)
  model : Frame -> option (list yolo_result)  (* the YOLO model call *)
}.

(** The four subclasses of [VideoHandler] with their constructor
    arguments. *)
Inductive handler_class :=
| UploadedVideoHandler (file_path : string)
| YouTubeVideoHandler (youtube_url quality : string)
| CCTVCameraHandler (camera_ip : string) (port : Z) (username password : option string)
| LocalCameraHandler (camera_index : Z).

Record VideoHandler := {
  handler : handler_class;
  cap : option VideoCapture;
  frame_rate : Q;
  stream_url : option string    (* video_stream_url / stream_url *)
}.

(** [VideoHandler.__init__] with the subclass fields. *)
Definition new_handler (h : handler_class) : VideoHandler :=
  {| handler := h; cap := None; frame_rate := 30%Q; stream_url := None |}.

(** [VideoHandler.release()]. *)
Definition release (h : VideoHandler) : VideoHandler :=
  {| handler := handler h; cap := cap_release <$> cap h;
     frame_rate := frame_rate h; stream_url := stream_url h |}.

(** [x or 30] on a frame rate. *)
Definition or_30 (x : Q) : Q := if Qeq_bool x 0 then 30%Q else x.

(** The loop of [CCTVCameraHandler.get_video_stream] over the candidate
    URLs: the first capture that opens wins. *)
Fixpoint try_stream_urls (w : world) (h : VideoHandler) (stream_urls : list string)
    : VideoHandler * bool :=
  match stream_urls with
  | [] => (h, false)
  | url :: rest =>
      let c := VideoCapture_of w url in
      if isOpened c then
        ({| handler := handler h; cap := Some c;
            frame_rate := or_30 (CAP_PROP_FPS c); stream_url := Some url |}, true)
      else
        try_stream_urls w
          {| handler := handler h; cap := Some c;
             frame_rate := frame_rate h; stream_url := stream_url h |} rest
  end.

(** [str(x)] of an optional string inside an f-string. *)
Definition str_opt (x : option string) : string := default "None" x.

(** [get_video_stream()] of the four subclasses: the handler afterwards,
    and [true] when the capture is returned, [false] when the method
    raises. *)
Definition get_video_stream (w : world) (h : VideoHandler) : VideoHandler * bool :=
  match handler h with
  | UploadedVideoHandler file_path =>
      if negb (path_exists w file_path) then (h, false)
      else
        let c := VideoCapture_of w file_path in
        if negb (isOpened c) then
          ({| handler := handler h; cap := Some c;
              frame_rate := frame_rate h; stream_url := stream_url h |}, false)
        else
          ({| handler := handler h; cap := Some c;
              frame_rate := CAP_PROP_FPS c; stream_url := stream_url h |}, true)
  | YouTubeVideoHandler youtube_url quality =>
      match extract_info w youtube_url quality with
      | None => (h, false)
      | Some url =>
          let c := VideoCapture_of w url in
          if negb (isOpened c) then
            ({| handler := handler h; cap := Some c;
                frame_rate := frame_rate h; stream_url := Some url |}, false)
          else
            ({| handler := handler h; cap := Some c;
                frame_rate := or_30 (CAP_PROP_FPS c); stream_url := Some url |}, true)
      end
  | CCTVCameraHandler camera_ip port username password =>
      let auth_str :=
        match username with
        | Some u => if bool_decide (u = EmptyString) then EmptyString
                    else u +:+ ":" +:+ str_opt password +:+ "@"
        | None => EmptyString
        end in
      let base := auth_str +:+ camera_ip +:+ ":" +:+ pretty port in
      try_stream_urls w h
        [ "rtsp://" +:+ base +:+ "/stream1";
          "rtsp://" +:+ base +:+ "/h264";
          "http://" +:+ base +:+ "/video" ]
  | LocalCameraHandler camera_index =>
      let c := VideoCapture_index w camera_index in
      if negb (isOpened c) then
        ({| handler := handler h; cap := Some c;
            frame_rate := frame_rate h; stream_url := stream_url h |}, false)
      else
        ({| handler := handler h; cap := Some c;
            frame_rate := or_30 (CAP_PROP_FPS c); stream_url := stream_url h |}, true)
  end.

(** *** class VideoProcessor *)
Record VideoProcessor := {
  video_handler : VideoHandler;
  junction_id : string;
  frame_count : Z;
  is_processing : bool;
  stop_event : bool
}.

Definition new_processor (h : VideoHandler) (junction_id : string) : VideoProcessor :=
  {| video_handler := h; junction_id := junction_id; frame_count := 0;
     is_processing := false; stop_event := false |}.

(** [stop_processing()]. *)
Definition stop_processing (p : VideoProcessor) : VideoProcessor :=
  {| video_handler := video_handler p; junction_id := junction_id p;
     frame_count := frame_count p; is_processing := false; stop_event := true |}.

(** The [finally] block of [process_video_stream]. *)
Definition finally (p : VideoProcessor) : VideoProcessor :=
  {| video_handler := release (video_handler p); junction_id := junction_id p;
     frame_count := frame_count p; is_processing := false;
     stop_event := stop_event p |}.

(** Where the thread that runs [_process_feed] stands: not scheduled
    yet, at the head of the [while] loop of [process_video_stream],
    returned, or ended by the exception that [get_video_stream] raised. *)
Inductive thread_state := NotStarted | InLoop | Finished | Crashed.

(** A worker thread with its arguments [(feed_id, processor)]. The
    processor object is the one the registry refers to: both name it by
    the worker's index. *)
Record worker := {
  feed_id_of : string;
  processor : VideoProcessor;
  thread : thread_state
}.

(** *** class VideoAnalysisService *)
Record VideoAnalysisService := {
  active_processors : gmap string nat;
  analysis_results : gmap string snapshot;
  workers : list worker
}.

Definition new_service : VideoAnalysisService :=
  {| active_processors := ∅; analysis_results := ∅; workers := [] |}.

Definition set_worker (svc : VideoAnalysisService) (i : nat) (wk : worker)
    : VideoAnalysisService :=
  {| active_processors := active_processors svc;
     analysis_results := analysis_results svc;
     workers := <[i := wk]> (workers svc) |}.

(** Body of the [for] loop of [_process_feed] for one yielded
    [(frame, frame_count)]. *)
Definition _process_feed_body (w : world) (now : Z) (svc : VideoAnalysisService)
    (feed_id junction_id : string) (frame : Frame) (frame_count : Z)
    : VideoAnalysisService * list effect :=
  match OpenCVAnalyzer.process_frame (model w) frame with
  | Some detections =>
      if frame_count mod 30 =? 0 then
        let snap :=
          {| snap_frame_count := frame_count;
             snap_vehicle_count := OpenCVAnalyzer.vehicle_count detections;
             snap_vehicle_types := OpenCVAnalyzer.vehicle_types detections;
             snap_timestamp := now;
             snap_detections := OpenCVAnalyzer.detections detections |} in
        ({| active_processors := active_processors svc;
            analysis_results := <[feed_id := snap]> (analysis_results svc);
            workers := workers svc |},
         [publish feed_id snap;
          save_analysis_result feed_id junction_id
            (OpenCVAnalyzer.vehicle_count detections)
            (OpenCVAnalyzer.vehicle_types detections)])
      else (svc, [])
  | None => (svc, [log_frame_error feed_id])
  end.

(** One scheduling slot of worker [i]: the call of [get_video_stream]
    when the thread starts, afterwards one iteration of the [while] loop
    of [process_video_stream] together with the loop body of
    [_process_feed] when that iteration yields. The construction of the
    analyzer at the head of [_process_feed] is taken to succeed; [callback]
    is [None], as [_process_feed] passes none. An exception of
    [get_video_stream] runs the [finally] block and, caught nowhere in
    [_process_feed], ends the thread. *)
Definition worker_step (w : world) (now : Z) (i : nat) (svc : VideoAnalysisService)
    : VideoAnalysisService * list effect :=
  match workers svc !! i with
  | None => (svc, [])
  | Some wk =>
      let p := processor wk in
      let update p' t :=
        set_worker svc i {| feed_id_of := feed_id_of wk; processor := p'; thread := t |} in
      match thread wk with
      | NotStarted =>
          let '(h, ok) := get_video_stream w (video_handler p) in
          let p1 := {| video_handler := h; junction_id := junction_id p;
                       frame_count := frame_count p;
                       is_processing := is_processing p;
                       stop_event := stop_event p |} in
          if ok then
            (update {| video_handler := h; junction_id := junction_id p;
                       frame_count := frame_count p; is_processing := true;
                       stop_event := stop_event p |} InLoop, [])
          else (update (finally p1) Crashed, [])
      | InLoop =>
          if is_processing p && negb (stop_event p) then
            match cap (video_handler p) ≫= read with
            | None => (update (finally p) Finished, [log_stream_ended])
            | Some (frame, c) =>
                let h := {| handler := handler (video_handler p); cap := Some c;
                            frame_rate := frame_rate (video_handler p);
                            stream_url := stream_url (video_handler p) |} in
                let n := frame_count p + 1 in
                let p1 := {| video_handler := h; junction_id := junction_id p;
                             frame_count := n; is_processing := is_processing p;
                             stop_event := stop_event p |} in
                let processed_frame := resize w frame in
                if n mod 30 =? 0 then
                  _process_feed_body w now (update p1 InLoop)
                    (feed_id_of wk) (junction_id p) processed_frame n
                else (update p1 InLoop, [])
            end
          else (update (finally p) Finished, [])
      | Finished | Crashed => (svc, [])
      end
  end.

(** The common body of [add_youtube_feed], [add_cctv_feed] and
    [upload_and_process_video]: build handler and processor, register the
    processor under the new feed id, start the thread, return the id. *)
Definition start_feed (svc : VideoAnalysisService) (h : handler_class)
    (junction_id feed_name : string) (now : Z) : VideoAnalysisService * string :=
  let processor := new_processor (new_handler h) junction_id in
  let feed_id :=
    junction_id +:+ "_" +:+ feed_name +:+ "_" +:+ pretty (Z.quot now 1000000) in
  let i := length (workers svc) in
  ({| active_processors := <[feed_id := i]> (active_processors svc);
      analysis_results := analysis_results svc;
      workers := workers svc ++
        [{| feed_id_of := feed_id; processor := processor; thread := NotStarted |}] |},
   feed_id).

Definition add_youtube_feed (svc : VideoAnalysisService)
    (junction_id youtube_url feed_name : string) (now : Z) :=
  start_feed svc (YouTubeVideoHandler youtube_url "480p") junction_id feed_name now.

Definition add_cctv_feed (svc : VideoAnalysisService)
    (junction_id camera_ip feed_name : string) (username password : option string)
    (now : Z) :=
  start_feed svc (CCTVCameraHandler camera_ip 8080 username password)
    junction_id feed_name now.

Definition upload_and_process_video (svc : VideoAnalysisService)
    (junction_id file_path feed_name : string) (now : Z) :=
  start_feed svc (UploadedVideoHandler file_path) junction_id feed_name now.

(** [get_feed_results(feed_id)]; [None] is the empty dictionary. *)
Definition get_feed_results (svc : VideoAnalysisService) (feed_id : string)
    : option snapshot :=
  analysis_results svc !! feed_id.

(** [stop_feed(feed_id)]. *)
Definition stop_feed (svc : VideoAnalysisService) (feed_id : string)
    : VideoAnalysisService :=
  match active_processors svc !! feed_id with
  | Some i =>
      {| active_processors := delete feed_id (active_processors svc);
         analysis_results := analysis_results svc;
         workers :=
           alter (fun wk => {| feed_id_of := feed_id_of wk;
                               processor := stop_processing (processor wk);
                               thread := thread wk |}) i (workers svc) |}
  | None => svc
  end.

(** *** Executions: calls of the service interleaved with worker slots *)
Inductive call :=
| call_upload_and_process_video (junction_id file_path feed_name : string)
| call_add_youtube_feed (junction_id youtube_url feed_name : string)
| call_add_cctv_feed (junction_id camera_ip feed_name : string)
    (username password : option string)
| call_stop_feed (feed_id : string)
| schedule (i : nat).

Definition step (w : world) (now : Z) (c : call) (svc : VideoAnalysisService)
    : VideoAnalysisService * list effect :=
  match c with
  | call_upload_and_process_video j path name =>
      (fst (upload_and_process_video svc j path name now), [])
  | call_add_youtube_feed j url name =>
      (fst (add_youtube_feed svc j url name now), [])
  | call_add_cctv_feed j ip name user pw =>
      (fst (add_cctv_feed svc j ip name user pw now), [])
  | call_stop_feed feed_id => (stop_feed svc feed_id, [])
  | schedule i => worker_step w now i svc
  end.

(** An execution: timed calls in order; the effects are collected in
    order of occurrence. *)
Fixpoint run (w : world) (trace : list (Z * call)) (svc : VideoAnalysisService)
    : VideoAnalysisService * list effect :=
  match trace with
  | [] => (svc, [])
  | (now, c) :: rest =>
      let '(svc1, e1) := step w now c svc in
      let '(svc2, e2) := run w rest svc1 in
      (svc2, e1 ++ e2)
  end.

(** How one effect changes the snapshot on record for [feed_id]. *)
Definition record_publication (feed_id : string) (acc : option snapshot) (e : effect)
    : option snapshot :=
  match e with
  | publish f snap => if bool_decide (f = feed_id) then Some snap else acc
  | _ => acc
  end.

(** The snapshot published last for [feed_id] among [effects]. *)
Definition last_published (feed_id : string) (effects : list effect) : option snapshot :=
  foldl (record_publication feed_id) None effects.

(** The number of detector failures of [feed_id] since its last
    published snapshot. *)
Definition consecutive_failures (feed_id : string) (effects : list effect) : nat :=
  foldl (fun n e =>
           match e with
           | publish f _ => if bool_decide (f = feed_id) then O else n
           | log_frame_error f => if bool_decide (f = feed_id) then S n else n
           | _ => n
           end) O effects.

(** The worker of index [i] is in its loop and has not been told to stop. *)
Definition worker_running (svc : VideoAnalysisService) (i : nat) : bool :=
  match workers svc !! i with
  | Some wk =>
      match thread wk with
      | InLoop => is_processing (processor wk) && negb (stop_event (processor wk))
      | _ => false
      end
  | None => false
  end.

(** The source handle of worker [i] is open. *)
Definition handle_open (svc : VideoAnalysisService) (i : nat) : bool :=
  match workers svc !! i with
  | Some wk =>
      match cap (video_handler (processor wk)) with
      | Some c => isOpened c
      | None => false
      end
  | None => false
  end.

(** The thread of worker [i] has ended. *)
Definition worker_exited (svc : VideoAnalysisService) (i : nat) : bool :=
  match workers svc !! i with
  | Some wk =>
      match thread wk with
      | Finished | Crashed => true
      | _ => false
      end
  | None => false
  end.

End Frames.

Arguments VideoCapture : clear implicits.
Arguments world : clear implicits.
Arguments VideoHandler : clear implicits.
Arguments VideoProcessor : clear implicits.
Arguments worker : clear implicits.
Arguments VideoAnalysisService : clear implicits.

End video_handler.

(** ** Vocabulary of the properties *)

(** A detections dictionary that carries a vehicle count and nothing else. *)
Definition count_only (count : Z) : VehicleDetector.detection_dict :=
  {| VehicleDetector.vehicle_count := count;
     VehicleDetector.vehicle_types := ∅;
     VehicleDetector.detections := [];
     VehicleDetector.confidence_scores := Some [];
     VehicleDetector.avg_confidence := 0%Q |}.

(** [check_and_create_alerts] called on successive samples
    [(current_time, vehicle_count)] of one junction, with a store that
    answers every call: the analyzer afterwards and the alerts created at
    each sample, in order. *)
Fixpoint run_samples (a : CongestionAnalyzer.analyzer) (junction_id : Z)
    (samples : list (Z * Z))
    : CongestionAnalyzer.analyzer * list (list CongestionAnalyzer.alert_row) :=
  match samples with
  | [] => (a, [])
  | (current_time, count) :: rest =>
      let '(a1, created) :=
        CongestionAnalyzer.check_and_create_alerts CongestionAnalyzer.store_up
          current_time a junction_id (count_only count) None in
      let '(a2, later) := run_samples a1 junction_id rest in
      (a2, created :: later)
  end.

(** The rows with status [active] of a (junction, type) pair. *)
Definition active_alerts (a : CongestionAnalyzer.analyzer) (j : Z) (t : string)
    : list CongestionAnalyzer.alert_row :=
  CongestionAnalyzer.select_eq (CongestionAnalyzer.congestion_alerts a) j "active" t.

(** The call appended one alert of type [bottleneck] for the junction. *)
Definition bottleneck_created (before after : AlertService.database) (j : string) : Prop :=
  exists row,
    AlertService.alerts after = AlertService.alerts before ++ [row] /\
    AlertService.alert_type row = "bottleneck" /\
    AlertService.junction_id row = j.

(** The density [analyze_congestion] computes from a count and an area. *)
Definition density_of (vehicle_count frame_area : Z) : Q :=
  (inject_Z vehicle_count / inject_Z frame_area * 100000)%Q.

(** The score and the level as functions of the density alone, read off the
    four branches of [analyze_congestion] and its final [min]. *)
Definition score_of_density (density : Q) : Q :=
  Qmin (if Qlt_bool density 2 then density * 10
        else if Qlt_bool density 5 then 20 + (density - 2) * 10
        else if Qlt_bool density 10 then 50 + (density - 5) * 10
        else 100) 100.

Definition level_of_density (density : Q) : string :=
  if Qlt_bool density 2 then "low"
  else if Qlt_bool density 5 then "medium"
  else if Qlt_bool density 10 then "high"
  else "critical".




(** The loop invariant of [detect_vehicles] and of [process_frame]: count,
    detections list and histogram agree. *)
Definition counts_agree (d : VehicleDetector.detection_dict) : Prop :=
  VehicleDetector.vehicle_count d = Z.of_nat (length (VehicleDetector.detections d)) /\
  VehicleDetector.vehicle_count d = histogram_total (VehicleDetector.vehicle_types d).

Definition frame_counts_agree (d : OpenCVAnalyzer.frame_dict) : Prop :=
  OpenCVAnalyzer.vehicle_count d = Z.of_nat (length (OpenCVAnalyzer.detections d)) /\
  OpenCVAnalyzer.vehicle_count d = histogram_total (OpenCVAnalyzer.vehicle_types d).

(** The analyzer before any call. *)
Definition new_analyzer : CongestionAnalyzer.analyzer :=
  {| CongestionAnalyzer.congestion_alerts := [];
     CongestionAnalyzer.vehicle_tracking := ∅ |}.

(** Three samples of one junction, one minute apart, with vehicle counts
    35, 40 and 32. *)
Definition samples_35_40_32 : list (Z * Z) :=
  [(0, 35); (60000000, 40); (120000000, 32)].

(** The worker record after one of its scheduling slots, read off
    [worker_step] (lemma [worker_step_workers]). *)
Definition worker_after {Frame : Type} (w : video_handler.world Frame)
    (wk : video_handler.worker Frame) : video_handler.worker Frame :=
  let p := video_handler.processor wk in
  let with_processor p' t :=
    {| video_handler.feed_id_of := video_handler.feed_id_of wk;
       video_handler.processor := p';
       video_handler.thread := t |} in
  match video_handler.thread wk with
  | video_handler.NotStarted =>
      let '(h, ok) := video_handler.get_video_stream w (video_handler.video_handler p) in
      let p1 := {| video_handler.video_handler := h;
                   video_handler.junction_id := video_handler.junction_id p;
                   video_handler.frame_count := video_handler.frame_count p;
                   video_handler.is_processing := video_handler.is_processing p;
                   video_handler.stop_event := video_handler.stop_event p |} in
      if ok then
        with_processor
          {| video_handler.video_handler := h;
             video_handler.junction_id := video_handler.junction_id p;
             video_handler.frame_count := video_handler.frame_count p;
             video_handler.is_processing := true;
             video_handler.stop_event := video_handler.stop_event p |}
          video_handler.InLoop
      else with_processor (video_handler.finally p1) video_handler.Crashed
  | video_handler.InLoop =>
      if video_handler.is_processing p && negb (video_handler.stop_event p) then
        match video_handler.cap (video_handler.video_handler p) ≫= video_handler.read with
        | None => with_processor (video_handler.finally p) video_handler.Finished
        | Some (_, c) =>
            with_processor
              {| video_handler.video_handler :=
                   {| video_handler.handler :=
                        video_handler.handler (video_handler.video_handler p);
                      video_handler.cap := Some c;
                      video_handler.frame_rate :=
                        video_handler.frame_rate (video_handler.video_handler p);
                      video_handler.stream_url :=
                        video_handler.stream_url (video_handler.video_handler p) |};
                 video_handler.junction_id := video_handler.junction_id p;
                 video_handler.frame_count := video_handler.frame_count p + 1;
                 video_handler.is_processing := video_handler.is_processing p;
                 video_handler.stop_event := video_handler.stop_event p |}
              video_handler.InLoop
        end
      else with_processor (video_handler.finally p) video_handler.Finished
  | _ => wk
  end.

(** Worlds for the examples: frames are numbered, one video file exists and
    delivers [frames]; nothing else opens. *)
Definition one_car : list yolo_result :=
  [{| boxes := [{| cls := 2; conf := (9 # 10)%Q; xyxy := (0, 0, 10, 10)%Q |}] |}].

Definition closed_capture : video_handler.VideoCapture nat :=
  {| video_handler.isOpened := false; video_handler.pending := [];
     video_handler.CAP_PROP_FPS := 0%Q |}.

Definition example_world (file : string) (frames : list nat)
    (model : nat -> option (list yolo_result)) : video_handler.world nat :=
  {| video_handler.path_exists := fun path => bool_decide (path = file);
     video_handler.VideoCapture_of := fun path =>
       if bool_decide (path = file)
       then {| video_handler.isOpened := true; video_handler.pending := frames;
               video_handler.CAP_PROP_FPS := 30%Q |}
       else closed_capture;
     video_handler.VideoCapture_index := fun _ => closed_capture;
     video_handler.extract_info := fun _ _ => None;
     video_handler.resize := fun frame => frame;
     video_handler.model := model |}.

(** [n] scheduling slots of worker [i], all at clock reading [now]. *)
Definition slots (now : Z) (i n : nat) : list (Z * video_handler.call) :=
  replicate n (now, video_handler.schedule i).

(** The slots a worker needs to leave its thread once told to stop: one to
    open the source and one to meet the loop test, or the loop test alone. *)
Definition slots_to_exit (t : video_handler.thread_state) : nat :=
  match t with
  | video_handler.NotStarted => 2
  | video_handler.InLoop => 1
  | _ => 0
  end.

(** The number of slots that worker [i] gets in [trace]. *)
Fixpoint count_slots (i : nat) (trace : list (Z * video_handler.call)) : nat :=
  match trace with
  | [] => 0
  | (_, video_handler.schedule k) :: rest =>
      if decide (k = i) then S (count_slots i rest) else count_slots i rest
  | _ :: rest => count_slots i rest
  end.

(** A worker that has been told to stop, is at most [n] slots from the end
    of its thread, and holds no open handle once the thread has ended. *)
Definition stopping {Frame : Type} (n : nat) (wk : video_handler.worker Frame) : Prop :=
  video_handler.stop_event (video_handler.processor wk) = true /\
  (slots_to_exit (video_handler.thread wk) <= n)%nat /\
  (slots_to_exit (video_handler.thread wk) = 0%nat ->
   (video_handler.isOpened <$>
      video_handler.cap (video_handler.video_handler (video_handler.processor wk)))
   <> Some true).

(** The example upload: junction "J1", feed name "cam", created at clock
    reading 0, so that its feed id is "J1_cam_0". *)
Definition example_file : string := "/videos/J1/a.mp4".

Definition example_upload : Z * video_handler.call :=
  (0, video_handler.call_upload_and_process_video "J1" example_file "cam").

(** A three-frame video whose worker has opened the source. *)
Definition world_3_frames : video_handler.world nat :=
  example_world example_file [1; 2; 3]%nat (fun _ => Some one_car).

Definition service_running : video_handler.VideoAnalysisService nat :=
  fst (video_handler.run world_3_frames (example_upload :: slots 1 0 1)
         video_handler.new_service).

(** A thirty-frame video, processed to its thirtieth frame, then stopped. *)
Definition world_30_frames : video_handler.world nat :=
  example_world example_file (seq 1 30) (fun _ => Some one_car).

Definition service_stopped_after_publication
    : video_handler.VideoAnalysisService nat * list video_handler.effect :=
  video_handler.run world_30_frames
    (example_upload :: slots 1 0 31 ++ [(2, video_handler.call_stop_feed "J1_cam_0")])
    video_handler.new_service.

(** A video of [N] frames on each of which the detector raises. *)
Definition world_failing (N : nat) : video_handler.world nat :=
  example_world example_file (replicate N 0%nat) (fun _ => None).

(** The service with the example upload as its only feed, when the worker
    has read [n] of the [N] frames without publishing. *)
Definition failing_service (N n : nat) : video_handler.VideoAnalysisService nat :=
  {| video_handler.active_processors := {[ "J1_cam_0" := 0%nat ]};
     video_handler.analysis_results := ∅;
     video_handler.workers :=
       [ {| video_handler.feed_id_of := "J1_cam_0";
            video_handler.processor :=
              {| video_handler.video_handler :=
                   {| video_handler.handler :=
                        video_handler.UploadedVideoHandler example_file;
                      video_handler.cap :=
                        Some {| video_handler.isOpened := true;
                                video_handler.pending := replicate (N - n) 0%nat;
                                video_handler.CAP_PROP_FPS := 30%Q |};
                      video_handler.frame_rate := 30%Q;
                      video_handler.stream_url := None |};
                 video_handler.junction_id := "J1";
                 video_handler.frame_count := Z.of_nat n;
                 video_handler.is_processing := true;
                 video_handler.stop_event := false |};
            video_handler.thread := video_handler.InLoop |} ] |}.

(** Every snapshot on record belongs to the feed id of some worker that the
    service has started. *)
Definition results_have_workers {Frame : Type}
    (svc : video_handler.VideoAnalysisService Frame) : Prop :=
  forall feed_id : string,
    is_Some (video_handler.analysis_results svc !! feed_id) ->
    exists (i : nat) (wk : video_handler.worker Frame),
      video_handler.workers svc !! i = Some wk /\
      video_handler.feed_id_of wk = feed_id.

(** * Further code of the repository, and the vocabulary of its properties *)

(** ** Detection results *)

(** The boxes of a model answer, in the order in which the two loops of
    [detect_vehicles] visit them. *)
Definition all_boxes (results : list yolo_result) : list yolo_box :=
  concat (map boxes results).

(** The boxes that [detect_vehicles] keeps. *)
Definition vehicle_boxes (results : list yolo_result) : list yolo_box :=
  filter (fun box => cls box ∈ VehicleDetector.vehicle_classes) (all_boxes results).

(** The detection that [detect_vehicles] records for a box. *)
Definition box_detection (box : yolo_box) : detection :=
  {| type := VehicleDetector._get_vehicle_type (cls box);
     confidence := conf box;
     bbox := xyxy box |}.

(** The number of detections of type [k]. *)
Definition count_type (k : string) (ds : list detection) : Z :=
  Z.of_nat (length (filter (fun d => type d = k) ds)).

(** The accumulator of the loops of [detect_vehicles] after the vehicle
    boxes [vs]. *)
Definition collected (d : VehicleDetector.detection_dict) (vs : list yolo_box) : Prop :=
  VehicleDetector.detections d = map box_detection vs /\
  VehicleDetector.vehicle_count d = Z.of_nat (length vs) /\
  VehicleDetector.confidence_scores d = Some (map conf vs) /\
  forall k, default 0 (VehicleDetector.vehicle_types d !! k)
            = count_type k (map box_detection vs).

(** ** The per-vehicle tracker *)

(** A listed vehicle that is tracked in [stable_vehicles], whose distance
    from its stored position, as the code computes it in binary64
    arithmetic, is below 10, and that has been tracked for more than the
    threshold. *)
Definition stationary {Id : Type} `{Countable Id} (now : Q)
    (stable_vehicles : gmap Id OpenCVAnalyzer.stable_entry)
    (v : OpenCVAnalyzer.vehicle) : bool :=
  match stable_vehicles !! OpenCVAnalyzer.id v with
  | Some e =>
      OpenCVAnalyzer.distance_lt_10 (OpenCVAnalyzer.position v)
        (OpenCVAnalyzer.entry_position e) &&
      Qlt_bool OpenCVAnalyzer.stable_threshold_seconds
        (now - OpenCVAnalyzer.start_time e)
  | None => false
  end.

(** The entry of a listed vehicle after the call. *)
Definition entry_after {Id : Type} `{Countable Id} (now : Q)
    (stable_vehicles : gmap Id OpenCVAnalyzer.stable_entry)
    (v : OpenCVAnalyzer.vehicle) : OpenCVAnalyzer.stable_entry :=
  match stable_vehicles !! OpenCVAnalyzer.id v with
  | Some e =>
      if OpenCVAnalyzer.distance_lt_10 (OpenCVAnalyzer.position v)
           (OpenCVAnalyzer.entry_position e)
      then e
      else {| OpenCVAnalyzer.entry_position := OpenCVAnalyzer.position v;
              OpenCVAnalyzer.start_time := now |}
  | None => {| OpenCVAnalyzer.entry_position := OpenCVAnalyzer.position v;
               OpenCVAnalyzer.start_time := now |}
  end.

(** ** Alert generation *)

(** The key of a junction in [vehicle_tracking]. *)
Definition junction_key (j : Z) : string := "junction_" +:+ pretty j.

(** The time since which the junction counts as tracked in a call at [now]:
    the [first_detected] of its entry, or [now] when it has none. *)
Definition tracked_since (now : Z) (a : CongestionAnalyzer.analyzer) (j : Z) : Z :=
  match CongestionAnalyzer.vehicle_tracking a !! junction_key j with
  | Some t => CongestionAnalyzer.first_detected t
  | None => now
  end.

(** The [duration] of the call, in minutes. *)
Definition tracked_minutes (now : Z) (a : CongestionAnalyzer.analyzer) (j : Z) : Q :=
  (total_seconds (now - tracked_since now a j) / 60)%Q.

(** The call finds an active [stable_vehicle] alert of the junction with a
    duration of 10 minutes or more. *)
Definition has_stable_alert (a : CongestionAnalyzer.analyzer) (j : Z) : bool :=
  existsb (fun alert => CongestionAnalyzer.stable_threshold_minutes
                        <=? CongestionAnalyzer.stable_duration_minutes alert)
          (CongestionAnalyzer.select_eq (CongestionAnalyzer.congestion_alerts a)
             j "active" "stable_vehicle").

(** The rows that a call appends when its [select] returns. *)
Definition high_congestion_rows (store : CongestionAnalyzer.store_answers)
    (a : CongestionAnalyzer.analyzer) (j : Z)
    (count : Z) (feed : option Z) : list CongestionAnalyzer.alert_row :=
  if (30 <? count) && negb (CongestionAnalyzer.insert_raises store "high_congestion") then
    [{| CongestionAnalyzer.id :=
          Z.of_nat (length (CongestionAnalyzer.congestion_alerts a)) + 1;
        CongestionAnalyzer.junction_id := j;
        CongestionAnalyzer.video_feed_id := feed;
        CongestionAnalyzer.alert_type := "high_congestion";
        CongestionAnalyzer.stable_duration_minutes := 0;
        CongestionAnalyzer.alert_status := "active" |}]
  else [].

Definition stable_vehicle_rows (store : CongestionAnalyzer.store_answers) (now : Z)
    (a : CongestionAnalyzer.analyzer) (j : Z)
    (count : Z) (feed : option Z) : list CongestionAnalyzer.alert_row :=
  if Qlt_bool (inject_Z CongestionAnalyzer.stable_threshold_minutes)
       (tracked_minutes now a j) && negb (has_stable_alert a j)
     && negb (CongestionAnalyzer.insert_raises store "stable_vehicle")
  then
    [{| CongestionAnalyzer.id :=
          Z.of_nat (length (CongestionAnalyzer.congestion_alerts a)
                    + length (high_congestion_rows store a j count feed)) + 1;
        CongestionAnalyzer.junction_id := j;
        CongestionAnalyzer.video_feed_id := feed;
        CongestionAnalyzer.alert_type := "stable_vehicle";
        CongestionAnalyzer.stable_duration_minutes := py_int (tracked_minutes now a j);
        CongestionAnalyzer.alert_status := "active" |}]
  else [].

(** [check_and_create_alerts] called one call after the other, each with
    the answers of the store during the call, its clock reading, junction,
    detections and feed. *)
Fixpoint run_checks (a : CongestionAnalyzer.analyzer)
    (calls : list (CongestionAnalyzer.store_answers * Z * Z
                   * VehicleDetector.detection_dict * option Z))
    : CongestionAnalyzer.analyzer :=
  match calls with
  | [] => a
  | (store, now, j, d, feed) :: rest =>
      run_checks
        (fst (CongestionAnalyzer.check_and_create_alerts store now a j d feed)) rest
  end.

(** Every [stable_vehicle] row has a duration of 10 minutes or more, and no
    junction has more than one active [stable_vehicle] row. *)
Definition stable_alerts_unique (table : list CongestionAnalyzer.alert_row) : Prop :=
  (forall r, r ∈ table -> CongestionAnalyzer.alert_type r = "stable_vehicle" ->
             10 <= CongestionAnalyzer.stable_duration_minutes r) /\
  forall j, (length (CongestionAnalyzer.select_eq table j "active" "stable_vehicle") <= 1)%nat.

(** ** Video sources *)

(** The candidate URLs of a CCTV camera, in the order in which
    [get_video_stream] tries them. *)
Definition cctv_urls (camera_ip : string) (port : Z) (username password : option string)
    : list string :=
  let auth_str :=
    match username with
    | Some u => if bool_decide (u = EmptyString) then EmptyString
                else u +:+ ":" +:+ video_handler.str_opt password +:+ "@"
    | None => EmptyString
    end in
  let base := auth_str +:+ camera_ip +:+ ":" +:+ pretty port in
  [ "rtsp://" +:+ base +:+ "/stream1";
    "rtsp://" +:+ base +:+ "/h264";
    "http://" +:+ base +:+ "/video" ].

(** The handle of a handler is open. *)
Definition handler_open {Frame : Type} (h : video_handler.VideoHandler Frame) : bool :=
  match video_handler.cap h with
  | Some c => video_handler.isOpened c
  | None => false
  end.

(** ** The feed registry and its workers *)

(** Every registry entry names a worker that exists and that was started
    for that feed id. *)
Definition registry_consistent {Frame : Type}
    (svc : video_handler.VideoAnalysisService Frame) : Prop :=
  forall (feed_id : string) (i : nat),
    video_handler.active_processors svc !! feed_id = Some i ->
    exists wk, video_handler.workers svc !! i = Some wk /\
               video_handler.feed_id_of wk = feed_id.

(** A worker holds no capture before its thread has run, an open handle
    while the thread is in its loop, and no open handle once it has ended. *)
Definition handle_follows_thread {Frame : Type} (wk : video_handler.worker Frame) : Prop :=
  match video_handler.thread wk with
  | video_handler.NotStarted =>
      video_handler.cap (video_handler.video_handler (video_handler.processor wk)) = None
  | video_handler.InLoop =>
      handler_open (video_handler.video_handler (video_handler.processor wk)) = true
  | _ =>
      handler_open (video_handler.video_handler (video_handler.processor wk)) = false
  end.

(** A snapshot as [_process_feed] stores them. *)
Definition snapshot_well_formed (snap : video_handler.snapshot) : Prop :=
  0 < video_handler.snap_frame_count snap /\
  video_handler.snap_frame_count snap mod 30 = 0 /\
  video_handler.snap_vehicle_count snap
    = Z.of_nat (length (video_handler.snap_detections snap)) /\
  video_handler.snap_vehicle_count snap
    = histogram_total (video_handler.snap_vehicle_types snap).

(** All workers of the service satisfy [P]. *)
Definition all_workers {Frame : Type} (P : video_handler.worker Frame -> Prop)
    (svc : video_handler.VideoAnalysisService Frame) : Prop :=
  forall (i : nat) wk, video_handler.workers svc !! i = Some wk -> P wk.

(** ** backend/video_processor.py: whole videos *)
Module video_processor.

(** A dictionary returned by one of the processing methods: the success
    dictionary, or [{"success": False, "error": str(e)}]. *)
Inductive outcome (A : Type) :=
| success (stats : A)
| failure (error : string).
Arguments success {A} stats.
Arguments failure {A} error.

(** The success dictionary of [process_stream]. *)
Record stream_stats := {
  frames_processed : Z;
  stream_total_vehicles : Z;
  stream_average_vehicles : Q;
  stream_peak_vehicles : Z;
  stream_detections : list VehicleDetector.detection_dict
}.

(** The success dictionary of [process_video_file]. *)
Record file_stats := {
  total_frames : Z;
  duration_seconds : Q;
  fps : Q;
  file_total_vehicles : Z;
  file_average_vehicles : Q;
  file_peak_vehicles : Z;
  file_detections : list VehicleDetector.detection_dict
}.

(** A row of the table [vehicle_detections]. *)
Record vehicle_detection_row := {
  row_junction_id : Z;
  row_video_feed_id : option Z;
  row_vehicle_count : Z;
  row_vehicle_types : gmap string Z;
  confidence_score : Q;
  is_congested : bool
}.

(** The local variables of the two frame loops. *)
Record totals := {
  frame_count : Z;
  total_vehicles : Z;
  peak_vehicles : Z;
  all_detections : list VehicleDetector.detection_dict
}.

Section Videos.
Context {Frame : Type}.

(** What lies outside the process: the video sources with the frame count
    their header announces, the image resize, the detection model, the
    stream resolver ([info['url']], or the text of what it raises) and the
    database ([.insert(row).execute()] on a table raises with a text, or
    stores the row). *)
Record world := {
  VideoCapture_of : string -> video_handler.VideoCapture Frame;
  CAP_PROP_FRAME_COUNT : string -> Q;
  resize : Frame -> Frame;
  model : Frame -> option (list yolo_result);
  extract_info : string -> string + string;
  insert_error : list vehicle_detection_row -> vehicle_detection_row -> option string
}.

Section Callbacks.
(** What a callback changes. *)
Context {S : Type}.

(** A callback: the state after the call, and the text of the exception
    when the call raises. *)
Definition callback_type : Type :=
  S -> VehicleDetector.detection_dict -> Z -> S * option string.

(** [if callback: callback(detections, frame_count)]. *)
Definition call_back (callback : option callback_type) (s : S)
    (detections : VehicleDetector.detection_dict) (frame_count : Z) : S * option string :=
  match callback with
  | Some f => f s detections frame_count
  | None => (s, None)
  end.

(** [frame_count < max_frames]; [process_video_file] has no such bound
    ([None]). *)
Definition below (max_frames : option Z) (frame_count : Z) : bool :=
  match max_frames with
  | Some m => frame_count <? m
  | None => true
  end.

(** The [while] loop of [process_stream] and of [process_video_file] on an
    open capture whose [read] still delivers [frames]: the loop variables,
    the callback state, the frames left in the capture and the text of the
    exception when a callback raised. The log line of [process_video_file]
    is left out. *)
Fixpoint frame_loop (w : world) (callback : option callback_type)
    (max_frames : option Z) (frames : list Frame) (t : totals) (s : S)
    : totals * S * list Frame * option string :=
  if below max_frames (frame_count t) then
    match frames with
    | [] => (t, s, [], None)                      (* ret is False: break *)
    | frame :: rest =>
        let frame := resize w frame in
        let detections := VehicleDetector.detect_vehicles (model w) frame in
        let total_vehicles := total_vehicles t + VehicleDetector.vehicle_count detections in
        let peak_vehicles := Z.max (peak_vehicles t) (VehicleDetector.vehicle_count detections) in
        let all_detections := all_detections t ++ [detections] in
        match call_back callback s detections (frame_count t) with
        | (s, Some e) =>
            ({| frame_count := frame_count t; total_vehicles := total_vehicles;
                peak_vehicles := peak_vehicles; all_detections := all_detections |},
             s, rest, Some e)
        | (s, None) =>
            frame_loop w callback max_frames rest
              {| frame_count := frame_count t + 1; total_vehicles := total_vehicles;
                 peak_vehicles := peak_vehicles; all_detections := all_detections |} s
        end
    end
  else (t, s, frames, None).

Definition no_frames : totals :=
  {| frame_count := 0; total_vehicles := 0; peak_vehicles := 0; all_detections := [] |}.

(** The capture after the loop took frames from it. *)
Definition cap_with (cap : video_handler.VideoCapture Frame) (rest : list Frame)
    : video_handler.VideoCapture Frame :=
  {| video_handler.isOpened := video_handler.isOpened cap;
     video_handler.pending := rest;
     video_handler.CAP_PROP_FPS := video_handler.CAP_PROP_FPS cap |}.

(** [total_vehicles / max(frame_count, 1)]. *)
Definition average (total_vehicles frame_count : Z) : Q :=
  (inject_Z total_vehicles / inject_Z (Z.max frame_count 1))%Q.

(** [process_stream(stream_url, callback, max_frames)]: the returned
    dictionary, the capture object as the last statement of the call leaves
    it, and the callback state. What the interpreter does with the capture
    once the local variable is gone lies outside the embedding. *)
Definition process_stream (w : world) (stream_url : string)
    (callback : option callback_type) (max_frames : Z) (s : S)
    : outcome stream_stats * video_handler.VideoCapture Frame * S :=
  let cap := VideoCapture_of w stream_url in
  if negb (video_handler.isOpened cap) then
    (failure ("Cannot open stream: " +:+ stream_url), cap, s)
  else
    match frame_loop w callback (Some max_frames) (video_handler.pending cap) no_frames s with
    | (_, s, rest, Some e) => (failure e, cap_with cap rest, s)
    | (t, s, rest, None) =>
        (success {| frames_processed := frame_count t;
                    stream_total_vehicles := total_vehicles t;
                    stream_average_vehicles := average (total_vehicles t) (frame_count t);
                    stream_peak_vehicles := peak_vehicles t;
                    stream_detections := all_detections t |},
         video_handler.cap_release (cap_with cap rest), s)
    end.

(** [process_youtube_video(youtube_url, callback)]; no capture object
    exists when the resolver raised. *)
Definition process_youtube_video (w : world) (youtube_url : string)
    (callback : option callback_type) (s : S)
    : outcome stream_stats * option (video_handler.VideoCapture Frame) * S :=
  match extract_info w youtube_url with
  | inl stream_url =>
      let '(result, cap, s) := process_stream w stream_url callback 300 s in
      (result, Some cap, s)
  | inr e => (failure e, None, s)
  end.

(** [process_video_file(video_path, callback)]. *)
Definition process_video_file (w : world) (video_path : string)
    (callback : option callback_type) (s : S)
    : outcome file_stats * video_handler.VideoCapture Frame * S :=
  let cap := VideoCapture_of w video_path in
  if negb (video_handler.isOpened cap) then
    (failure ("Cannot open video file: " +:+ video_path), cap, s)
  else
    let fps := video_handler.CAP_PROP_FPS cap in
    let total_frames := py_int (CAP_PROP_FRAME_COUNT w video_path) in
    match frame_loop w callback None (video_handler.pending cap) no_frames s with
    | (_, s, rest, Some e) => (failure e, cap_with cap rest, s)
    | (t, s, rest, None) =>
        let avg_vehicles := average (total_vehicles t) (frame_count t) in
        let duration_seconds :=
          if Qlt_bool 0 fps then (inject_Z total_frames / fps)%Q else 0%Q in
        (success {| total_frames := frame_count t;
                    duration_seconds := duration_seconds;
                    fps := fps;
                    file_total_vehicles := total_vehicles t;
                    file_average_vehicles := avg_vehicles;
                    file_peak_vehicles := peak_vehicles t;
                    file_detections := take 100 (all_detections t) |},
         video_handler.cap_release (cap_with cap rest), s)
    end.

End Callbacks.

(** The row that [detection_callback] inserts. *)
Definition detection_row (junction_id : Z) (video_feed_id : option Z)
    (detections : VehicleDetector.detection_dict) : vehicle_detection_row :=
  {| row_junction_id := junction_id;
     row_video_feed_id := video_feed_id;
     row_vehicle_count := VehicleDetector.vehicle_count detections;
     row_vehicle_types := VehicleDetector.vehicle_types detections;
     confidence_score := VehicleDetector.avg_confidence detections;
     is_congested := 30 <? VehicleDetector.vehicle_count detections |}.

(** [detection_callback(detections, frame_num)] of [process_and_store], on
    the table [vehicle_detections]. *)
Definition detection_callback (w : world) (junction_id : Z) (video_feed_id : option Z)
    : @callback_type (list vehicle_detection_row) :=
  fun table detections frame_num =>
    let row := detection_row junction_id video_feed_id detections in
    match insert_error w table row with
    | Some e => (table, Some e)
    | None => (table ++ [row], None)
    end.

(** [VideoProcessor.process_and_store(video_path, junction_id,
    video_feed_id)], as the awaited coroutine runs. *)
Definition process_and_store (w : world) (table : list vehicle_detection_row)
    (video_path : string) (junction_id : Z) (video_feed_id : option Z)
    : outcome file_stats * video_handler.VideoCapture Frame
      * list vehicle_detection_row :=
  process_video_file w video_path
    (Some (detection_callback w junction_id video_feed_id)) table.

End Videos.

Arguments world : clear implicits.

(** The frames that a loop took from a capture, as detected. *)
Definition detected {Frame : Type} (w : world Frame) (frames : list Frame)
    : list VehicleDetector.detection_dict :=
  map (fun frame => VehicleDetector.detect_vehicles (model w) (resize w frame)) frames.

(** [sum] and [max] of the vehicle counts of a list of detections. *)
Definition count_sum (ds : list VehicleDetector.detection_dict) : Z :=
  foldr (fun d acc => VehicleDetector.vehicle_count d + acc) 0 ds.

Definition count_max (ds : list VehicleDetector.detection_dict) : Z :=
  foldr (fun d acc => Z.max (VehicleDetector.vehicle_count d) acc) 0 ds.

End video_processor.

(** A camera stream that delivers [frames], on which the model sees one
    car per frame; the table takes two rows and then rejects inserts. *)
Definition stream_world (frames : list nat) : video_processor.world nat :=
  {| video_processor.VideoCapture_of := fun url =>
       if String.eqb url "rtsp://camera/stream1"
       then {| video_handler.isOpened := true; video_handler.pending := frames;
               video_handler.CAP_PROP_FPS := 25%Q |}
       else closed_capture;
     video_processor.CAP_PROP_FRAME_COUNT := fun _ => inject_Z (Z.of_nat (length frames));
     video_processor.resize := fun frame => frame;
     video_processor.model := fun _ => Some one_car;
     video_processor.extract_info := fun _ => inr "Unsupported URL";
     video_processor.insert_error := fun table _ =>
       if (length table <? 2)%nat then None else Some "connection lost" |}.

(** A callback that raises at every call. *)
Definition raising_callback : @video_processor.callback_type unit :=
  fun s _ _ => (s, Some "callback failed").

(** ** backend/video_processor/opencv_analyzer.py: whole videos *)
Module opencv_analyzer.

(** The dictionary [vehicle_data] of [process_video]. *)
Record vehicle_data := {
  total_vehicles : Z;
  vehicle_types : gmap string Z;
  congestion_level : string;
  bottleneck_detected : bool;
  stable_vehicles : Z;
  frames_processed : Z;
  average_confidence : Q
}.

(** Body of [for box in boxes], on [vehicle_data] and
    [total_confidence]. *)
Definition count_box (acc : vehicle_data * Q) (box : yolo_box) : vehicle_data * Q :=
  let '(data, total_confidence) := acc in
  match OpenCVAnalyzer.vehicle_classes !! cls box with
  | Some vehicle_type =>
      ({| total_vehicles := total_vehicles data + 1;
          vehicle_types := histogram_incr vehicle_type (vehicle_types data);
          congestion_level := congestion_level data;
          bottleneck_detected := bottleneck_detected data;
          stable_vehicles := stable_vehicles data;
          frames_processed := frames_processed data;
          average_confidence := average_confidence data |},
       (total_confidence + conf box)%Q)
  | None => acc
  end.

Section Videos.
Context {Frame : Type}.

(** The [while True] loop on an open capture whose [read] still delivers
    [frames]: [frame_count], [vehicle_data] and [total_confidence] at the
    [break], or [None] when the model call raised, and the frames left in
    the capture. *)
Fixpoint read_frames (model : Frame -> option (list yolo_result))
    (frames : list Frame) (frame_count : Z) (acc : vehicle_data * Q)
    : option (Z * (vehicle_data * Q)) * list Frame :=
  match frames with
  | [] => (Some (frame_count, acc), [])
  | frame :: rest =>
      let frame_count := frame_count + 1 in
      match model frame with
      | Some results =>
          read_frames model rest frame_count
            (foldl (fun acc result => foldl count_box acc (boxes result)) acc results)
      | None => (None, rest)
      end
  end.

(** [process_video(video_path)]: the returned dictionary, or [None] when
    the method raises, and the capture object as the last statement of the
    call leaves it. *)
Definition process_video
    (VideoCapture_of : string -> video_handler.VideoCapture Frame)
    (model : Frame -> option (list yolo_result)) (video_path : string)
    : option vehicle_data * video_handler.VideoCapture Frame :=
  let cap := VideoCapture_of video_path in
  if negb (video_handler.isOpened cap) then (None, cap)
  else
    let data :=
      {| total_vehicles := 0; vehicle_types := ∅; congestion_level := "low";
         bottleneck_detected := false; stable_vehicles := 0;
         frames_processed := 0; average_confidence := 0%Q |} in
    match read_frames model (video_handler.pending cap) 0 (data, 0%Q) with
    | (None, rest) =>
        (None, {| video_handler.isOpened := true; video_handler.pending := rest;
                  video_handler.CAP_PROP_FPS := video_handler.CAP_PROP_FPS cap |})
    | (Some (frame_count, (data, total_confidence)), rest) =>
        (Some {| total_vehicles := total_vehicles data;
                 vehicle_types := vehicle_types data;
                 congestion_level :=
                   if 100 <? total_vehicles data then "critical"
                   else if 50 <? total_vehicles data then "high"
                   else if 20 <? total_vehicles data then "medium"
                   else congestion_level data;
                 bottleneck_detected := bottleneck_detected data;
                 stable_vehicles := stable_vehicles data;
                 frames_processed := frame_count;
                 average_confidence :=
                   if 0 <? total_vehicles data
                   then (total_confidence / inject_Z (total_vehicles data))%Q
                   else average_confidence data |},
         video_handler.cap_release
           {| video_handler.isOpened := true; video_handler.pending := rest;
              video_handler.CAP_PROP_FPS := video_handler.CAP_PROP_FPS cap |})
    end.

(** [process_frame(frame)['vehicle_count']] where the call returns. *)
Definition frame_vehicles (model : Frame -> option (list yolo_result)) (frame : Frame) : Z :=
  match OpenCVAnalyzer.process_frame model frame with
  | Some d => OpenCVAnalyzer.vehicle_count d
  | None => 0
  end.

(** The sum of these counts over the frames of a video. *)
Definition video_vehicles (model : Frame -> option (list yolo_result))
    (frames : list Frame) : Z :=
  foldr (fun frame acc => frame_vehicles model frame + acc) 0 frames.

End Videos.

End opencv_analyzer.

(** What the box loop of [process_video] keeps from [acc0] to [acc]: the
    fields it does not count in, and the difference between the total and
    the histogram. *)
Definition counting (acc0 acc : opencv_analyzer.vehicle_data * Q) : Prop :=
  opencv_analyzer.congestion_level (fst acc) = opencv_analyzer.congestion_level (fst acc0) /\
  opencv_analyzer.bottleneck_detected (fst acc)
    = opencv_analyzer.bottleneck_detected (fst acc0) /\
  opencv_analyzer.stable_vehicles (fst acc) = opencv_analyzer.stable_vehicles (fst acc0) /\
  opencv_analyzer.average_confidence (fst acc)
    = opencv_analyzer.average_confidence (fst acc0) /\
  opencv_analyzer.total_vehicles (fst acc)
    - histogram_total (opencv_analyzer.vehicle_types (fst acc))
    = opencv_analyzer.total_vehicles (fst acc0)
      - histogram_total (opencv_analyzer.vehicle_types (fst acc0)).

(** A video file of the given frames under one path. *)
Definition video_file (frames : list nat) (path : string) : video_handler.VideoCapture nat :=
  if String.eqb path "/videos/J1/a.mp4"
  then {| video_handler.isOpened := true; video_handler.pending := frames;
          video_handler.CAP_PROP_FPS := 25%Q |}
  else closed_capture.

(** ** notifications/alert_service.py: the notifications of an alert *)
Module alert_service.

(** A row of [inspectors] joined with the e-mail address of its user, as
    the query of [send_notifications_to_inspectors] selects it. A NULL
    flag is [false], a NULL phone number is [None]. *)
Record inspector := {
  inspector_id : Z;
  inspector_junction_id : string;
  email : string;
  phone_number : option string;
  email_notification_enabled : bool;
  sms_notification_enabled : bool
}.

(** A row of the table [alert_notifications]. *)
Record notification_row := {
  alert_id : Z;
  notified_inspector_id : Z;
  notification_method : string;
  status : string
}.

(** A message handed to the SMTP server. *)
Record mail := { mail_to : string; subject : string }.

(** The database behind [self.db_connection] (the two tables used here and
    whether the connection answers) and the messages the SMTP server has
    accepted. *)
Record state := {
  inspectors : list inspector;
  alert_notifications : list notification_row;
  db_up : bool;
  outbox : list mail
}.

(** [_log_notification(inspector_id, alert_id, method, status)]: a failed
    insert is logged and dropped. *)
Definition _log_notification (st : state) (inspector_id alert_id : Z)
    (method status : string) : state :=
  if db_up st then
    {| inspectors := inspectors st;
       alert_notifications := alert_notifications st ++
         [{| alert_id := alert_id; notified_inspector_id := inspector_id;
             notification_method := method; status := status |}];
       db_up := db_up st;
       outbox := outbox st |}
  else st.

Section Smtp.
(** Whether the SMTP block (connect, [starttls], [login], [send_message])
    goes through for a recipient; it raises otherwise. *)
Context (smtp_ok : string -> bool).

(** [send_email_alert(to_email, title, description, inspector_id, alert_id)]. *)
Definition send_email_alert (st : state) (to_email title description : string)
    (inspector_id alert_id : Z) : state * bool :=
  let subject := "Track-V Alert: " +:+ title in
  if smtp_ok to_email then
    let st := {| inspectors := inspectors st;
                 alert_notifications := alert_notifications st;
                 db_up := db_up st;
                 outbox := outbox st ++ [{| mail_to := to_email; subject := subject |}] |} in
    (_log_notification st inspector_id alert_id "email" "sent", true)
  else (_log_notification st inspector_id alert_id "email" "failed", false).

(** [send_sms_alert(phone_number, title, description, inspector_id,
    alert_id)]: the body only logs. *)
Definition send_sms_alert (st : state) (phone_number title description : string)
    (inspector_id alert_id : Z) : state * bool :=
  (_log_notification st inspector_id alert_id "sms" "sent", true).

(** Truth value of [phone]: a phone number that is neither NULL nor
    empty. *)
Definition truthy (phone : option string) : bool :=
  match phone with
  | Some (String _ _) => true
  | _ => false
  end.

(** Body of [for inspector in inspectors]. *)
Definition notify_inspector (alert_id : Z) (title description : string)
    (st : state) (i : inspector) : state :=
  let st :=
    if email_notification_enabled i
    then fst (send_email_alert st (email i) title description (inspector_id i) alert_id)
    else st in
  if sms_notification_enabled i && truthy (phone_number i)
  then fst (send_sms_alert st (default EmptyString (phone_number i)) title description
              (inspector_id i) alert_id)
  else st.

(** [send_notifications_to_inspectors(junction_id, alert_id, title,
    description)]: when the query raises, the error is logged and nothing
    is sent. *)
Definition send_notifications_to_inspectors (st : state) (junction_id : string)
    (alert_id : Z) (title description : string) : state :=
  if db_up st then
    let selected :=
      filter (fun i => inspector_junction_id i = junction_id) (inspectors st) in
    foldl (notify_inspector alert_id title description) st selected
  else st.

End Smtp.

(** The rows that the notifications of one inspector add. *)
Definition rows_of (smtp_ok : string -> bool) (alert_id : Z) (i : inspector)
    : list notification_row :=
  (if email_notification_enabled i
   then [{| alert_id := alert_id; notified_inspector_id := inspector_id i;
            notification_method := "email";
            status := if smtp_ok (email i) then "sent" else "failed" |}]
   else []) ++
  (if sms_notification_enabled i && truthy (phone_number i)
   then [{| alert_id := alert_id; notified_inspector_id := inspector_id i;
            notification_method := "sms"; status := "sent" |}]
   else []).

(** The messages that the notifications of one inspector hand over. *)
Definition mails_of (smtp_ok : string -> bool) (title : string) (i : inspector)
    : list mail :=
  if email_notification_enabled i && smtp_ok (email i)
  then [{| mail_to := email i; subject := "Track-V Alert: " +:+ title |}]
  else [].

End alert_service.

(** ** backend/api/video_routes.py: the file name check of the upload route *)
Module video_routes.
Import Stdlib.Strings.Ascii.

Definition ALLOWED_EXTENSIONS : list string :=
  ["mp4"; "avi"; "mov"; "mkv"; "flv"; "wmv"].

(** [c.lower()] on an ASCII character. *)
Definition lower_char (c : Ascii.ascii) : Ascii.ascii :=
  let n := Ascii.nat_of_ascii c in
  if (65 <=? n)%nat && (n <=? 90)%nat then Ascii.ascii_of_nat (n + 32) else c.

(** [s.lower()] on an ASCII string. *)
Fixpoint lower (s : string) : string :=
  match s with
  | EmptyString => EmptyString
  | String c rest => String (lower_char c) (lower rest)
  end.

(** [filename.rsplit('.', 1)[1]], the text after the last dot, where
    ['.' in filename]; [None] where the name has no dot. *)
Fixpoint after_last_dot (filename : string) : option string :=
  match filename with
  | EmptyString => None
  | String c rest =>
      match after_last_dot rest with
      | Some ext => Some ext
      | None => if Ascii.eqb c "."%char then Some rest else None
      end
  end.

(** [allowed_file(filename)], for a file name of ASCII characters. *)
Definition allowed_file (filename : string) : bool :=
  match after_last_dot filename with
  | Some ext => bool_decide (lower ext ∈ ALLOWED_EXTENSIONS)
  | None => false
  end.

(** ['.' in s]. *)
Fixpoint has_dot (s : string) : bool :=
  match s with
  | EmptyString => false
  | String c rest => Ascii.eqb c "."%char || has_dot rest
  end.

(** [s.isascii()]. *)
Fixpoint isascii (s : string) : bool :=
  match s with
  | EmptyString => true
  | String c rest => (Ascii.nat_of_ascii c <? 128)%nat && isascii rest
  end.

End video_routes.

(** The call is [stop_feed(feed_id)]. *)
Definition stops_feed (feed_id : string) (c : video_handler.call) : bool :=
  match c with
  | video_handler.call_stop_feed f => bool_decide (f = feed_id)
  | _ => false
  end.

(** No worker that the registry refers to has been told to stop. *)
Definition registered_not_stopped {Frame : Type}
    (svc : video_handler.VideoAnalysisService Frame) : Prop :=
  forall (feed_id : string) (i : nat) wk,
    video_handler.active_processors svc !! feed_id = Some i ->
    video_handler.workers svc !! i = Some wk ->
    video_handler.stop_event (video_handler.processor wk) = false.

(** Two inspectors at junction J1 and one at J2, with the database up. *)
Definition example_inspectors : alert_service.state :=
  {| alert_service.inspectors :=
       [{| alert_service.inspector_id := 1; alert_service.inspector_junction_id := "J1";
           alert_service.email := "a@example.org";
           alert_service.phone_number := Some "5550100";
           alert_service.email_notification_enabled := true;
           alert_service.sms_notification_enabled := true |};
        {| alert_service.inspector_id := 2; alert_service.inspector_junction_id := "J1";
           alert_service.email := "b@example.org";
           alert_service.phone_number := None;
           alert_service.email_notification_enabled := false;
           alert_service.sms_notification_enabled := true |};
        {| alert_service.inspector_id := 3; alert_service.inspector_junction_id := "J2";
           alert_service.email := "c@example.org";
           alert_service.phone_number := Some "5550101";
           alert_service.email_notification_enabled := true;
           alert_service.sms_notification_enabled := true |}];
     alert_service.alert_notifications := [];
     alert_service.db_up := true;
     alert_service.outbox := [] |}.

(** * Properties *)

(** ** Numeric helpers *)

Lemma Qlt_bool_true (x y : Q) : Qlt_bool x y = true <-> (x < y)%Q.
Proof.
  unfold Qlt_bool. rewrite negb_true_iff. split.
  - intros Hb. apply Qnot_le_lt. intros Hle. apply Qle_bool_iff in Hle. congruence.
  - intros Hlt. destruct (Qle_bool y x) eqn:E; [|reflexivity].
    apply Qle_bool_iff in E. lra.
Qed.

Lemma Qlt_bool_false (x y : Q) : Qlt_bool x y = false <-> (y <= x)%Q.
Proof. unfold Qlt_bool. rewrite negb_false_iff. apply Qle_bool_iff. Qed.

(** Case analysis on a float comparison, with the order fact in context. *)
Ltac case_Qlt x y :=
  let E := fresh "E" in
  destruct (Qlt_bool x y) eqn:E;
  [apply Qlt_bool_true in E | apply Qlt_bool_false in E].

(** ** The congestion scorer *)
Section Scorer.
Import VehicleDetector.

(** [analyze_congestion] is the three functions of the density, unless the
    area is zero. *)
Lemma analyze_congestion_eq (d : detection_dict) (frame_shape : Z * Z) :
  analyze_congestion d frame_shape =
  let frame_area := fst frame_shape * snd frame_shape in
  if frame_area =? 0 then None
  else
    let density := density_of (vehicle_count d) frame_area in
    Some {| congestion_score := score_of_density density;
            congestion_level := level_of_density density;
            vehicle_density := density;
            cd_vehicle_count := vehicle_count d |}.
Proof.
  unfold analyze_congestion, score_of_density, level_of_density, density_of.
  cbv zeta. destruct (_ =? 0); [reflexivity|].
  set (density := (inject_Z (vehicle_count d) / _ * 100000)%Q).
  destruct (Qlt_bool density 2); [reflexivity|].
  destruct (Qlt_bool density 5); [reflexivity|].
  destruct (Qlt_bool density 10); reflexivity.
Qed.

Lemma score_of_density_le_100 (density : Q) : (score_of_density density <= 100)%Q.
Proof. unfold score_of_density. apply Q.le_min_r. Qed.

Lemma density_of_nonneg (vehicle_count frame_area : Z) :
  0 <= vehicle_count -> 0 < frame_area ->
  (0 <= density_of vehicle_count frame_area)%Q.
Proof.
  intros Hc Ha. unfold density_of.
  assert (0 < inject_Z frame_area)%Q as Hpos
    by (unfold Qlt; simpl; lia).
  assert (0 <= inject_Z vehicle_count)%Q as Hnn
    by (unfold Qle; simpl; lia).
  assert (0 <= inject_Z vehicle_count / inject_Z frame_area)%Q as Hq
    by (apply Qle_shift_div_l; [exact Hpos | lra]).
  lra.
Qed.

Lemma score_of_density_nonneg (density : Q) :
  (0 <= density)%Q -> (0 <= score_of_density density)%Q.
Proof.
  intros Hd. unfold score_of_density. apply Q.min_glb; [|lra].
  case_Qlt density 2%Q; case_Qlt density 5%Q; case_Qlt density 10%Q; lra.
Qed.

Lemma score_of_density_mono (d1 d2 : Q) :
  (d1 <= d2)%Q -> (score_of_density d1 <= score_of_density d2)%Q.
Proof.
  intros Hle. unfold score_of_density.
  apply Q.min_le_compat_r.
  case_Qlt d1 2%Q; case_Qlt d2 2%Q;
  case_Qlt d1 5%Q; case_Qlt d2 5%Q;
  case_Qlt d1 10%Q; case_Qlt d2 10%Q; lra.
Qed.

Lemma score_of_density_bands (density : Q) :
  ((density < 2 -> score_of_density density == density * 10) /\
   (2 <= density < 5 -> score_of_density density == 20 + (density - 2) * 10) /\
   (5 <= density < 10 -> score_of_density density == 50 + (density - 5) * 10) /\
   (10 <= density -> score_of_density density == 100))%Q.
Proof.
  unfold score_of_density.
  case_Qlt density 2%Q; case_Qlt density 5%Q; case_Qlt density 10%Q;
    repeat split; intros; try lra;
    (rewrite Q.min_l by lra; reflexivity) || (rewrite Q.min_r by lra; reflexivity).
Qed.

Lemma level_of_density_bands (density : Q) :
  ((density < 2 -> level_of_density density = "low") /\
   (2 <= density < 5 -> level_of_density density = "medium") /\
   (5 <= density < 10 -> level_of_density density = "high") /\
   (10 <= density -> level_of_density density = "critical"))%Q.
Proof.
  unfold level_of_density.
  case_Qlt density 2%Q; case_Qlt density 5%Q; case_Qlt density 10%Q;
    repeat split; intros; try reflexivity; lra.
Qed.

(** C3. For a non-negative vehicle count and a positive frame area the
    scorer returns a result whose density is (count / area) * 100000 and
    whose level and score follow the four bands, each inclusive of its lower
    bound: below 2 low with score density * 10; from 2 below 5 medium with
    20 + (density - 2) * 10; from 5 below 10 high with
    50 + (density - 5) * 10; from 10 on critical with score 100. The score
    lies between 0 and 100, never exceeding 100. At densities 1, 3, 7 and 12 the scores are 10, 30, 70
    and 100 with levels low, medium, high and critical. *)
Theorem analyze_congestion_piecewise (d : detection_dict) (height width : Z) :
  0 <= vehicle_count d -> 0 < height * width ->
  exists r,
    analyze_congestion d (height, width) = Some r /\
    vehicle_density r = density_of (vehicle_count d) (height * width) /\
    let density := vehicle_density r in
    ((density < 2 ->
        congestion_level r = "low" /\ congestion_score r == density * 10) /\
     (2 <= density < 5 ->
        congestion_level r = "medium" /\ congestion_score r == 20 + (density - 2) * 10) /\
     (5 <= density < 10 ->
        congestion_level r = "high" /\ congestion_score r == 50 + (density - 5) * 10) /\
     (10 <= density ->
        congestion_level r = "critical" /\ congestion_score r == 100) /\
     0 <= congestion_score r <= 100 /\
     (density == 1 -> congestion_score r == 10 /\ congestion_level r = "low") /\
     (density == 3 -> congestion_score r == 30 /\ congestion_level r = "medium") /\
     (density == 7 -> congestion_score r == 70 /\ congestion_level r = "high") /\
     (density == 12 -> congestion_score r == 100 /\ congestion_level r = "critical"))%Q.
Proof.
  intros Hcount Harea. rewrite analyze_congestion_eq. cbn [fst snd]. cbv zeta.
  destruct (Z.eqb_spec (height * width) 0) as [E|_]; [lia|].
  eexists. split; [reflexivity|]. cbn [vehicle_density congestion_level congestion_score].
  split; [reflexivity|].
  set (density := density_of _ _).
  destruct (score_of_density_bands density) as (S1 & S2 & S3 & S4).
  destruct (level_of_density_bands density) as (L1 & L2 & L3 & L4).
  repeat split.
  - apply L1; assumption.
  - apply S1; assumption.
  - apply L2; split; tauto.
  - apply S2; split; tauto.
  - apply L3; split; tauto.
  - apply S3; split; tauto.
  - apply L4; assumption.
  - apply S4; assumption.
  - apply score_of_density_nonneg, density_of_nonneg; assumption.
  - apply score_of_density_le_100.
  - rewrite S1 by lra. lra.
  - apply L1. lra.
  - rewrite S2 by lra. lra.
  - apply L2. lra.
  - rewrite S3 by lra. lra.
  - apply L3. lra.
  - rewrite S4 by lra. lra.
  - apply L4. lra.
Qed.

Lemma analyze_congestion_piecewise_witness :
  0 <= vehicle_count (count_only 7) /\ 0 < 250 * 400 /\
  exists r,
    analyze_congestion (count_only 7) (250, 400) = Some r /\
    (congestion_score r == 70)%Q /\ congestion_level r = "high".
Proof.
  split; [simpl; lia|]. split; [lia|].
  destruct (analyze_congestion_piecewise (count_only 7) 250 400)
    as (r & Hr & Hd & H); [simpl; lia | lia |].
  exists r. split; [exact Hr|].
  apply H. rewrite Hd. reflexivity.
Defined.

(** C4. The congestion score is monotonic non-decreasing in the density:
    of two inputs over frames of equal (positive) area, the one with the
    smaller or equal density gets the smaller or equal score, for any
    densities, so also across the band boundaries 2, 5 and 10. *)
Theorem congestion_score_monotone (d1 d2 : detection_dict) (shape1 shape2 : Z * Z) :
  fst shape1 * snd shape1 = fst shape2 * snd shape2 ->
  0 < fst shape1 * snd shape1 ->
  (density_of (vehicle_count d1) (fst shape1 * snd shape1) <=
   density_of (vehicle_count d2) (fst shape2 * snd shape2))%Q ->
  exists r1 r2,
    analyze_congestion d1 shape1 = Some r1 /\
    analyze_congestion d2 shape2 = Some r2 /\
    (vehicle_density r1 <= vehicle_density r2)%Q /\
    (congestion_score r1 <= congestion_score r2)%Q.
Proof.
  intros Heq Hpos Hle. rewrite !analyze_congestion_eq. cbv zeta.
  rewrite <- Heq in *.
  destruct (Z.eqb_spec (fst shape1 * snd shape1) 0) as [E|_]; [lia|].
  do 2 eexists. split; [reflexivity|]. split; [reflexivity|].
  cbn [vehicle_density congestion_score].
  split; [exact Hle|]. apply score_of_density_mono, Hle.
Qed.

(** The instance straddles the boundary at density 5: densities 4 and 5. *)
Lemma congestion_score_monotone_witness :
  exists r1 r2,
    analyze_congestion (count_only 4) (250, 400) = Some r1 /\
    analyze_congestion (count_only 5) (400, 250) = Some r2 /\
    (vehicle_density r1 <= vehicle_density r2)%Q /\
    (congestion_score r1 <= congestion_score r2)%Q.
Proof.
  apply (congestion_score_monotone
           (count_only 4) (count_only 5) (250, 400) (400, 250)).
  - reflexivity.
  - reflexivity.
  - vm_compute. discriminate.
Defined.

End Scorer.

(** ** Detection results *)

Lemma histogram_total_empty : histogram_total ∅ = 0.
Proof. unfold histogram_total. apply map_fold_empty. Qed.

Lemma histogram_total_incr (k : string) (h : gmap string Z) :
  histogram_total (histogram_incr k h) = histogram_total h + 1.
Proof.
  unfold histogram_total, histogram_incr.
  destruct (h !! k) as [v|] eqn:E; simpl.
  - rewrite <- insert_delete_eq.
    rewrite map_fold_insert_L; [| intros; lia | apply lookup_delete_eq].
    rewrite (map_fold_delete_L _ _ k v h); [lia | intros; lia | exact E].
  - rewrite map_fold_insert_L; [lia | intros; lia | exact E].
Qed.

Section DetectVehicles.
Import VehicleDetector.

Lemma add_box_agree (d : detection_dict) (box : yolo_box) :
  counts_agree d -> counts_agree (add_box d box).
Proof.
  intros [Hlen Hsum]. unfold add_box. case_bool_decide; [|split; assumption].
  split; cbn [vehicle_count detections vehicle_types].
  - rewrite length_app. simpl. lia.
  - rewrite histogram_total_incr. lia.
Qed.

Lemma foldl_add_box_agree (bs : list yolo_box) (d : detection_dict) :
  counts_agree d -> counts_agree (foldl add_box d bs).
Proof.
  revert d. induction bs as [|b bs IH]; intros d Hd; simpl; [exact Hd|].
  apply IH, add_box_agree, Hd.
Qed.

Lemma collect_agree (results : list yolo_result) : counts_agree (collect results).
Proof.
  unfold collect.
  assert (counts_agree empty_detections) as H0
    by (split; [reflexivity | symmetry; apply histogram_total_empty]).
  revert H0. generalize empty_detections.
  induction results as [|r rs IH]; intros d Hd; simpl; [exact Hd|].
  apply IH, foldl_add_box_agree, Hd.
Qed.

End DetectVehicles.

Section ProcessFrame.
Import OpenCVAnalyzer.

Lemma frame_add_box_agree (d : frame_dict) (box : yolo_box) :
  frame_counts_agree d -> frame_counts_agree (add_box d box).
Proof.
  intros [Hlen Hsum]. unfold add_box.
  destruct (vehicle_classes !! cls box); [|split; assumption].
  split; cbn [vehicle_count detections vehicle_types].
  - rewrite length_app. simpl. lia.
  - rewrite histogram_total_incr. lia.
Qed.

Lemma process_frame_agree {Frame : Type}
    (model : Frame -> option (list yolo_result)) (frame : Frame) (d : frame_dict) :
  process_frame model frame = Some d -> frame_counts_agree d.
Proof.
  unfold process_frame. destruct (model frame) as [results|]; [|discriminate].
  intros [= <-].
  assert (frame_counts_agree empty_frame_dict) as H0
    by (split; [reflexivity | symmetry; apply histogram_total_empty]).
  revert H0. generalize empty_frame_dict.
  induction results as [|r rs IH]; intros d Hd; simpl; [exact Hd|].
  apply IH. clear IH. revert d Hd.
  induction (boxes r) as [|b bs IHb]; intros d Hd; simpl; [exact Hd|].
  apply IHb, frame_add_box_agree, Hd.
Qed.

End ProcessFrame.

(** C10, as the code has it. For every frame the dictionary returned by
    [detect_vehicles] has a vehicle count equal to the length of its
    detections list and to the sum of its type histogram. When the model
    call raises, the fallback dictionary is returned: count 0, no
    detections, empty histogram, average confidence 0; [detect_vehicles]
    returns a dictionary in every case (it never raises). [process_frame] of
    the OpenCV analyzer has no fallback: it returns exactly when its model
    call returns, and raises when the model call raises; the same agreement
    holds for every dictionary that it returns. *)
Theorem detect_vehicles_consistent {Frame : Type}
    (model : Frame -> option (list yolo_result)) (frame : Frame) :
  let d := VehicleDetector.detect_vehicles model frame in
  VehicleDetector.vehicle_count d = Z.of_nat (length (VehicleDetector.detections d)) /\
  VehicleDetector.vehicle_count d = histogram_total (VehicleDetector.vehicle_types d) /\
  (model frame = None ->
     VehicleDetector.vehicle_count d = 0 /\
     VehicleDetector.detections d = [] /\
     VehicleDetector.vehicle_types d = ∅ /\
     VehicleDetector.avg_confidence d = 0%Q) /\
  (forall fd, OpenCVAnalyzer.process_frame model frame = Some fd ->
     OpenCVAnalyzer.vehicle_count fd = Z.of_nat (length (OpenCVAnalyzer.detections fd)) /\
     OpenCVAnalyzer.vehicle_count fd = histogram_total (OpenCVAnalyzer.vehicle_types fd)) /\
  (is_Some (model frame) -> is_Some (OpenCVAnalyzer.process_frame model frame)) /\
  (model frame = None -> OpenCVAnalyzer.process_frame model frame = None).
Proof.
  cbv zeta. unfold VehicleDetector.detect_vehicles, OpenCVAnalyzer.process_frame.
  destruct (model frame) as [results|] eqn:E.
  - cbn [VehicleDetector.vehicle_count VehicleDetector.detections
         VehicleDetector.vehicle_types].
    destruct (collect_agree results) as [Hlen Hsum].
    split; [exact Hlen|]. split; [exact Hsum|]. split; [discriminate|].
    split; [|split; [intros _; eexists; reflexivity | discriminate]].
    intros fd Hfd. apply (process_frame_agree model frame).
    unfold OpenCVAnalyzer.process_frame. rewrite E. exact Hfd.
  - split; [reflexivity|]. split; [symmetry; apply histogram_total_empty|].
    split; [intros _; repeat split|].
    split; [discriminate|]. split; [intros [x Hx]; discriminate | reflexivity].
Qed.

(** C10 as stated fails for [process_frame], the second function it names,
    on a frame on which the model call raises: [process_frame] has no
    handler and raises, so it returns no dictionary at all, where
    [detect_vehicles] returns its fallback dictionary. *)
Lemma process_frame_raises_with_model :
  let model := fun _ : unit => @None (list yolo_result) in
  OpenCVAnalyzer.process_frame model tt = None /\
  VehicleDetector.detect_vehicles model tt = VehicleDetector.fallback_detections.
Proof. cbv zeta. split; reflexivity. Qed.

(** ** The stability trackers *)

Lemma key_eqb_refl (k : VehicleDetector.vehicle_key) : VehicleDetector.key_eqb k k = true.
Proof.
  destruct k as [[f x] y]. unfold VehicleDetector.key_eqb.
  rewrite Z.eqb_refl. cbn [andb].
  rewrite (proj2 (Qeq_bool_iff x x)) by reflexivity.
  rewrite (proj2 (Qeq_bool_iff y y)) by reflexivity. reflexivity.
Qed.

(** The key-based table of [VehicleDetector] has no displacement test: a
    detection whose key is in the table only counts up, [first_seen] and the
    stored bbox stay as they are; any other detection gets an entry of its
    own; the second loop only deletes. *)
Section KeyTableEntries.
Import VehicleDetector.







End KeyTableEntries.

Section TrackerProperties.
Import OpenCVAnalyzer.
Context {Id : Type} `{Countable Id}.



End TrackerProperties.



(** ** Alert generation *)
Section Alerts.
Import CongestionAnalyzer.

(** With the store answering, a count above 30 inserts a [high_congestion]
    row whatever the table already holds: this insert is preceded by no
    query for such a row. *)
Lemma high_congestion_inserted_unconditionally (store : store_answers) (now : Z)
    (a : analyzer) (j : Z) (d : VehicleDetector.detection_dict) (feed : option Z) :
  select_raises store = false -> insert_raises store "high_congestion" = false ->
  30 < VehicleDetector.vehicle_count d ->
  let row := {| id := Z.of_nat (length (congestion_alerts a)) + 1;
                junction_id := j; video_feed_id := feed;
                alert_type := "high_congestion";
                stable_duration_minutes := 0; alert_status := "active" |} in
  exists later,
    snd (check_and_create_alerts store now a j d feed) = row :: later /\
    exists rest,
      congestion_alerts (fst (check_and_create_alerts store now a j d feed)) =
      congestion_alerts a ++ row :: rest.
Proof.
  intros Hselect Hinsert Hcount. cbv zeta. unfold check_and_create_alerts.
  rewrite Hselect, Hinsert.
  destruct (Z.ltb_spec 30 (VehicleDetector.vehicle_count d)) as [_|Hle]; [|lia].
  cbn [insert]. cbv zeta.
  repeat match goal with
         | |- context [if ?b then _ else _] => destruct b
         end; cbn [fst snd congestion_alerts insert];
    try (exists []; split; [reflexivity|]; exists []; reflexivity).
  eexists. split; [reflexivity|]. eexists. rewrite <- app_assoc. reflexivity.
Qed.

(** The sibling path: an active [stable_vehicle] row of the junction with a
    duration of 10 minutes or more suppresses a further [stable_vehicle]
    row. *)
Lemma stable_vehicle_deduplicated (store : store_answers) (now : Z) (a : analyzer)
    (j : Z) (d : VehicleDetector.detection_dict) (feed : option Z) (old : alert_row) :
  old ∈ congestion_alerts a ->
  junction_id old = j -> alert_status old = "active" ->
  alert_type old = "stable_vehicle" -> 10 <= stable_duration_minutes old ->
  forall row, row ∈ snd (check_and_create_alerts store now a j d feed) ->
              alert_type row = "high_congestion".
Proof.
  intros Hin Hj Hs Ht Hdur row. unfold check_and_create_alerts.
  destruct (select_raises store);
    [cbn [snd]; intros Hrow; apply not_elem_of_nil in Hrow; contradiction|].
  assert (existsb (fun alert => stable_threshold_minutes <=? stable_duration_minutes alert)
            (select_eq (congestion_alerts a) j "active" "stable_vehicle") = true) as Hhas.
  { apply existsb_exists. exists old. split.
    - apply list_elem_of_In. unfold select_eq. apply list_elem_of_filter. tauto.
    - apply Z.leb_le. exact Hdur. }
  rewrite Hhas. cbn [negb insert]. cbv zeta.
  repeat match goal with
         | |- context [if ?b then _ else _] => destruct b
         end; cbn [snd]; intros Hrow;
    repeat match goal with
           | H : _ ∈ [] |- _ => apply not_elem_of_nil in H; contradiction
           | H : _ ∈ _ :: _ |- _ => apply elem_of_cons in H; destruct H as [->|H]
           end; reflexivity.
Qed.

(** C1, evaluated on the code. For the counts 35, 40, 32 sampled one minute
    apart at one junction, starting without any alert and with a store that
    answers every call, the generator creates a [high_congestion] alert at
    each of the three samples, and three active [high_congestion] alerts of
    that junction are in the store afterwards. *)
Theorem high_congestion_alert_at_every_sample :
  let '(a, created) := run_samples new_analyzer 1 samples_35_40_32 in
  map (map alert_type) created =
    [["high_congestion"]; ["high_congestion"]; ["high_congestion"]] /\
  length (active_alerts a 1 "high_congestion") = 3%nat.
Proof. vm_compute. split; reflexivity. Qed.

End Alerts.

Section Bottleneck.
Import AlertService.

(** C5, as the code has it. With the database reachable, a bottleneck alert
    is created exactly when the aggregate vehicle count exceeds 100 or the
    stable-vehicle count exceeds 5; when neither holds, no alert is created
    and the database is left as it was. *)
Theorem bottleneck_alert_iff_either_threshold (db : database) (j : string)
    (vehicle_count stable_vehicles : Z) :
  db_up db = true ->
  (bottleneck_created db (detect_bottleneck_and_alert db j vehicle_count stable_vehicles) j
   <-> (100 < vehicle_count \/ 5 < stable_vehicles)) /\
  (~ (100 < vehicle_count \/ 5 < stable_vehicles) ->
   detect_bottleneck_and_alert db j vehicle_count stable_vehicles = db).
Proof.
  intros Hup. unfold detect_bottleneck_and_alert, create_alert. rewrite Hup.
  destruct (Z.ltb_spec 100 vehicle_count) as [Hv|Hv];
    destruct (Z.ltb_spec 5 stable_vehicles) as [Hs|Hs]; cbn [orb].
  1-3: split; [|intros Hn; exfalso; apply Hn; lia];
       split; [intros _; lia|]; intros _;
       eexists; split; [reflexivity|]; split; reflexivity.
  split; [|reflexivity].
  split; [|lia]. intros (row & Hrow & _).
  apply (f_equal length) in Hrow. rewrite length_app in Hrow. simpl in Hrow. lia.
Qed.

Lemma bottleneck_alert_iff_either_threshold_witness :
  let db := {| alerts := []; db_up := true; notified := [] |} in
  bottleneck_created db (detect_bottleneck_and_alert db "J1" 101 0) "J1".
Proof.
  cbv zeta.
  apply (proj1 (bottleneck_alert_iff_either_threshold
                  {| alerts := []; db_up := true; notified := [] |} "J1" 101 0
                  eq_refl)).
  left. lia.
Defined.

(** The claim with "and" fails at 101 vehicles of which none is stable: the
    conjunction is false and a bottleneck alert is created. *)
Lemma bottleneck_alert_without_stable_vehicles :
  let db := {| alerts := []; db_up := true; notified := [] |} in
  ~ (100 < 101 /\ 5 < 0) /\
  bottleneck_created db (detect_bottleneck_and_alert db "J1" 101 0) "J1".
Proof.
  cbv zeta. split; [lia|].
  eexists. split; [vm_compute; reflexivity|]. split; reflexivity.
Qed.

End Bottleneck.

(** ** The feed registry and its workers *)
Section Feeds.
Import video_handler.
Context {Frame : Type} (w : world Frame).

Implicit Types (svc : VideoAnalysisService Frame) (wk : worker Frame).

(** Every step changes the snapshot on record for a feed exactly as its
    effects say. *)
Lemma step_results (now : Z) (c : call) svc (feed_id : string) :
  get_feed_results (fst (step w now c svc)) feed_id =
  foldl (record_publication feed_id) (get_feed_results svc feed_id)
        (snd (step w now c svc)).
Proof.
  unfold get_feed_results. destruct c; cbn [step fst snd foldl]; try reflexivity.
  - unfold stop_feed. case_match; reflexivity.
  - unfold worker_step, _process_feed_body, set_worker.
    repeat case_match; simplify_eq; cbn; try reflexivity.
    case_bool_decide; simplify_map_eq; reflexivity.
Qed.

Lemma run_results (trace : list (Z * call)) svc (feed_id : string) :
  get_feed_results (fst (run w trace svc)) feed_id =
  foldl (record_publication feed_id) (get_feed_results svc feed_id)
        (snd (run w trace svc)).
Proof.
  revert svc. induction trace as [|[now c] rest IH]; intros svc; [reflexivity|].
  cbn [run]. pose proof (step_results now c svc feed_id) as Hstep.
  destruct (step w now c svc) as [svc1 e1]. specialize (IH svc1).
  destruct (run w rest svc1) as [svc2 e2]. cbn [fst snd] in *.
  rewrite foldl_app, <- Hstep. exact IH.
Qed.

Lemma record_publication_None (feed_id : string) (effects : list effect) (acc : option snapshot) :
  foldl (record_publication feed_id) acc effects = None <->
  acc = None /\ forall snap, publish feed_id snap ∉ effects.
Proof.
  revert acc. induction effects as [|e es IH]; intros acc; cbn [foldl].
  - split; [intros ->; split; [reflexivity|]; intros snap Hin;
            apply not_elem_of_nil in Hin; contradiction | tauto].
  - rewrite IH. split.
    + intros [Hacc Hes]. destruct e; cbn in Hacc;
        try (split; [exact Hacc|]; intros snap [Hin|Hin]%elem_of_cons;
             [discriminate | exact (Hes snap Hin)]).
      case_bool_decide; [discriminate|].
      split; [exact Hacc|]. intros s [Hin|Hin]%elem_of_cons; [congruence | exact (Hes s Hin)].
    + intros [-> Hes]. split.
      * destruct e; cbn; try reflexivity. case_bool_decide; [|reflexivity].
        subst. exfalso. apply (Hes snap). left.
      * intros snap Hin. apply (Hes snap). right. exact Hin.
Qed.

Lemma worker_after_feed_id wk : feed_id_of (worker_after w wk) = feed_id_of wk.
Proof. unfold worker_after. repeat case_match; reflexivity. Qed.

(** A slot of worker [i] rewrites that worker alone and leaves the registry
    as it is. *)
Lemma worker_step_workers (now : Z) (i : nat) svc wk :
  workers svc !! i = Some wk ->
  workers (fst (worker_step w now i svc)) = <[i := worker_after w wk]> (workers svc) /\
  active_processors (fst (worker_step w now i svc)) = active_processors svc.
Proof.
  intros Hwk. unfold worker_step, worker_after, _process_feed_body, set_worker.
  rewrite Hwk.
  repeat case_match; simplify_eq; cbn [fst workers active_processors];
    split; try reflexivity;
    symmetry; apply list_insert_id; destruct wk; cbn in *; congruence.
Qed.

Lemma worker_step_missing (now : Z) (i : nat) svc :
  workers svc !! i = None -> worker_step w now i svc = (svc, []).
Proof. intros Hwk. unfold worker_step. rewrite Hwk. reflexivity. Qed.

Lemma worker_step_results_dom (now : Z) (i : nat) svc wk (feed_id : string) :
  workers svc !! i = Some wk ->
  is_Some (analysis_results (fst (worker_step w now i svc)) !! feed_id) ->
  is_Some (analysis_results svc !! feed_id) \/ feed_id = feed_id_of wk.
Proof.
  intros Hwk. unfold worker_step, _process_feed_body, set_worker. rewrite Hwk.
  repeat case_match; simplify_eq; cbn [fst analysis_results]; auto.
  destruct (decide (feed_id_of wk = feed_id)) as [<-|Hne]; [auto|].
  rewrite lookup_insert_ne by exact Hne. auto.
Qed.

Lemma step_results_have_workers (now : Z) (c : call) svc :
  results_have_workers svc -> results_have_workers (fst (step w now c svc)).
Proof.
  intros Hinv feed_id.
  destruct c as [j path name|j url name|j ip name user pw|fid|k]; cbn [step fst].
  1-3: cbn [start_feed upload_and_process_video add_youtube_feed add_cctv_feed
            fst workers analysis_results];
       intros Hsome; destruct (Hinv feed_id Hsome) as (i & wk & Hwk & Hid);
       exists i, wk; split; [|exact Hid];
       rewrite lookup_app_l by (apply lookup_lt_is_Some; eauto); exact Hwk.
  - unfold stop_feed. destruct (active_processors svc !! fid) as [k|]; [|apply Hinv].
    cbn [analysis_results workers]. intros Hsome.
    destruct (Hinv feed_id Hsome) as (i & wk & Hwk & Hid).
    destruct (decide (k = i)) as [->|Hne].
    + eexists i, _. split; [rewrite list_lookup_alter_eq, Hwk; reflexivity | exact Hid].
    + exists i, wk. split; [rewrite list_lookup_alter_ne by exact Hne; exact Hwk | exact Hid].
  - destruct (workers svc !! k) as [wk|] eqn:Hk;
      [|rewrite worker_step_missing by exact Hk; apply Hinv].
    assert (k < length (workers svc))%nat as Hlt by (apply lookup_lt_is_Some; eauto).
    intros Hsome. rewrite (proj1 (worker_step_workers now k svc wk Hk)).
    destruct (worker_step_results_dom now k svc wk feed_id Hk Hsome) as [Hold| ->].
    + destruct (Hinv feed_id Hold) as (i & wk' & Hwk' & Hid).
      destruct (decide (k = i)) as [->|Hne].
      * exists i, (worker_after w wk). split; [apply list_lookup_insert_eq; exact Hlt|].
        rewrite worker_after_feed_id. congruence.
      * exists i, wk'. split; [rewrite list_lookup_insert_ne by exact Hne; exact Hwk' | exact Hid].
    + exists k, (worker_after w wk). split; [apply list_lookup_insert_eq; exact Hlt|].
      apply worker_after_feed_id.
Qed.

Lemma run_results_have_workers (trace : list (Z * call)) svc :
  results_have_workers svc -> results_have_workers (fst (run w trace svc)).
Proof.
  revert svc. induction trace as [|[now c] rest IH]; intros svc Hinv; [exact Hinv|].
  cbn [run]. pose proof (step_results_have_workers now c svc Hinv) as Hstep.
  destruct (step w now c svc) as [svc1 e1]. cbn [fst] in Hstep.
  specialize (IH svc1 Hstep). destruct (run w rest svc1) as [svc2 e2]. exact IH.
Qed.

(** C9, as the code has it. After any execution of the service (calls and
    worker slots interleaved, starting from the new service),
    [get_feed_results] of a feed id returns the snapshot published last under
    that id, and returns empty exactly when no snapshot was published under
    it; in particular it returns empty for an id under which no feed was
    ever created. Whether the id is in the registry at the time of the call
    does not enter into the answer. *)
Theorem get_feed_results_last_published (trace : list (Z * call)) (feed_id : string) :
  let '(svc, effects) := run w trace new_service in
  get_feed_results svc feed_id = last_published feed_id effects /\
  (get_feed_results svc feed_id = None <->
   forall snap, publish feed_id snap ∉ effects) /\
  ((forall i wk, workers svc !! i = Some wk -> feed_id_of wk <> feed_id) ->
   get_feed_results svc feed_id = None).
Proof.
  pose proof (run_results trace new_service feed_id) as Hrun.
  pose proof (run_results_have_workers trace (@new_service Frame)) as Hinv.
  destruct (run w trace new_service) as [svc effects]. cbn [fst snd] in *.
  split; [exact Hrun|]. split.
  - rewrite Hrun, record_publication_None. unfold get_feed_results. cbn.
    rewrite lookup_empty. tauto.
  - intros Hnone. unfold get_feed_results.
    destruct (analysis_results svc !! feed_id) as [snap|] eqn:E; [|reflexivity].
    destruct (Hinv) with (feed_id := feed_id) as (i & wk & Hwk & Hid).
    + intros fid [x Hx]. cbn in Hx. rewrite lookup_empty in Hx. discriminate.
    + rewrite E. eexists. reflexivity.
    + exfalso. exact (Hnone i wk Hwk Hid).
Qed.

End Feeds.

Section Workers.
Import video_handler.
Context {Frame : Type} (w : world Frame).

Implicit Types (svc : VideoAnalysisService Frame) (wk : worker Frame).

Lemma start_feed_lookup svc (h : handler_class) (j name : string) (now : Z) :
  workers (fst (start_feed svc h j name now)) !! length (workers svc) =
  Some {| feed_id_of := snd (start_feed svc h j name now);
          processor := new_processor (new_handler h) j;
          thread := NotStarted |}.
Proof.
  cbn [start_feed fst snd workers].
  rewrite lookup_app_r by lia. rewrite Nat.sub_diag. reflexivity.
Qed.

(** C6, as the code has it. Feed creation does not open the source. For
    every source descriptor, also one whose open fails, creation adds the
    new processor to the registry under the new feed id, adds its worker
    with the thread not yet run and no capture, changes nothing else and
    returns the feed id. A failing open is met by the worker in its first
    slot, which ends the worker with the handle not open, [is_processing]
    false, no effect and no snapshot, and leaves the registry, the entry of
    this feed included, and every other worker as they were. *)
Theorem feed_creation_defers_open svc (h : handler_class) (j name : string)
    (now later : Z) :
  let '(svc1, feed_id) := start_feed svc h j name now in
  let i := length (workers svc) in
  feed_id = j +:+ "_" +:+ name +:+ "_" +:+ pretty (Z.quot now 1000000) /\
  active_processors svc1 = <[feed_id := i]> (active_processors svc) /\
  workers svc1 = workers svc ++ [{| feed_id_of := feed_id;
                                    processor := new_processor (new_handler h) j;
                                    thread := NotStarted |}] /\
  analysis_results svc1 = analysis_results svc /\
  active_processors svc1 !! feed_id = Some i /\
  workers svc1 !! i = Some {| feed_id_of := feed_id;
                              processor := new_processor (new_handler h) j;
                              thread := NotStarted |} /\
  handle_open svc1 i = false /\
  (snd (get_video_stream w (new_handler h)) = false ->
   let '(svc2, effects) := worker_step w later i svc1 in
   effects = [] /\
   worker_exited svc2 i = true /\
   handle_open svc2 i = false /\
   (is_processing ∘ processor <$> workers svc2 !! i) = Some false /\
   analysis_results svc2 = analysis_results svc /\
   active_processors svc2 = active_processors svc1 /\
   length (workers svc2) = length (workers svc1) /\
   (forall k, k <> i -> workers svc2 !! k = workers svc1 !! k)).
Proof.
  pose proof (start_feed_lookup svc h j name now) as Hlk.
  destruct (start_feed svc h j name now) as [svc1 feed_id] eqn:Hstart.
  cbn [fst snd] in Hlk. cbv zeta.
  assert (feed_id = j +:+ "_" +:+ name +:+ "_" +:+ pretty (Z.quot now 1000000)) as Hid
    by (unfold start_feed in Hstart; congruence).
  assert (analysis_results svc1 = analysis_results svc) as Hres
    by (unfold start_feed in Hstart; simplify_eq; reflexivity).
  assert (active_processors svc1 = <[feed_id := length (workers svc)]> (active_processors svc))
    as Hreg by (unfold start_feed in Hstart; simplify_eq; reflexivity).
  split; [exact Hid|]. split; [exact Hreg|]. split.
  { unfold start_feed in Hstart. simplify_eq. reflexivity. }
  split; [exact Hres|]. split.
  { rewrite Hreg. apply lookup_insert_eq. }
  split; [exact Hlk|]. split.
  { unfold handle_open. rewrite Hlk. reflexivity. }
  intros Hfail.
  unfold worker_step, worker_exited, handle_open. rewrite Hlk.
  cbn [thread processor video_handler new_processor].
  destruct (get_video_stream w (new_handler h)) as [h' ok]. cbn [snd] in Hfail. subst ok.
  cbn [set_worker workers analysis_results active_processors].
  assert (length (workers svc) < length (workers svc1))%nat as Hlt
    by (apply lookup_lt_is_Some; eexists; exact Hlk).
  rewrite list_lookup_insert_eq by exact Hlt.
  cbn. split; [reflexivity|]. split; [reflexivity|].
  split; [destruct (cap h'); reflexivity|].
  split; [reflexivity|]. split; [exact Hres|]. split; [reflexivity|].
  split; [apply length_insert|].
  intros k Hk. apply list_lookup_insert_ne. congruence.
Qed.

End Workers.

(** An upload whose file does not exist. *)
Lemma feed_creation_defers_open_witness :
  let w := example_world "/videos/J1/a.mp4" [1; 2; 3]%nat (fun _ => Some one_car) in
  let '(svc1, feed_id) :=
    video_handler.upload_and_process_video
      video_handler.new_service "J1" "/videos/J1/missing.mp4" "cam" 0 in
  feed_id = "J1_cam_0" /\
  video_handler.active_processors svc1 !! feed_id = Some 0%nat /\
  video_handler.worker_exited (fst (video_handler.worker_step w 1000 0 svc1)) 0 = true.
Proof.
  cbv zeta.
  pose proof (feed_creation_defers_open
    (example_world "/videos/J1/a.mp4" [1; 2; 3]%nat (fun _ => Some one_car))
    video_handler.new_service
    (video_handler.UploadedVideoHandler "/videos/J1/missing.mp4") "J1" "cam" 0 1000)
    as H.
  unfold video_handler.upload_and_process_video.
  destruct (video_handler.start_feed _ _ _ _ _) as [svc1 feed_id].
  destruct H as (Hid & _ & _ & _ & Hreg & _ & _ & H).
  specialize (H eq_refl).
  destruct (video_handler.worker_step _ _ _ svc1) as [svc2 effects].
  split; [exact Hid|]. split; [exact Hreg|]. apply H.
Defined.

(** C6 as stated fails on an upload whose file does not exist: the open of
    that source fails, and yet the call returns a feed id and leaves the
    processor registered under it, also after the worker has met the
    failure. *)
Lemma failed_open_still_registers :
  let w := example_world "/videos/J1/a.mp4" [1; 2; 3]%nat (fun _ => Some one_car) in
  let created :=
    video_handler.upload_and_process_video
      video_handler.new_service "J1" "/videos/J1/missing.mp4" "cam" 0 in
  snd (video_handler.get_video_stream w
         (video_handler.new_handler
            (video_handler.UploadedVideoHandler "/videos/J1/missing.mp4"))) = false /\
  snd created = "J1_cam_0" /\
  video_handler.active_processors (fst created) !! "J1_cam_0" = Some 0%nat /\
  video_handler.active_processors (@video_handler.new_service nat) !! "J1_cam_0" = None /\
  video_handler.active_processors
    (fst (video_handler.worker_step w 1000 0 (fst created))) !! "J1_cam_0" = Some 0%nat.
Proof. vm_compute. repeat split. Qed.

Section Stopping.
Import video_handler.
Context {Frame : Type} (w : world Frame).

Implicit Types (svc : VideoAnalysisService Frame) (wk : worker Frame).

Lemma release_closed (h : VideoHandler Frame) :
  (isOpened <$> cap (release h)) <> Some true.
Proof. unfold release. cbn. destruct (cap h); cbn; congruence. Qed.

(** A slot of a worker that has been told to stop brings it one slot nearer
    to its end. *)
Lemma worker_after_stopping (n : nat) wk :
  stopping n wk -> stopping (pred n) (worker_after w wk).
Proof.
  intros (Hstop & Hn & Hclosed). unfold stopping, worker_after.
  destruct (thread wk) eqn:Ht; cbn [slots_to_exit] in *.
  - destruct (get_video_stream w (video_handler (processor wk))) as [h ok].
    destruct ok; cbn; (split; [exact Hstop|]); (split; [lia|]); intros; try lia.
    apply release_closed.
  - rewrite Hstop, andb_false_r. cbn.
    split; [exact Hstop|]. split; [lia|]. intros _. apply release_closed.
  - rewrite Ht. cbn. split; [exact Hstop|]. split; [lia|]. intros _. apply Hclosed. reflexivity.
  - rewrite Ht. cbn. split; [exact Hstop|]. split; [lia|]. intros _. apply Hclosed. reflexivity.
Qed.

Lemma stopping_weaken (n m : nat) wk : (n <= m)%nat -> stopping n wk -> stopping m wk.
Proof. intros Hle (H1 & H2 & H3). split; [exact H1|]. split; [lia | exact H3]. Qed.

(** No step of the service undoes [stopping]; a slot of the worker itself
    advances it. *)
Lemma step_stopping (now : Z) (c : call) svc (i n : nat) wk :
  workers svc !! i = Some wk -> stopping n wk ->
  exists wk', workers (fst (step w now c svc)) !! i = Some wk' /\
    stopping (n - count_slots i [(now, c)]) wk'.
Proof.
  intros Hwk Hst.
  assert (i < length (workers svc))%nat as Hlt by (apply lookup_lt_is_Some; eauto).
  destruct c as [j path name|j url name|j ip name user pw|fid|k];
    cbn [step fst count_slots].
  1-3: exists wk; split;
       [cbn [start_feed upload_and_process_video add_youtube_feed add_cctv_feed
             fst workers];
        rewrite lookup_app_l by exact Hlt; exact Hwk
       | rewrite Nat.sub_0_r; exact Hst].
  - unfold stop_feed. destruct (active_processors svc !! fid) as [k|].
    + cbn [workers]. destruct (decide (k = i)) as [->|Hne].
      * eexists. split; [rewrite list_lookup_alter_eq, Hwk; reflexivity|].
        rewrite Nat.sub_0_r.
        destruct Hst as (H1 & H2 & H3). repeat split; assumption.
      * exists wk. split; [rewrite list_lookup_alter_ne by exact Hne; exact Hwk|].
        rewrite Nat.sub_0_r. exact Hst.
    + exists wk. split; [exact Hwk|].
      rewrite Nat.sub_0_r. exact Hst.
  - destruct (decide (k = i)) as [->|Hne].
    + destruct (worker_step_workers w now i svc wk Hwk) as [Hws _]. rewrite Hws.
      eexists. split; [apply list_lookup_insert_eq; exact Hlt|].
      replace (n - 1)%nat with (pred n) by lia. apply worker_after_stopping, Hst.
    + exists wk. split.
      * destruct (workers svc !! k) as [wk2|] eqn:Hk.
        -- destruct (worker_step_workers w now k svc wk2 Hk) as [Hws _]. rewrite Hws.
           rewrite list_lookup_insert_ne by exact Hne. exact Hwk.
        -- rewrite worker_step_missing by exact Hk. exact Hwk.
      * rewrite Nat.sub_0_r. exact Hst.
Qed.

Lemma run_stopping (trace : list (Z * call)) svc (i n : nat) wk :
  workers svc !! i = Some wk -> stopping n wk ->
  exists wk', workers (fst (run w trace svc)) !! i = Some wk' /\
    stopping (n - count_slots i trace) wk'.
Proof.
  revert svc n wk. induction trace as [|[now c] rest IH]; intros svc n wk Hwk Hst.
  - exists wk. split; [exact Hwk|]. cbn. rewrite Nat.sub_0_r. exact Hst.
  - cbn [run].
    destruct (step_stopping now c svc i n wk Hwk Hst) as (wk1 & Hwk1 & Hst1).
    destruct (step w now c svc) as [svc1 e1]. cbn [fst] in Hwk1.
    destruct (IH svc1 _ wk1 Hwk1 Hst1) as (wk2 & Hwk2 & Hst2).
    destruct (run w rest svc1) as [svc2 e2]. cbn [fst] in *.
    exists wk2. split; [exact Hwk2|].
    eapply stopping_weaken; [|exact Hst2].
    cbn [count_slots] in *.
    destruct c; try lia. destruct (decide _); lia.
Qed.

(** C7, as the code has it. For a feed in the registry whose worker has not
    ended, [stop_feed] sets the worker's stop flag, clears [is_processing]
    and removes the registry entry, and returns at once: the worker's thread
    and its source handle are as before the call. The worker then ends by
    itself: in every continuation in which it gets the one or two slots it
    needs to reach its loop test, its thread has ended and its source handle
    is not open. *)
Theorem stop_feed_signals_without_waiting svc (feed_id : string) (i : nat) wk
    (trace : list (Z * call)) :
  active_processors svc !! feed_id = Some i ->
  workers svc !! i = Some wk ->
  thread wk = NotStarted \/ thread wk = InLoop ->
  let svc1 := stop_feed svc feed_id in
  active_processors svc1 !! feed_id = None /\
  workers svc1 !! i = Some {| feed_id_of := feed_id_of wk;
                              processor := stop_processing (processor wk);
                              thread := thread wk |} /\
  worker_exited svc1 i = false /\
  handle_open svc1 i = handle_open svc i /\
  ((slots_to_exit (thread wk) <= count_slots i trace)%nat ->
   let svc2 := fst (run w trace svc1) in
   worker_exited svc2 i = true /\ handle_open svc2 i = false).
Proof.
  intros Hreg Hwk Hactive. cbv zeta.
  assert (workers (stop_feed svc feed_id) !! i =
          Some {| feed_id_of := feed_id_of wk;
                  processor := stop_processing (processor wk);
                  thread := thread wk |}) as Hwk1.
  { unfold stop_feed. rewrite Hreg. cbn [workers].
    rewrite list_lookup_alter_eq, Hwk. reflexivity. }
  split; [unfold stop_feed; rewrite Hreg; cbn; apply lookup_delete_eq|].
  split; [exact Hwk1|].
  split; [unfold worker_exited; rewrite Hwk1; cbn; destruct Hactive as [->| ->]; reflexivity|].
  split; [unfold handle_open; rewrite Hwk1, Hwk; reflexivity|].
  intros Hslots.
  destruct (run_stopping trace (stop_feed svc feed_id) i (slots_to_exit (thread wk)) _ Hwk1)
    as (wk2 & Hwk2 & _ & Hz & Hclosed).
  { split; [reflexivity|]. split; [cbn; lia|].
    cbn. destruct Hactive as [->| ->]; cbn; lia. }
  assert (slots_to_exit (thread wk2) = 0%nat) as Hzero by lia.
  unfold worker_exited, handle_open. rewrite Hwk2.
  specialize (Hclosed Hzero).
  split.
  - destruct (thread wk2); cbn in Hzero; congruence.
  - destruct (cap (video_handler (processor wk2))) as [c|]; [|reflexivity].
    cbn in Hclosed. destruct (isOpened c); congruence.
Qed.

End Stopping.

(** The running three-frame feed is stopped; one more slot of its worker
    ends the thread and closes the handle. *)
Lemma stop_feed_signals_without_waiting_witness :
  let svc1 := video_handler.stop_feed service_running "J1_cam_0" in
  video_handler.active_processors service_running !! "J1_cam_0" = Some 0%nat /\
  video_handler.worker_exited svc1 0 = false /\
  video_handler.worker_exited
    (fst (video_handler.run world_3_frames (slots 5 0 1) svc1)) 0 = true /\
  video_handler.handle_open
    (fst (video_handler.run world_3_frames (slots 5 0 1) svc1)) 0 = false.
Proof.
  cbv zeta.
  assert (video_handler.active_processors service_running !! "J1_cam_0" = Some 0%nat)
    as Hreg by (vm_compute; reflexivity).
  split; [exact Hreg|].
  destruct (video_handler.workers service_running !! 0%nat) as [wk|] eqn:Hwk;
    [|vm_compute in Hwk; discriminate].
  assert (video_handler.thread wk = video_handler.InLoop) as Hloop
    by (vm_compute in Hwk; injection Hwk as <-; reflexivity).
  destruct (stop_feed_signals_without_waiting world_3_frames service_running
              "J1_cam_0" 0%nat wk (slots 5 0 1) Hreg Hwk (or_intror Hloop))
    as (_ & _ & Hrunning & _ & Hexit).
  split; [exact Hrunning|]. apply Hexit. rewrite Hloop. vm_compute. lia.
Defined.

(** C7 as stated fails on a running feed: when [stop_feed] has returned, the
    registry entry is gone, but the worker has not ended and its source
    handle is still open. *)
Lemma stop_feed_returns_before_worker_exit :
  let svc1 := video_handler.stop_feed service_running "J1_cam_0" in
  video_handler.active_processors service_running !! "J1_cam_0" = Some 0%nat /\
  video_handler.worker_running service_running 0 = true /\
  video_handler.active_processors svc1 !! "J1_cam_0" = None /\
  video_handler.worker_exited svc1 0 = false /\
  video_handler.handle_open svc1 0 = true.
Proof. vm_compute. repeat split. Qed.

(** C9 as stated fails on a feed that was stopped after its first
    snapshot: the feed id is unknown to the registry, and
    [get_feed_results] returns the snapshot of frame 30, not the empty
    result. *)
Lemma stopped_feed_keeps_snapshot :
  let svc := fst service_stopped_after_publication in
  video_handler.active_processors svc !! "J1_cam_0" = None /\
  video_handler.get_feed_results svc "J1_cam_0" <> None /\
  (video_handler.snap_frame_count <$> video_handler.get_feed_results svc "J1_cam_0")
    = Some 30.
Proof. vm_compute. repeat split. discriminate. Qed.

Section DetectorFailures.
Import video_handler.

(** C8, as the code has it. When the detector raises on a sampled frame,
    the worker logs the error for the feed and does nothing else with the
    frame: no snapshot is published, the registry is untouched, the frame is
    consumed, and the worker is still running in its loop with the remaining
    frames pending. The step depends on no count of earlier failures: the
    service keeps none, and no number of consecutive failures ends the
    feed. *)
Theorem detector_failure_is_skipped {Frame : Type} (w : world Frame) (now : Z)
    (svc : VideoAnalysisService Frame) (i : nat) (wk : worker Frame)
    (c : VideoCapture Frame) (frame : Frame) (rest : list Frame) :
  workers svc !! i = Some wk ->
  thread wk = InLoop ->
  is_processing (processor wk) = true ->
  stop_event (processor wk) = false ->
  cap (video_handler (processor wk)) = Some c ->
  isOpened c = true ->
  pending c = frame :: rest ->
  (frame_count (processor wk) + 1) mod 30 = 0 ->
  model w (resize w frame) = None ->
  let '(svc1, effects) := worker_step w now i svc in
  effects = [log_frame_error (feed_id_of wk)] /\
  analysis_results svc1 = analysis_results svc /\
  active_processors svc1 = active_processors svc /\
  worker_running svc1 i = true /\
  exists wk1,
    workers svc1 !! i = Some wk1 /\
    frame_count (processor wk1) = frame_count (processor wk) + 1 /\
    (pending <$> cap (video_handler (processor wk1))) = Some rest.
Proof.
  intros Hwk Ht Hproc Hstop Hcap Hopen Hpending Hsample Hraise.
  assert (i < length (workers svc))%nat as Hlt by (apply lookup_lt_is_Some; eauto).
  unfold worker_step, worker_running. rewrite Hwk, Ht, Hproc, Hstop, Hcap.
  cbn [andb negb mbind option_bind]. unfold read. rewrite Hopen, Hpending.
  rewrite (proj2 (Z.eqb_eq _ _) Hsample).
  unfold _process_feed_body, OpenCVAnalyzer.process_frame. rewrite Hraise.
  cbn [set_worker workers analysis_results active_processors].
  rewrite list_lookup_insert_eq by exact Hlt.
  cbn. repeat split; try reflexivity.
  eexists. split; [reflexivity|]. split; reflexivity.
Qed.

Lemma div30_succ (n : nat) :
  (Z.of_nat (S n) mod 30 = 0 -> (S n / 30 = S (n / 30))%nat) /\
  (Z.of_nat (S n) mod 30 <> 0 -> (S n / 30 = n / 30)%nat).
Proof.
  pose proof (Nat.div_mod_eq n 30). pose proof (Nat.div_mod_eq (S n) 30).
  pose proof (Nat.mod_upper_bound n 30). pose proof (Nat.mod_upper_bound (S n) 30).
  pose proof (Z.div_mod (Z.of_nat (S n)) 30).
  pose proof (Z.mod_pos_bound (Z.of_nat (S n)) 30).
  split; intros; nia.
Qed.

Lemma run_app {Frame : Type} (w : world Frame) (t1 t2 : list (Z * call))
    (svc : VideoAnalysisService Frame) :
  run w (t1 ++ t2) svc =
  let '(svc1, e1) := run w t1 svc in
  let '(svc2, e2) := run w t2 svc1 in
  (svc2, e1 ++ e2).
Proof.
  revert svc. induction t1 as [|[now c] rest IH]; intros svc; cbn [run app].
  - destruct (run w t2 svc). reflexivity.
  - destruct (step w now c svc) as [svc1 e1]. rewrite IH.
    destruct (run w rest svc1) as [svc2 e2].
    destruct (run w t2 svc2) as [svc3 e3]. rewrite app_assoc. reflexivity.
Qed.

(** One slot of the worker in the failing world: one more frame read, and
    an error logged on every thirtieth. *)
Lemma failing_slot (N n : nat) :
  (n < N)%nat ->
  worker_step (world_failing N) 1 0 (failing_service N n) =
  (failing_service N (S n),
   if Z.of_nat (S n) mod 30 =? 0 then [log_frame_error "J1_cam_0"] else []).
Proof.
  intros Hlt. unfold worker_step, failing_service.
  cbn [workers lookup list_lookup thread processor is_processing stop_event andb negb
       video_handler cap mbind option_bind].
  replace (N - n)%nat with (S (N - S n)) by lia.
  cbn [replicate read isOpened pending frame_count].
  replace (Z.of_nat n + 1) with (Z.of_nat (S n)) by lia.
  destruct (Z.of_nat (S n) mod 30 =? 0); reflexivity.
Qed.

Lemma failing_slots (N n : nat) :
  (n <= N)%nat ->
  run (world_failing N) (slots 1 0 n) (failing_service N 0) =
  (failing_service N n, replicate (n / 30) (log_frame_error "J1_cam_0")).
Proof.
  induction n as [|n IH]; intros Hle; [reflexivity|].
  unfold slots in *. rewrite replicate_S_end, run_app, IH by lia.
  cbn [run step]. rewrite failing_slot by lia.
  destruct (div30_succ n) as [Hzero Hnonzero].
  destruct (Z.eqb_spec (Z.of_nat (S n) mod 30) 0) as [E|E].
  - rewrite (Hzero E), replicate_S_end. reflexivity.
  - rewrite (Hnonzero E), !app_nil_r. reflexivity.
Qed.

Lemma consecutive_failures_replicate (k : nat) :
  consecutive_failures "J1_cam_0" (replicate k (log_frame_error "J1_cam_0")) = k.
Proof.
  unfold consecutive_failures.
  assert (forall acc, foldl
            (fun n e => match e with
                        | publish f _ => if bool_decide (f = "J1_cam_0") then O else n
                        | log_frame_error f =>
                            if bool_decide (f = "J1_cam_0") then S n else n
                        | _ => n
                        end) acc (replicate k (log_frame_error "J1_cam_0"))
          = (acc + k)%nat) as Hgen.
  { induction k as [|k IH]; intros acc; cbn [replicate foldl]; [lia|].
    rewrite IH. rewrite bool_decide_eq_true_2 by reflexivity. lia. }
  apply Hgen.
Qed.

(** The whole run: the upload, the slot that opens the source, and [n]
    slots that read frames. *)
Lemma failing_run (N n : nat) :
  (n <= N)%nat ->
  run (world_failing N) (example_upload :: slots 1 0 1 ++ slots 1 0 n) new_service =
  (failing_service N n, replicate (n / 30) (log_frame_error "J1_cam_0")).
Proof.
  intros Hle.
  change (example_upload :: slots 1 0 1 ++ slots 1 0 n)
    with ((example_upload :: slots 1 0 1) ++ slots 1 0 n).
  rewrite run_app.
  assert (run (world_failing N) (example_upload :: slots 1 0 1) new_service =
          (failing_service N 0, [])) as Hstart.
  { unfold failing_service. rewrite Nat.sub_0_r.
    unfold world_failing, example_world. generalize (replicate N 0%nat) as frames.
    intros frames. vm_compute. reflexivity. }
  rewrite Hstart, failing_slots by exact Hle. reflexivity.
Qed.

(** C8 as stated fails in its second half: no bound on consecutive detector
    failures makes the feed leave the running state. Whatever the bound, a
    feed whose detector raises on every sampled frame has logged more
    consecutive failures than the bound and is still registered and
    running. *)
Lemma detector_failures_never_escalate :
  ~ exists bound : nat,
      forall (w : world nat) (trace : list (Z * call)) (feed_id : string) (i : nat),
        let '(svc, effects) := run w trace new_service in
        active_processors svc !! feed_id = Some i ->
        (bound < consecutive_failures feed_id effects)%nat ->
        worker_running svc i = false.
Proof.
  intros [bound Hbound].
  set (n := (30 * S bound)%nat).
  specialize (Hbound (world_failing n)
                (example_upload :: slots 1 0 1 ++ slots 1 0 n) "J1_cam_0" 0%nat).
  rewrite failing_run in Hbound by lia.
  assert (n / 30 = S bound)%nat as Hdiv
    by (subst n; rewrite Nat.mul_comm; apply Nat.div_mul; lia).
  rewrite Hdiv, consecutive_failures_replicate in Hbound.
  assert (worker_running (failing_service n n) 0 = false) as Hfalse
    by (apply Hbound; [reflexivity | lia]).
  discriminate Hfalse.
Qed.

End DetectorFailures.

(** The thirtieth frame of a thirty-frame video on which the detector
    raises. *)
Lemma detector_failure_is_skipped_witness :
  let '(svc1, effects) :=
    video_handler.worker_step (world_failing 30) 1 0 (failing_service 30 29) in
  effects = [video_handler.log_frame_error "J1_cam_0"] /\
  video_handler.analysis_results svc1 = ∅ /\
  video_handler.worker_running svc1 0 = true.
Proof.
  pose proof (detector_failure_is_skipped (world_failing 30) 1 (failing_service 30 29)
                0%nat _ _ 0%nat [] eq_refl eq_refl eq_refl eq_refl eq_refl eq_refl
                eq_refl eq_refl eq_refl) as H.
  destruct (video_handler.worker_step _ _ _ _) as [svc1 effects].
  destruct H as (He & Hres & _ & Hrun & _).
  split; [exact He|]. split; [exact Hres | exact Hrun].
Defined.

(** * Further properties of the code *)

(** ** Detection results *)
Section DetectVehiclesContents.
Import VehicleDetector.

Lemma add_box_collected (d : detection_dict) (vs : list yolo_box) (box : yolo_box) :
  collected d vs ->
  collected (add_box d box)
    (vs ++ filter (fun b => cls b ∈ vehicle_classes) [box]).
Proof.
  intros (Hd & Hc & Hs & Hh). unfold add_box.
  rewrite filter_cons, filter_nil. case_bool_decide as Hcls.
  - rewrite decide_True by exact Hcls.
    unfold collected. cbn [detections vehicle_count confidence_scores vehicle_types].
    rewrite Hd, Hc, Hs, !map_app, length_app. cbn [map length option_map].
    split; [reflexivity|]. split; [lia|]. split; [reflexivity|].
    intros k. unfold histogram_incr, count_type.
    rewrite filter_app, length_app, filter_cons, filter_nil.
    specialize (Hh k). unfold count_type in Hh.
    destruct (decide (type (box_detection box) = k)) as [E|E].
    + cbn [type box_detection] in E. rewrite E, lookup_insert_eq. cbn. lia.
    + cbn [type box_detection] in E. rewrite lookup_insert_ne by exact E.
      cbn. lia.
  - rewrite decide_False by exact Hcls. rewrite app_nil_r. repeat split; assumption.
Qed.

Lemma foldl_add_box_collected (bs : list yolo_box) (d : detection_dict) (vs : list yolo_box) :
  collected d vs ->
  collected (foldl add_box d bs) (vs ++ filter (fun b => cls b ∈ vehicle_classes) bs).
Proof.
  revert d vs. induction bs as [|b bs IH]; intros d vs Hd; cbn [foldl].
  - rewrite filter_nil, app_nil_r. exact Hd.
  - change (b :: bs) with ([b] ++ bs). rewrite filter_app, app_assoc.
    apply IH, add_box_collected, Hd.
Qed.

Lemma collect_collected (results : list yolo_result) :
  collected (collect results) (vehicle_boxes results).
Proof.
  unfold collect, vehicle_boxes, all_boxes.
  assert (collected empty_detections []) as H0.
  { repeat split. }
  revert H0. generalize empty_detections.
  change (filter (fun box => cls box ∈ vehicle_classes) (concat (map boxes results)))
    with ([] ++ filter (fun box => cls box ∈ vehicle_classes) (concat (map boxes results))).
  generalize (@nil yolo_box) as vs.
  induction results as [|r rs IH]; intros vs d Hd; cbn [foldl map concat].
  - rewrite filter_nil, app_nil_r. exact Hd.
  - rewrite filter_app, app_assoc. apply IH, foldl_add_box_collected, Hd.
Qed.

Lemma vehicle_type_named (c : Z) :
  c ∈ vehicle_classes ->
  _get_vehicle_type c ∈ ["car"; "motorcycle"; "bus"; "truck"].
Proof.
  unfold vehicle_classes. rewrite !elem_of_cons, elem_of_nil.
  intros [->|[->|[->|[->|[]]]]]; cbn; set_solver.
Qed.

(** X1. When the model call returns, [detect_vehicles] reports exactly the
    boxes whose class is 2, 3, 5 or 7, in the order of the model's answer:
    one detection per such box with that box's confidence and coordinates,
    the count of these boxes, and a histogram that gives for every type the
    number of detections of that type. Every reported type is car,
    motorcycle, bus or truck; "unknown" is never reported. *)
Theorem detect_vehicles_keeps_vehicle_classes {Frame : Type}
    (model : Frame -> option (list yolo_result)) (frame : Frame)
    (results : list yolo_result) :
  model frame = Some results ->
  let d := detect_vehicles model frame in
  detections d = map box_detection (vehicle_boxes results) /\
  vehicle_count d = Z.of_nat (length (vehicle_boxes results)) /\
  confidence_scores d = Some (map conf (vehicle_boxes results)) /\
  (forall k, default 0 (vehicle_types d !! k) = count_type k (detections d)) /\
  (forall det, det ∈ detections d ->
     type det ∈ ["car"; "motorcycle"; "bus"; "truck"]).
Proof.
  intros Hmodel. cbv zeta. unfold detect_vehicles. rewrite Hmodel.
  cbn [detections vehicle_count confidence_scores vehicle_types].
  destruct (collect_collected results) as (Hd & Hc & Hs & Hh).
  split; [exact Hd|]. split; [exact Hc|]. split; [exact Hs|].
  split; [intros k; rewrite Hd; apply Hh|].
  intros det. rewrite Hd. intros (box & -> & Hbox)%list_elem_of_fmap.
  apply vehicle_type_named. unfold vehicle_boxes in Hbox.
  apply list_elem_of_filter in Hbox. tauto.
Qed.

End DetectVehiclesContents.

Section AverageConfidence.
Import VehicleDetector.

Lemma inject_Z_length_cons {A : Type} (x : A) (xs : list A) :
  (inject_Z (Z.of_nat (length (x :: xs))) == inject_Z (Z.of_nat (length xs)) + 1)%Q.
Proof.
  cbn [length]. rewrite Nat2Z.inj_succ. unfold Z.succ. rewrite inject_Z_plus. reflexivity.
Qed.

Lemma Qsum_bounds (xs : list Q) (lo hi : Q) :
  (forall x, x ∈ xs -> (lo <= x <= hi)%Q) ->
  (lo * inject_Z (Z.of_nat (length xs)) <= Qsum xs <=
   hi * inject_Z (Z.of_nat (length xs)))%Q.
Proof.
  induction xs as [|x xs IH]; intros Hall.
  - change (lo * 0 <= 0 <= hi * 0)%Q. lra.
  - rewrite inject_Z_length_cons. cbn [Qsum foldr].
    assert (lo <= x <= hi)%Q as Hx by (apply Hall; left).
    assert (lo * inject_Z (Z.of_nat (length xs)) <= Qsum xs <=
            hi * inject_Z (Z.of_nat (length xs)))%Q as Hrest
      by (apply IH; intros y Hy; apply Hall; right; exact Hy).
    unfold Qsum in Hrest. lra.
Qed.

Lemma mean_bounds (xs : list Q) (lo hi : Q) :
  xs <> [] ->
  (forall x, x ∈ xs -> (lo <= x <= hi)%Q) ->
  let n := inject_Z (Z.of_nat (length xs)) in
  let mean := match xs with [] => 0%Q | _ => (Qsum xs / n)%Q end in
  (lo <= mean <= hi)%Q /\ (mean * n == Qsum xs)%Q.
Proof.
  intros Hne Hall. cbv zeta.
  pose proof (Qsum_bounds xs lo hi Hall) as [Hlo Hhi].
  destruct xs as [|x xs']; [contradiction|].
  remember (x :: xs') as l eqn:El.
  assert (0 < inject_Z (Z.of_nat (length l)))%Q as Hpos
    by (rewrite El; unfold Qlt; cbn [length]; simpl; lia).
  split; [split|].
  - apply Qle_shift_div_l; assumption.
  - apply Qle_shift_div_r; assumption.
  - field. intros Hz. rewrite Hz in Hpos. apply (Qlt_irrefl 0). exact Hpos.
Qed.

(** X2. The average confidence that [detect_vehicles] reports is the mean of
    the confidences of the vehicle boxes: whenever these confidences all lie
    between two bounds (such as the detector's threshold 0.5 and 1), so does
    the average, and the average times the vehicle count is their sum.
    Without any vehicle box the average is 0 and no division takes place. *)
Theorem avg_confidence_is_mean {Frame : Type}
    (model : Frame -> option (list yolo_result)) (frame : Frame)
    (results : list yolo_result) (lo hi : Q) :
  model frame = Some results ->
  (forall box, box ∈ vehicle_boxes results -> (lo <= conf box <= hi)%Q) ->
  let d := detect_vehicles model frame in
  (vehicle_boxes results = [] -> avg_confidence d = 0%Q) /\
  (vehicle_boxes results <> [] ->
     (lo <= avg_confidence d <= hi)%Q /\
     (avg_confidence d * inject_Z (vehicle_count d)
      == Qsum (map conf (vehicle_boxes results)))%Q).
Proof.
  intros Hmodel Hall. cbv zeta.
  destruct (collect_collected results) as (_ & Hc & Hs & _).
  unfold detect_vehicles. rewrite Hmodel.
  cbn [avg_confidence vehicle_count]. rewrite Hs, Hc. cbn [default].
  split.
  - intros ->. reflexivity.
  - intros Hne.
    assert (map conf (vehicle_boxes results) <> []) as Hne'
      by (destruct (vehicle_boxes results); [contradiction | discriminate]).
    assert (forall x, x ∈ map conf (vehicle_boxes results) -> (lo <= x <= hi)%Q) as Hxs.
    { intros x (box & -> & Hbox)%list_elem_of_fmap. apply Hall, Hbox. }
    pose proof (mean_bounds _ lo hi Hne' Hxs) as Hmean. cbv zeta in Hmean.
    rewrite length_map in Hmean. unfold Datatypes.id. rewrite !length_map. exact Hmean.
Qed.

End AverageConfidence.

(** Two cars with confidences 0.6 and 0.9, and a person. *)
Lemma avg_confidence_is_mean_witness :
  let results :=
    [{| boxes := [ {| cls := 2; conf := (6 # 10)%Q; xyxy := (0, 0, 10, 10)%Q |};
                   {| cls := 0; conf := (99 # 100)%Q; xyxy := (5, 5, 8, 9)%Q |};
                   {| cls := 2; conf := (9 # 10)%Q; xyxy := (20, 0, 30, 10)%Q |} ] |}] in
  let d := VehicleDetector.detect_vehicles (fun _ : unit => Some results) tt in
  ((1 # 2) <= VehicleDetector.avg_confidence d <= 1)%Q.
Proof.
  cbv zeta.
  refine (proj1 (proj2 (avg_confidence_is_mean (fun _ : unit => Some _) tt _
                          (1 # 2)%Q 1%Q eq_refl _) _)).
  - intros box Hbox. vm_compute in Hbox.
    repeat (apply elem_of_cons in Hbox; destruct Hbox as [->|Hbox]);
      [cbn; split; discriminate ..|].
    apply elem_of_nil in Hbox. contradiction.
  - vm_compute. discriminate.
Defined.

(** ** The key-based stability table of [VehicleDetector] *)
Section KeyTable.
Import VehicleDetector.

Lemma py_int_lower (q : Q) (n : Z) : (inject_Z n < q)%Q -> n <= py_int q.
Proof.
  unfold Qlt, py_int. cbn [inject_Z Qnum Qden]. intros H.
  apply Z.quot_le_lower_bound; lia.
Qed.

Lemma py_int_upper (q : Q) (n : Z) : (q <= inject_Z n)%Q -> py_int q <= n.
Proof.
  unfold Qle, py_int. cbn [inject_Z Qnum Qden]. intros H.
  apply Z.quot_le_upper_bound; lia.
Qed.

Lemma table_get_count_up_first_seen (k k' : vehicle_key) (t : stable_table) :
  forall e, e ∈ table_count_up k t ->
  exists e', e' ∈ t /\ fst e' = fst e /\ first_seen (snd e') = first_seen (snd e).
Proof.
  induction t as [|[k0 info] rest IH]; cbn [table_count_up]; intros e He.
  - apply elem_of_nil in He. contradiction.
  - destruct (key_eqb k k0).
    + apply elem_of_cons in He. destruct He as [->|He].
      * exists (k0, info). split; [left|]. split; reflexivity.
      * exists e. split; [right; exact He|]. split; reflexivity.
    + apply elem_of_cons in He. destruct He as [->|He].
      * exists (k0, info). split; [left|]. split; reflexivity.
      * destruct (IH e He) as (e' & He' & Hk & Hf).
        exists e'. split; [right; exact He'|]. split; assumption.
Qed.

(** After the first loop every entry was in the table before or was first
    seen at the time of the call. *)
Lemma note_detection_first_seen (now frame_id : Z) (t : stable_table) (d : detection)
    (P : option Z -> Prop) :
  P (Some now) ->
  (forall e, e ∈ t -> P (first_seen (snd e))) ->
  forall e, e ∈ note_detection now frame_id t d -> P (first_seen (snd e)).
Proof.
  intros Hnow Ht e. unfold note_detection.
  destruct (bbox d) as [[[x1 y1] x2] y2].
  destruct (table_get (frame_id, x1, y1) t).
  - intros He.
    destruct (table_get_count_up_first_seen (frame_id, x1, y1) (frame_id, x1, y1) t e He)
      as (e' & He' & _ & Hf).
    rewrite <- Hf. apply Ht, He'.
  - intros [He|He]%elem_of_app; [apply Ht, He|].
    apply list_elem_of_singleton in He. subst e. exact Hnow.
Qed.

Lemma notes_first_seen (now frame_id : Z) (ds : list detection) (t : stable_table)
    (P : option Z -> Prop) :
  P (Some now) ->
  (forall e, e ∈ t -> P (first_seen (snd e))) ->
  forall e, e ∈ foldl (note_detection now frame_id) t ds -> P (first_seen (snd e)).
Proof.
  intros Hnow. revert t. induction ds as [|d ds IH]; intros t Ht; cbn [foldl]; [exact Ht|].
  apply IH. apply note_detection_first_seen; assumption.
Qed.

(** The second loop over fresh items deletes their keys and reports
    nothing. *)
Lemma review_fresh (now T : Z) (items : list (vehicle_key * stable_info))
    (t : stable_table) (alerts : list stable_alert) :
  5 < T ->
  (forall e, e ∈ items -> first_seen (snd e) = Some now) ->
  foldl (review_entry now T) (t, alerts) items =
  (foldl (fun t item => table_del (fst item) t) t items, alerts).
Proof.
  intros HT. revert t. induction items as [|[k info] rest IH]; intros t Hfresh;
    cbn [foldl]; [reflexivity|].
  assert (first_seen info = Some now) as Hinfo by (apply (Hfresh (k, info)); left).
  unfold review_entry at 2. rewrite Hinfo, Z.sub_diag.
  assert (Qlt_bool (inject_Z T) (total_seconds 0 / 60) = false) as H1
    by (apply Qlt_bool_false; unfold Qle; simpl; lia).
  assert (Qlt_bool (total_seconds 0 / 60) (inject_Z (T - 5)) = true) as H2
    by (apply Qlt_bool_true; unfold Qlt; simpl; lia).
  rewrite H1, H2. apply IH. intros e He. apply Hfresh. right. exact He.
Qed.

Lemma delete_all_keys (items : list (vehicle_key * stable_info)) (t : stable_table) :
  (forall e, e ∈ t -> exists e', e' ∈ items /\ key_eqb (fst e') (fst e) = true) ->
  foldl (fun t item => table_del (fst item) t) t items = [].
Proof.
  revert t. induction items as [|item rest IH]; intros t Hcover; cbn [foldl].
  - destruct t as [|e t]; [reflexivity|].
    destruct (Hcover e) as (e' & He' & _); [left|].
    apply elem_of_nil in He'. contradiction.
  - apply IH. intros e He. unfold table_del in He.
    apply list_elem_of_In, List.filter_In in He. destruct He as [He Hkeep].
    apply list_elem_of_In in He.
    destruct (Hcover e He) as (e' & [->|He']%elem_of_cons & Hkey).
    + rewrite Hkey in Hkeep. discriminate.
    + exists e'. split; assumption.
Qed.

(** X3. With a threshold above 5 minutes (the default is 10), every entry
    that a call of the key-based [detect_stable_vehicles] creates is deleted
    again by the clean-up branch of the same call, its duration 0 being
    below the threshold minus 5. Started on an empty table the function
    therefore returns the empty table and no alert, for every input, and so
    does every later call: this tracker never reports a stable vehicle. *)
Theorem key_table_never_reports (now : Z) (d : detection_dict)
    (frame_id stability_threshold : Z) :
  5 < stability_threshold ->
  detect_stable_vehicles now [] d frame_id stability_threshold = ([], []).
Proof.
  intros HT. unfold detect_stable_vehicles.
  set (t1 := foldl (note_detection now frame_id) [] (detections d)).
  assert (forall e, e ∈ t1 -> first_seen (snd e) = Some now) as Hfresh.
  { apply (notes_first_seen now frame_id (detections d) []
             (fun seen => seen = Some now)); [reflexivity|].
    intros e He. apply elem_of_nil in He. contradiction. }
  rewrite (review_fresh now stability_threshold t1 t1 [] HT Hfresh).
  rewrite delete_all_keys; [reflexivity|].
  intros e He. exists e. split; [exact He | apply key_eqb_refl].
Qed.

(** Every alert of the second loop was there before or comes from an entry
    older than the threshold. *)
Lemma review_alerts (now T : Z) (items : list (vehicle_key * stable_info))
    (t : stable_table) (alerts : list stable_alert) (P : stable_alert -> Prop) :
  (forall a, a ∈ alerts -> P a) ->
  (forall k info seen,
     (k, info) ∈ items -> first_seen info = Some seen ->
     (inject_Z T < total_seconds (now - seen) / 60)%Q ->
     P {| alert_vehicle_key := k;
          stable_duration_minutes := py_int (total_seconds (now - seen) / 60);
          alert_bbox := info_bbox info;
          severity := if Qlt_bool 20 (total_seconds (now - seen) / 60)
                      then "high" else "medium" |}) ->
  forall a, a ∈ snd (foldl (review_entry now T) (t, alerts) items) -> P a.
Proof.
  revert t alerts. induction items as [|[k info] rest IH]; intros t alerts Hold Hnew;
    cbn [foldl]; [exact Hold|].
  assert (forall k' info' seen,
            (k', info') ∈ rest -> first_seen info' = Some seen ->
            (inject_Z T < total_seconds (now - seen) / 60)%Q ->
            P {| alert_vehicle_key := k';
                 stable_duration_minutes := py_int (total_seconds (now - seen) / 60);
                 alert_bbox := info_bbox info';
                 severity := if Qlt_bool 20 (total_seconds (now - seen) / 60)
                             then "high" else "medium" |}) as Hrest
    by (intros k' info' seen Hin; apply Hnew; right; exact Hin).
  unfold review_entry at 2.
  destruct (first_seen info) as [seen|] eqn:Hseen; [|apply IH; assumption].
  case_Qlt (inject_Z T) (total_seconds (now - seen) / 60)%Q.
  - apply IH; [|exact Hrest].
    intros a [Ha|Ha]%elem_of_app; [apply Hold, Ha|].
    apply list_elem_of_singleton in Ha. subst a.
    apply (Hnew k info seen); [left | exact Hseen | assumption].
  - destruct (Qlt_bool _ _); apply IH; assumption.
Qed.

(** X4. Every alert that the key-based [detect_stable_vehicles] returns, for
    a threshold that is not negative, carries a whole-minute duration of at
    least the threshold; its severity is "high" with a duration of at least
    20 minutes or "medium" with a duration of at most 20 minutes. *)
Theorem key_table_alert_severity (now : Z) (t : stable_table) (d : detection_dict)
    (frame_id stability_threshold : Z) (a : stable_alert) :
  0 <= stability_threshold ->
  a ∈ snd (detect_stable_vehicles now t d frame_id stability_threshold) ->
  stability_threshold <= stable_duration_minutes a /\
  ((severity a = "high" /\ 20 <= stable_duration_minutes a) \/
   (severity a = "medium" /\ stable_duration_minutes a <= 20)).
Proof.
  intros HT. unfold detect_stable_vehicles. revert a.
  apply (review_alerts now stability_threshold _ _ []
           (fun a => stability_threshold <= stable_duration_minutes a /\
              ((severity a = "high" /\ 20 <= stable_duration_minutes a) \/
               (severity a = "medium" /\ stable_duration_minutes a <= 20)))).
  - intros a' Ha'. apply elem_of_nil in Ha'. contradiction.
  - intros k info seen _ _ Hlong. cbn [stable_duration_minutes severity].
    split; [apply py_int_lower, Hlong|].
    case_Qlt 20%Q (total_seconds (now - seen) / 60)%Q.
    + left. split; [reflexivity|]. apply (py_int_lower _ 20). assumption.
    + right. split; [reflexivity|]. apply (py_int_upper _ 20). assumption.
Qed.

End KeyTable.

(** An entry first seen 25 minutes before the call. *)
Lemma key_table_alert_severity_witness :
  let t := [((7, 10%Q, 20%Q),
             {| VehicleDetector.count := 3;
                VehicleDetector.first_seen := Some 0;
                VehicleDetector.info_bbox := (10, 20, 50, 60)%Q |})] in
  let a := {| VehicleDetector.alert_vehicle_key := (7, 10%Q, 20%Q);
              VehicleDetector.stable_duration_minutes := 25;
              VehicleDetector.alert_bbox := (10, 20, 50, 60)%Q;
              VehicleDetector.severity := "high" |} in
  10 <= VehicleDetector.stable_duration_minutes a /\
  ((VehicleDetector.severity a = "high" /\ 20 <= VehicleDetector.stable_duration_minutes a) \/
   (VehicleDetector.severity a = "medium" /\ VehicleDetector.stable_duration_minutes a <= 20)).
Proof.
  cbv zeta.
  apply (key_table_alert_severity 1500000000
           [((7, 10%Q, 20%Q),
             {| VehicleDetector.count := 3;
                VehicleDetector.first_seen := Some 0;
                VehicleDetector.info_bbox := (10, 20, 50, 60)%Q |})]
           (count_only 0) 7 10).
  - lia.
  - vm_compute. left.
Defined.

Lemma key_table_never_reports_witness :
  VehicleDetector.detect_stable_vehicles 1500000000 []
    (VehicleDetector.detect_vehicles (fun _ : unit => Some one_car) tt) 7 10 = ([], []).
Proof. apply key_table_never_reports. lia. Defined.


Section TrackerCalls.
Import OpenCVAnalyzer.
Context {Id : Type} `{Countable Id}.

Implicit Types (st : gmap Id stable_entry) (v : @vehicle Id) (vs : list (@vehicle Id)).

(** One detection: the table at its key, the table elsewhere, the count. *)
Lemma track_vehicle_spec (now : Q) st (n : Z) v :
  track_vehicle now (st, n) v =
  (<[id v := entry_after now st v]> st, if stationary now st v then n + 1 else n).
Proof.
  unfold track_vehicle, entry_after, stationary.
  destruct (st !! id v) as [e|] eqn:E; [|reflexivity].
  destruct (distance_lt_10 _ _); cbn [andb]; [|reflexivity].
  rewrite insert_id by exact E. destruct (Qlt_bool _ _); reflexivity.
Qed.





Lemma foldl_track_keeps (now : Q) vs st (n : Z) (k : Id) :
  is_Some (st !! k) -> is_Some (fst (foldl (track_vehicle now) (st, n) vs) !! k).
Proof.
  revert st n. induction vs as [|v vs IH]; intros st n Hk; cbn [foldl]; [exact Hk|].
  rewrite track_vehicle_spec. apply IH.
  destruct (decide (id v = k)) as [<-|Hne].
  - rewrite lookup_insert_eq. eauto.
  - rewrite lookup_insert_ne by exact Hne. exact Hk.
Qed.

(** Whatever the list (ids may repeat): no entry is ever removed, entries
    created in this call start at the time of the call, and the count is
    within bounds. *)
Lemma foldl_track_grows (now : Q) vs st0 st (n : Z) :
  (forall k, is_Some (st0 !! k) -> is_Some (st !! k)) ->
  (forall k e, st !! k = Some e -> st0 !! k = None -> start_time e = now) ->
  let '(st', n') := foldl (track_vehicle now) (st, n) vs in
  (forall k, is_Some (st0 !! k) -> is_Some (st' !! k)) /\
  (forall k e, st' !! k = Some e -> st0 !! k = None -> start_time e = now) /\
  (forall v, v ∈ vs -> is_Some (st' !! id v)) /\
  (forall k, is_Some (st' !! k) -> is_Some (st !! k) \/ exists v, v ∈ vs /\ id v = k) /\
  n <= n' <= n + Z.of_nat (length vs) /\
  ((forall v, v ∈ vs -> st0 !! id v = None) -> n' = n).
Proof.
  revert st n. induction vs as [|v vs IH]; intros st n Hkeep Hnew; cbn [foldl].
  - split; [exact Hkeep|]. split; [exact Hnew|].
    split; [intros v Hv; apply elem_of_nil in Hv; contradiction|].
    split; [auto|]. split; [cbn; lia | reflexivity].
  - rewrite track_vehicle_spec.
    assert (forall k, is_Some (st !! k) ->
                      is_Some (<[id v := entry_after now st v]> st !! k)) as Hmono.
    { intros k Hk. destruct (decide (id v = k)) as [<-|Hne].
      - rewrite lookup_insert_eq. eauto.
      - rewrite lookup_insert_ne by exact Hne. exact Hk. }
    specialize (IH (<[id v := entry_after now st v]> st)
                   (if stationary now st v then n + 1 else n)).
    pose proof (foldl_track_keeps now vs (<[id v := entry_after now st v]> st)
                  (if stationary now st v then n + 1 else n) (id v)) as Hv.
    destruct (foldl _ _ vs) as [st' n']. cbn [fst] in Hv.
    destruct IH as (H1 & H2 & H3 & H4 & H5 & H6).
    { intros k Hk. apply Hmono, Hkeep, Hk. }
    { intros k e Hk Hk0. destruct (decide (id v = k)) as [<-|Hne].
      - rewrite lookup_insert_eq in Hk. injection Hk as <-.
        unfold entry_after. destruct (st !! id v) as [e0|] eqn:E; [|reflexivity].
        destruct (distance_lt_10 _ _); [|reflexivity].
        apply (Hnew (id v)); assumption.
      - rewrite lookup_insert_ne in Hk by exact Hne. apply (Hnew k); assumption. }
    split; [exact H1|]. split; [exact H2|]. split; [|split; [|split]].
    + intros u [->|Hu]%elem_of_cons; [|apply H3, Hu].
      apply Hv. rewrite lookup_insert_eq. eauto.
    + intros k Hk. destruct (H4 k Hk) as [Hs|(u & Hu & Hid)].
      * destruct (decide (id v = k)) as [<-|Hne].
        -- right. exists v. split; [left | reflexivity].
        -- rewrite lookup_insert_ne in Hs by exact Hne. left. exact Hs.
      * right. exists u. split; [right; exact Hu | exact Hid].
    + cbn [length]. destruct (stationary now st v); lia.
    + intros Hnone. rewrite H6 by (intros u Hu; apply Hnone; right; exact Hu).
      unfold stationary. destruct (st !! id v) as [e|] eqn:E; [|reflexivity].
      destruct (distance_lt_10 _ _); cbn [andb]; [|reflexivity].
      assert (start_time e = now) as Hstart
        by (apply (Hnew (id v)); [exact E | apply Hnone; left]).
      rewrite Hstart.
      assert (Qlt_bool stable_threshold_seconds (now - now) = false) as Hq
        by (apply Qlt_bool_false; unfold stable_threshold_seconds; lra).
      rewrite Hq. reflexivity.
Qed.

(** X6. [detect_stable_vehicles] never removes an entry: after a call the
    tracked ids are those tracked before together with the listed ones, so
    the table only grows. The returned count lies between 0 and the number
    of listed positions, and it is 0 when none of the listed vehicles was
    tracked before the call, also when a vehicle is listed more than
    once. *)
Theorem tracker_never_forgets (now : Q) st vs :
  let '(st', stable_count) := detect_stable_vehicles now st vs in
  (forall k, is_Some (st' !! k) <->
             is_Some (st !! k) \/ exists v, v ∈ vs /\ id v = k) /\
  0 <= stable_count <= Z.of_nat (length vs) /\
  ((forall v, v ∈ vs -> st !! id v = None) -> stable_count = 0).
Proof.
  unfold detect_stable_vehicles.
  pose proof (foldl_track_grows now vs st st 0) as Hgrow.
  destruct (foldl _ _ vs) as [st' n'].
  destruct Hgrow as (H1 & _ & H3 & H4 & H5 & H6).
  { auto. }
  { intros k e Hk Hnone. rewrite Hk in Hnone. discriminate. }
  split; [|split; [lia | exact H6]].
  intros k. split; [apply H4|].
  intros [Hk|(v & Hv & <-)]; [apply H1, Hk | apply H3, Hv].
Qed.

End TrackerCalls.


(** ** Alert generation *)
Section CheckAndCreate.
Import CongestionAnalyzer.

(** The call in one equation: the rows it appends and the tracking entry it
    leaves. *)
Lemma check_and_create_alerts_eq (store : store_answers) (now : Z) (a : analyzer)
    (j : Z) (d : VehicleDetector.detection_dict) (feed : option Z) :
  let count := VehicleDetector.vehicle_count d in
  let created :=
    high_congestion_rows store a j count feed
    ++ stable_vehicle_rows store now a j count feed in
  let data := {| first_detected := tracked_since now a j;
                 vehicle_count := count;
                 last_update := now |} in
  check_and_create_alerts store now a j d feed =
  if select_raises store then (a, []) else
  ({| congestion_alerts := congestion_alerts a ++ created;
      vehicle_tracking :=
        if Qlt_bool (inject_Z stable_threshold_minutes) (tracked_minutes now a j)
           || negb (count <? 10)
        then <[junction_key j := data]> (vehicle_tracking a)
        else delete (junction_key j) (<[junction_key j := data]> (vehicle_tracking a)) |},
   created).
Proof.
  cbv zeta. unfold check_and_create_alerts, stable_vehicle_rows, high_congestion_rows,
    tracked_minutes, tracked_since, has_stable_alert, insert.
  fold (junction_key j).
  destruct (select_raises store); [reflexivity|].
  destruct (insert_raises store "high_congestion"),
    (insert_raises store "stable_vehicle");
  destruct (vehicle_tracking a !! junction_key j) as [t|];
    cbn [first_detected];
    destruct (30 <? VehicleDetector.vehicle_count d);
    destruct (Qlt_bool (inject_Z stable_threshold_minutes) _);
    cbn [andb orb negb];
    try destruct (existsb _ _); cbn [negb];
    try destruct (VehicleDetector.vehicle_count d <? 10); cbn [negb];
    rewrite ?app_nil_r, ?length_app, ?Nat.add_0_r; cbn [length app];
    rewrite <- ?app_assoc; reflexivity.
Qed.

(** X7. However the store answers, a call of [check_and_create_alerts]
    only appends to the alert table: the table afterwards is the table
    before followed by the alerts the call returns. There are at most two of
    them, each for the junction and the feed of the call, each active, of
    type high_congestion or stable_vehicle. A high_congestion alert is among
    them exactly when the vehicle count exceeds 30 and neither the select
    nor the insert of that row raises; a raising insert is logged and
    creates no alert. When the select raises, the call creates nothing and
    leaves the analyzer, its tracking included, as it was. *)
Theorem check_and_create_alerts_appends (store : store_answers) (now : Z)
    (a : analyzer) (j : Z) (d : VehicleDetector.detection_dict) (feed : option Z) :
  let '(a', created) := check_and_create_alerts store now a j d feed in
  congestion_alerts a' = congestion_alerts a ++ created /\
  (length created <= 2)%nat /\
  (forall r, r ∈ created ->
     junction_id r = j /\ video_feed_id r = feed /\ alert_status r = "active" /\
     (alert_type r = "high_congestion" \/ alert_type r = "stable_vehicle")) /\
  ((exists r, r ∈ created /\ alert_type r = "high_congestion")
   <-> 30 < VehicleDetector.vehicle_count d /\
       select_raises store = false /\
       insert_raises store "high_congestion" = false) /\
  (select_raises store = true -> a' = a /\ created = []).
Proof.
  rewrite check_and_create_alerts_eq. cbv zeta.
  destruct (select_raises store).
  { rewrite app_nil_r. split; [reflexivity|]. split; [cbn; lia|].
    split; [intros r Hr; apply elem_of_nil in Hr; contradiction|].
    split; [|intros _; split; reflexivity].
    split; [intros (r & Hr & _); apply elem_of_nil in Hr; contradiction|].
    intros (_ & Habs & _). discriminate. }
  cbn [congestion_alerts].
  split; [reflexivity|].
  unfold high_congestion_rows, stable_vehicle_rows.
  destruct (Z.ltb_spec 30 (VehicleDetector.vehicle_count d)) as [Hc|Hc];
    destruct (insert_raises store "high_congestion"); cbn [andb negb];
    destruct (_ && _ && _); cbn [app length].
  all: split; [lia|]; split;
    [intros r Hr;
     repeat (apply elem_of_cons in Hr; destruct Hr as [->|Hr]); cbn; auto;
     apply elem_of_nil in Hr; contradiction|].
  all: split; [|discriminate].
  all: split;
    [intros (r & Hr & Ht);
     repeat (apply elem_of_cons in Hr; destruct Hr as [->|Hr]);
     try discriminate Ht; try (repeat split; (lia || reflexivity));
     apply elem_of_nil in Hr; contradiction|].
  all: intros (Hgt & _ & Hins); try lia; try discriminate Hins.
  all: eexists; split; [left|reflexivity].
Qed.

End CheckAndCreate.

Section StableAlerts.
Import CongestionAnalyzer.

Lemma tracked_long_enough (m : Z) :
  Qlt_bool (inject_Z stable_threshold_minutes) (total_seconds m / 60) = true
  <-> 600000000 < m.
Proof.
  rewrite Qlt_bool_true. unfold Qlt, total_seconds, stable_threshold_minutes.
  cbn. lia.
Qed.

Lemma select_eq_app (t1 t2 : list alert_row) (j : Z) (s ty : string) :
  select_eq (t1 ++ t2) j s ty = select_eq t1 j s ty ++ select_eq t2 j s ty.
Proof. unfold select_eq. apply filter_app. Qed.

Lemma select_high_congestion_rows (store : store_answers) (a : analyzer)
    (j j' count : Z) (feed : option Z) :
  select_eq (high_congestion_rows store a j count feed) j' "active" "stable_vehicle" = [].
Proof.
  unfold high_congestion_rows, select_eq. destruct (_ && _); [|reflexivity].
  rewrite filter_cons, filter_nil. rewrite decide_False; [reflexivity|].
  cbn. intros (_ & _ & Habs). discriminate.
Qed.

Lemma no_alert_no_row (table : list alert_row) (j : Z) :
  (forall r, r ∈ table -> alert_type r = "stable_vehicle" ->
             10 <= stable_duration_minutes r) ->
  existsb (fun alert => stable_threshold_minutes <=? stable_duration_minutes alert)
          (select_eq table j "active" "stable_vehicle") = false ->
  select_eq table j "active" "stable_vehicle" = [].
Proof.
  intros Hlong Hnone.
  destruct (select_eq table j "active" "stable_vehicle") as [|r rest] eqn:E; [reflexivity|].
  assert (r ∈ select_eq table j "active" "stable_vehicle") as Hr by (rewrite E; left).
  unfold select_eq in Hr. apply list_elem_of_filter in Hr.
  destruct Hr as ((_ & _ & Hty) & Hin).
  cbn [existsb] in Hnone. apply orb_false_elim in Hnone. destruct Hnone as [Hr _].
  apply Z.leb_gt in Hr. specialize (Hlong r Hin Hty).
  unfold stable_threshold_minutes in Hr. lia.
Qed.

Lemma check_keeps_unique (store : store_answers) (now : Z) (a : analyzer) (j : Z)
    (d : VehicleDetector.detection_dict) (feed : option Z) :
  stable_alerts_unique (congestion_alerts a) ->
  stable_alerts_unique
    (congestion_alerts (fst (check_and_create_alerts store now a j d feed))).
Proof.
  intros [Hlong Hone]. rewrite check_and_create_alerts_eq. cbv zeta.
  destruct (select_raises store); [split; assumption|].
  cbn [fst congestion_alerts].
  set (hc := high_congestion_rows store a j (VehicleDetector.vehicle_count d) feed).
  assert (forall r, r ∈ hc -> alert_type r = "high_congestion") as Hhc.
  { subst hc. unfold high_congestion_rows. intros r Hr.
    destruct (_ && _); [|apply elem_of_nil in Hr; contradiction].
    apply list_elem_of_singleton in Hr. subst r. reflexivity. }
  unfold stable_vehicle_rows. fold hc.
  destruct (Qlt_bool _ _ && negb _ && negb _) eqn:Hwants.
  - apply andb_true_iff in Hwants. destruct Hwants as [Hwants _].
    apply andb_true_iff in Hwants. destruct Hwants as [Hold Hnone].
    apply negb_true_iff in Hnone. unfold has_stable_alert in Hnone.
    pose proof (no_alert_no_row _ j Hlong Hnone) as Hempty.
    split.
    + intros r [Hr|[Hr|Hr]%elem_of_app]%elem_of_app Hty.
      * apply Hlong; assumption.
      * rewrite (Hhc r Hr) in Hty. discriminate.
      * apply list_elem_of_singleton in Hr. subst r. cbn [stable_duration_minutes].
        apply (py_int_lower _ 10). apply Qlt_bool_true. exact Hold.
    + intros j'. rewrite !select_eq_app. subst hc.
      rewrite select_high_congestion_rows, app_nil_l, length_app.
      unfold select_eq at 2. rewrite filter_cons, filter_nil.
      destruct (decide (j = j')) as [<-|Hne].
      * rewrite Hempty. cbn [length]. destruct (decide _); cbn [length]; lia.
      * rewrite decide_False by (cbn; intros (Hj & _); congruence).
        cbn [length]. specialize (Hone j'). lia.
  - rewrite app_nil_r. split.
    + intros r [Hr|Hr]%elem_of_app Hty; [apply Hlong; assumption|].
      rewrite (Hhc r Hr) in Hty. discriminate.
    + intros j'. rewrite select_eq_app. subst hc.
      rewrite select_high_congestion_rows, app_nil_r. apply Hone.
Qed.

(** X8. Stable-vehicle alerts are deduplicated: if the alert table starts
    with at most one active stable_vehicle alert per junction, each of 10
    minutes or more (an empty table, for one), then after any sequence of
    calls of [check_and_create_alerts], for any junctions, counts and
    times, and whichever calls of the store raise, every junction still has
    at most one active stable_vehicle alert. *)
Theorem at_most_one_stable_vehicle_alert (a : analyzer)
    (calls : list (store_answers * Z * Z * VehicleDetector.detection_dict * option Z))
    (j : Z) :
  stable_alerts_unique (congestion_alerts a) ->
  (length (active_alerts (run_checks a calls) j "stable_vehicle") <= 1)%nat.
Proof.
  intros Hinv.
  assert (stable_alerts_unique (congestion_alerts (run_checks a calls))) as [_ Hone].
  { revert a Hinv. induction calls as [|[[[[store now] j'] d] feed] rest IH]; intros a Hinv;
      cbn [run_checks]; [exact Hinv|].
    apply IH, check_keeps_unique, Hinv. }
  apply Hone.
Qed.

(** X9. Once a junction has been tracked for more than ten minutes its
    timer is never reset: in every later call for that junction, whatever
    the vehicle count of the sample (also 0), the tracking entry stays with
    the same [first_detected]. *)
Theorem tracking_timer_never_resets (a : analyzer) (j : Z) (samples : list (Z * Z))
    (t : tracking) :
  vehicle_tracking a !! junction_key j = Some t ->
  (forall s, s ∈ samples -> first_detected t + 600000000 < fst s) ->
  first_detected <$> vehicle_tracking (fst (run_samples a j samples)) !! junction_key j
  = Some (first_detected t).
Proof.
  revert a t. induction samples as [|[now count] rest IH]; intros a t Ht Hlate.
  - cbn. rewrite Ht. reflexivity.
  - cbn [run_samples].
    pose proof (check_and_create_alerts_eq store_up now a j (count_only count) None) as Heq.
    cbv zeta in Heq. cbn [select_raises store_up] in Heq.
    assert (tracked_since now a j = first_detected t) as Hsince
      by (unfold tracked_since; rewrite Ht; reflexivity).
    assert (Qlt_bool (inject_Z stable_threshold_minutes) (tracked_minutes now a j) = true)
      as Hold.
    { unfold tracked_minutes. rewrite Hsince. apply tracked_long_enough.
      specialize (Hlate (now, count)). cbn [fst] in Hlate.
      assert (first_detected t + 600000000 < now) by (apply Hlate; left). lia. }
    rewrite Hold, Hsince in Heq. cbn [orb] in Heq.
    destruct (check_and_create_alerts store_up now a j (count_only count) None)
      as [a1 created].
    injection Heq as Ha1 _.
    specialize (IH a1 {| first_detected := first_detected t;
                         vehicle_count := VehicleDetector.vehicle_count (count_only count);
                         last_update := now |}).
    destruct (run_samples a1 j rest) as [a2 later]. cbn [fst] in *.
    apply IH.
    + rewrite Ha1. cbn [vehicle_tracking]. apply lookup_insert_eq.
    + intros s Hs. cbn [first_detected]. apply Hlate. right. exact Hs.
Qed.

(** X10. Two samples of a junction that was not tracked and has no active
    stable_vehicle alert, with a store whose select returns in both calls
    and whose insert of the stable_vehicle row returns in the second: when
    the first sample shows 10 vehicles or more and the second is taken more
    than ten minutes later, the second call creates a stable_vehicle alert
    whose duration is the whole minutes between the two samples, whatever
    the second sample's count. When that insert raises instead, the second
    call creates no stable_vehicle alert. *)
Theorem stable_alert_from_elapsed_time (store0 store1 : store_answers) (a : analyzer)
    (j : Z) (t0 t1 : Z) (d0 d1 : VehicleDetector.detection_dict)
    (feed0 feed1 : option Z) :
  select_raises store0 = false ->
  select_raises store1 = false ->
  vehicle_tracking a !! junction_key j = None ->
  has_stable_alert a j = false ->
  10 <= VehicleDetector.vehicle_count d0 ->
  t0 + 600000000 < t1 ->
  let a1 := fst (check_and_create_alerts store0 t0 a j d0 feed0) in
  let created := snd (check_and_create_alerts store1 t1 a1 j d1 feed1) in
  (insert_raises store1 "stable_vehicle" = false ->
   exists r,
     r ∈ created /\
     alert_type r = "stable_vehicle" /\
     alert_status r = "active" /\
     stable_duration_minutes r = Z.quot (t1 - t0) 60000000) /\
  (insert_raises store1 "stable_vehicle" = true ->
   forall r, r ∈ created -> alert_type r = "high_congestion").
Proof.
  intros Hsel0 Hsel1 Hnew Hnone Hcount Hlate. cbv zeta.
  assert (tracked_since t0 a j = t0) as Hsince0
    by (unfold tracked_since; rewrite Hnew; reflexivity).
  assert (Qlt_bool (inject_Z stable_threshold_minutes) (tracked_minutes t0 a j) = false)
    as Hyoung.
  { unfold tracked_minutes. rewrite Hsince0, Z.sub_diag. reflexivity. }
  assert (fst (check_and_create_alerts store0 t0 a j d0 feed0) =
          {| congestion_alerts :=
               congestion_alerts a
               ++ high_congestion_rows store0 a j (VehicleDetector.vehicle_count d0) feed0;
             vehicle_tracking :=
               <[junction_key j := {| first_detected := t0;
                                      vehicle_count := VehicleDetector.vehicle_count d0;
                                      last_update := t0 |}]> (vehicle_tracking a) |})
    as Ha1.
  { rewrite (check_and_create_alerts_eq store0 t0), Hsel0. cbv zeta. cbn [fst].
    rewrite Hyoung. cbn [orb].
    destruct (Z.ltb_spec (VehicleDetector.vehicle_count d0) 10) as [Hlt|_]; [lia|].
    cbn [negb]. unfold stable_vehicle_rows. rewrite Hyoung. cbn [andb].
    rewrite app_nil_r, Hsince0. reflexivity. }
  rewrite Ha1. clear Ha1.
  set (a1 := {| congestion_alerts := _; vehicle_tracking := _ |}).
  rewrite (check_and_create_alerts_eq store1 t1), Hsel1. cbv zeta. cbn [snd].
  assert (tracked_since t1 a1 j = t0) as Hsince1
    by (unfold tracked_since, a1; cbn [vehicle_tracking];
        rewrite lookup_insert_eq; reflexivity).
  assert (has_stable_alert a1 j = false) as Hnone1.
  { unfold has_stable_alert, a1. cbn [congestion_alerts].
    rewrite select_eq_app, select_high_congestion_rows, app_nil_r. exact Hnone. }
  assert (Qlt_bool (inject_Z stable_threshold_minutes) (tracked_minutes t1 a1 j) = true)
    as Hold
    by (unfold tracked_minutes; rewrite Hsince1; apply tracked_long_enough; lia).
  unfold stable_vehicle_rows. rewrite Hold, Hnone1. cbn [andb negb].
  split; intros Hins; rewrite Hins; cbn [negb].
  - eexists. split; [apply elem_of_app; right; left|].
    cbn [alert_type alert_status stable_duration_minutes].
    split; [reflexivity|]. split; [reflexivity|].
    unfold tracked_minutes. rewrite Hsince1. unfold py_int, total_seconds.
    cbn. rewrite Z.mul_1_r. reflexivity.
  - rewrite app_nil_r. unfold high_congestion_rows. intros r Hr.
    destruct (_ && _); [|apply elem_of_nil in Hr; contradiction].
    apply list_elem_of_singleton in Hr. subst r. reflexivity.
Qed.

End StableAlerts.

Lemma stable_alerts_unique_nil : stable_alerts_unique [].
Proof.
  split; [intros r Hr; apply elem_of_nil in Hr; contradiction|].
  intros j. cbn. lia.
Qed.

(** Junction 1 sampled at 0, 11 and 22 minutes, junction 2 in between. *)
Lemma at_most_one_stable_vehicle_alert_witness :
  let calls := [ (CongestionAnalyzer.store_up, 0, 1, count_only 12, None);
                 (CongestionAnalyzer.store_up, 60000000, 2, count_only 40, None);
                 (CongestionAnalyzer.store_up, 660000000, 1, count_only 0, None);
                 (CongestionAnalyzer.store_up, 1320000000, 1, count_only 50, None) ] in
  (length (active_alerts (run_checks new_analyzer calls) 1 "stable_vehicle") <= 1)%nat.
Proof.
  cbv zeta. apply at_most_one_stable_vehicle_alert. exact stable_alerts_unique_nil.
Defined.

(** A junction tracked since time 0, sampled empty after 11 and 12 minutes. *)
Lemma tracking_timer_never_resets_witness :
  let t := {| CongestionAnalyzer.first_detected := 0;
              CongestionAnalyzer.vehicle_count := 12;
              CongestionAnalyzer.last_update := 0 |} in
  let a := {| CongestionAnalyzer.congestion_alerts := [];
              CongestionAnalyzer.vehicle_tracking := {[ junction_key 1 := t ]} |} in
  CongestionAnalyzer.first_detected <$>
    CongestionAnalyzer.vehicle_tracking
      (fst (run_samples a 1 [(660000000, 0); (720000000, 0)])) !! junction_key 1
  = Some 0.
Proof.
  cbv zeta.
  refine (tracking_timer_never_resets
           {| CongestionAnalyzer.congestion_alerts := [];
              CongestionAnalyzer.vehicle_tracking :=
                {[ junction_key 1 :=
                     {| CongestionAnalyzer.first_detected := 0;
                        CongestionAnalyzer.vehicle_count := 12;
                        CongestionAnalyzer.last_update := 0 |} ]} |}
           1 [(660000000, 0); (720000000, 0)]
           {| CongestionAnalyzer.first_detected := 0;
              CongestionAnalyzer.vehicle_count := 12;
              CongestionAnalyzer.last_update := 0 |} _ _).
  - apply lookup_singleton_eq.
  - intros s Hs. cbn [CongestionAnalyzer.first_detected].
    repeat (apply elem_of_cons in Hs; destruct Hs as [->|Hs]); [cbn; lia ..|].
    apply elem_of_nil in Hs. contradiction.
Defined.

(** Twelve vehicles at time 0, none eleven minutes later: a stable_vehicle
    alert of 11 minutes. *)
Lemma stable_alert_from_elapsed_time_witness :
  exists r,
    r ∈ snd (CongestionAnalyzer.check_and_create_alerts
               CongestionAnalyzer.store_up 660000000
               (fst (CongestionAnalyzer.check_and_create_alerts
                       CongestionAnalyzer.store_up 0 new_analyzer 1
                       (count_only 12) None))
               1 (count_only 0) None) /\
    CongestionAnalyzer.alert_type r = "stable_vehicle" /\
    CongestionAnalyzer.alert_status r = "active" /\
    CongestionAnalyzer.stable_duration_minutes r = 11.
Proof.
  refine (proj1 (stable_alert_from_elapsed_time
                   CongestionAnalyzer.store_up CongestionAnalyzer.store_up
                   new_analyzer 1 0 660000000
                   (count_only 12) (count_only 0) None None _ _ _ _ _ _) _).
  - reflexivity.
  - reflexivity.
  - apply lookup_empty.
  - reflexivity.
  - cbn. lia.
  - lia.
  - reflexivity.
Defined.

(** ** Video sources *)
Section Handlers.
Import video_handler.
Context {Frame : Type} (w : world Frame).

Implicit Types (h : VideoHandler Frame).

Lemma try_stream_urls_handler h (urls : list string) :
  handler (fst (try_stream_urls w h urls)) = handler h.
Proof.
  revert h. induction urls as [|url rest IH]; intros h; cbn [try_stream_urls];
    [reflexivity|].
  destruct (isOpened (VideoCapture_of w url)); [reflexivity|].
  rewrite IH. reflexivity.
Qed.

(** The loop over the candidate URLs stops at the first one that opens. *)
Lemma try_stream_urls_first h (urls : list string) :
  let '(h', ok) := try_stream_urls w h urls in
  match list_find (fun url => isOpened (VideoCapture_of w url) = true) urls with
  | Some (_, url) =>
      ok = true /\ stream_url h' = Some url /\
      cap h' = Some (VideoCapture_of w url) /\
      frame_rate h' = or_30 (CAP_PROP_FPS (VideoCapture_of w url))
  | None =>
      ok = false /\ stream_url h' = stream_url h /\ frame_rate h' = frame_rate h /\
      cap h' = match last urls with
               | Some url => Some (VideoCapture_of w url)
               | None => cap h
               end
  end.
Proof.
  revert h. induction urls as [|url rest IH]; intros h; cbn [try_stream_urls list_find].
  - repeat split.
  - destruct (decide (isOpened (VideoCapture_of w url) = true)) as [Hopen|Hclosed].
    + rewrite Hopen. cbn. repeat split.
    + apply not_true_is_false in Hclosed. rewrite Hclosed.
      specialize (IH {| handler := handler h; cap := Some (VideoCapture_of w url);
                        frame_rate := frame_rate h; stream_url := stream_url h |}).
      destruct (try_stream_urls w _ rest) as [h' ok].
      destruct (list_find _ rest) as [[i url']|]; cbn [fmap option_fmap option_map prod_map fst snd].
      * exact IH.
      * destruct IH as (H1 & H2 & H3 & H4). cbn in H2, H3, H4.
        repeat split; try assumption.
        destruct rest as [|url2 rest2]; [exact H4|].
        change (last (url :: url2 :: rest2)) with (last (url2 :: rest2)).
        destruct (last (url2 :: rest2)) eqn:E; [exact H4|].
        apply last_None in E. discriminate.
Qed.

(** X11. The CCTV handler tries its three URLs in the order
    rtsp://.../stream1, rtsp://.../h264, http://.../video (with
    "user:password@" before the address when a user name is given) and takes
    the first one whose capture opens: that URL becomes [stream_url], its
    capture the handle. It raises exactly when none of the three opens, and
    then keeps the capture of the last URL, which is not open. *)
Theorem cctv_takes_first_open_url (camera_ip : string) (port : Z)
    (username password : option string) :
  let urls := cctv_urls camera_ip port username password in
  let opens url := isOpened (VideoCapture_of w url) = true in
  let '(h', ok) :=
    get_video_stream w (new_handler (CCTVCameraHandler camera_ip port username password)) in
  (ok = true <-> exists url, url ∈ urls /\ opens url) /\
  (ok = true ->
     exists (i : nat) (url : string),
       urls !! i = Some url /\ opens url /\
       (forall (k : nat) (earlier : string),
          urls !! k = Some earlier -> (k < i)%nat -> ~ opens earlier) /\
       stream_url h' = Some url /\ cap h' = Some (VideoCapture_of w url)) /\
  (ok = false ->
     stream_url h' = None /\
     cap h' = (VideoCapture_of w <$> last urls) /\ handler_open h' = false).
Proof.
  cbv zeta. unfold get_video_stream. cbn [handler new_handler].
  change (try_stream_urls w _ _) with
    (try_stream_urls w (new_handler (CCTVCameraHandler camera_ip port username password))
       (cctv_urls camera_ip port username password)).
  pose proof (try_stream_urls_first
                (new_handler (CCTVCameraHandler camera_ip port username password))
                (cctv_urls camera_ip port username password)) as Hfirst.
  destruct (try_stream_urls w _ _) as [h' ok].
  destruct (list_find _ _) as [[i url]|] eqn:Efind.
  - destruct Hfirst as (-> & Hurl & Hcap & _).
    apply list_find_Some in Efind. destruct Efind as (Hi & Hopen & Hearlier).
    split; [split; [intros _|reflexivity]|].
    { exists url. split; [apply list_elem_of_lookup; eauto | exact Hopen]. }
    split; [|discriminate]. intros _. exists i, url.
    split; [exact Hi|]. split; [exact Hopen|]. split; [|split; assumption].
    intros k earlier Hk Hlt. exact (Hearlier k earlier Hk Hlt).
  - destruct Hfirst as (-> & Hurl & _ & Hcap).
    apply list_find_None in Efind.
    split; [split; [discriminate|]|].
    { intros (url & Hin & Hopen). rewrite Forall_forall in Efind.
      exfalso. exact (Efind url Hin Hopen). }
    split; [discriminate|]. intros _.
    split; [exact Hurl|].
    assert (exists url, last (cctv_urls camera_ip port username password) = Some url
                        /\ url ∈ cctv_urls camera_ip port username password) as (url & Hlast & Hin).
    { eexists. split; [reflexivity|]. unfold cctv_urls. set_solver. }
    rewrite Hlast in Hcap |- *. split; [exact Hcap|].
    unfold handler_open. rewrite Hcap.
    rewrite Forall_forall in Efind. specialize (Efind url Hin).
    apply not_true_is_false. exact Efind.
Qed.

Lemma or_30_nonzero (x : Q) : ~ (or_30 x == 0)%Q.
Proof.
  unfold or_30. destruct (Qeq_bool x 0) eqn:E.
  - discriminate.
  - intros Hx. apply Qeq_bool_neq in E. contradiction.
Qed.

(** [get_video_stream] returns a capture exactly when it leaves an open
    handle, for a handler that had none. *)
Lemma get_video_stream_open h :
  cap h = None ->
  snd (get_video_stream w h) = handler_open (fst (get_video_stream w h)).
Proof.
  intros Hcap. unfold get_video_stream, handler_open.
  destruct (handler h) as [path|url quality|ip port user pw|index].
  - destruct (path_exists w path); cbn [negb fst snd]; [|rewrite Hcap; reflexivity].
    destruct (isOpened (VideoCapture_of w path)) eqn:E; cbn [negb fst snd cap];
      rewrite E; reflexivity.
  - destruct (extract_info w url quality) as [stream|]; cbn [fst snd];
      [|rewrite Hcap; reflexivity].
    destruct (isOpened (VideoCapture_of w stream)) eqn:E; cbn [negb fst snd cap];
      rewrite E; reflexivity.
  - match goal with |- context [try_stream_urls w h ?urls] =>
      pose proof (try_stream_urls_first h urls) as Hfirst;
      destruct (try_stream_urls w h urls) as [h' ok];
      destruct (list_find _ urls) as [[i u]|] eqn:Efind
    end.
    + destruct Hfirst as (-> & _ & Hc & _). cbn [fst snd]. rewrite Hc.
      apply list_find_Some in Efind. symmetry. tauto.
    + destruct Hfirst as (-> & _ & _ & Hc). cbn [fst snd]. rewrite Hc.
      apply list_find_None in Efind. cbn [last].
      rewrite Forall_forall in Efind.
      symmetry. apply not_true_is_false. apply Efind. set_solver.
  - destruct (isOpened (VideoCapture_index w index)) eqn:E; cbn [negb fst snd cap];
      rewrite E; reflexivity.
Qed.

(** X12. For a handler of any of the four classes that holds no capture
    yet, [get_video_stream] returns the capture exactly when the handler is
    left with an open handle; when it raises, the handle is absent or not
    open. After a successful call the frame rate of a YouTube, CCTV or local
    camera handler is never 0 (a rate of 0 is replaced by 30); the handler
    of an uploaded file takes the rate of the file as it is. *)
Theorem get_video_stream_opens_handle (class : handler_class) :
  let '(h', ok) := get_video_stream w (new_handler class) in
  ok = handler_open h' /\
  handler h' = class /\
  (ok = true ->
     match class with
     | UploadedVideoHandler file_path =>
         frame_rate h' = CAP_PROP_FPS (VideoCapture_of w file_path)
     | _ => ~ (frame_rate h' == 0)%Q
     end).
Proof.
  pose proof (get_video_stream_open (new_handler class) eq_refl) as Hopen.
  assert (handler (fst (get_video_stream w (new_handler class))) = class) as Hclass.
  { unfold get_video_stream. cbn [handler new_handler].
    destruct class as [path|url quality|ip port user pw|index].
    - repeat case_match; reflexivity.
    - repeat case_match; reflexivity.
    - rewrite try_stream_urls_handler. reflexivity.
    - repeat case_match; reflexivity. }
  assert (snd (get_video_stream w (new_handler class)) = true ->
          match class with
          | UploadedVideoHandler file_path =>
              frame_rate (fst (get_video_stream w (new_handler class)))
              = CAP_PROP_FPS (VideoCapture_of w file_path)
          | _ => ~ (frame_rate (fst (get_video_stream w (new_handler class))) == 0)%Q
          end) as Hrate.
  { unfold get_video_stream. cbn [handler new_handler].
    destruct class as [path|url quality|ip port user pw|index].
    - repeat case_match; cbn; congruence.
    - repeat case_match; cbn; try congruence; intros _; apply or_30_nonzero.
    - match goal with |- context [try_stream_urls w ?h ?urls] =>
        pose proof (try_stream_urls_first h urls) as Hfirst;
        destruct (try_stream_urls w h urls) as [h' ok];
        destruct (list_find _ urls) as [[i u]|]
      end.
      + destruct Hfirst as (_ & _ & _ & Hr). cbn [fst snd]. intros _.
        rewrite Hr. apply or_30_nonzero.
      + destruct Hfirst as (-> & _). cbn. discriminate.
    - repeat case_match; cbn; try congruence; intros _; apply or_30_nonzero. }
  destruct (get_video_stream w (new_handler class)) as [h' ok]. cbn [fst snd] in *.
  split; [exact Hopen|]. split; [exact Hclass | exact Hrate].
Qed.

End Handlers.

(** ** The feed registry and its workers *)
Section ServiceInvariants.
Import video_handler.
Context {Frame : Type} (w : world Frame).

Implicit Types (svc : VideoAnalysisService Frame) (wk : worker Frame).

(** A property of single workers that holds for a new worker and is kept by
    a slot of the worker and by [stop_processing] holds for every worker in
    every execution. *)
Lemma step_all_workers (P : worker Frame -> Prop) (now : Z) (c : call) svc :
  (forall class j feed_id,
     P {| feed_id_of := feed_id; processor := new_processor (new_handler class) j;
          thread := NotStarted |}) ->
  (forall wk, P wk -> P (worker_after w wk)) ->
  (forall wk, P wk -> P {| feed_id_of := feed_id_of wk;
                           processor := stop_processing (processor wk);
                           thread := thread wk |}) ->
  all_workers P svc -> all_workers P (fst (step w now c svc)).
Proof.
  intros Hnew Hslot Hstop Hall i wk.
  destruct c as [j path name|j url name|j ip name user pw|fid|k]; cbn [step fst].
  1-3: cbn [start_feed upload_and_process_video add_youtube_feed add_cctv_feed
            fst workers];
       intros [Hwk|[Hge Hwk]]%lookup_app_Some;
       [exact (Hall i wk Hwk)|];
       destruct (i - length (workers svc))%nat; cbn in Hwk; [|discriminate];
       injection Hwk as <-; apply Hnew.
  - unfold stop_feed. destruct (active_processors svc !! fid) as [k|]; [|apply Hall].
    cbn [workers]. destruct (decide (k = i)) as [->|Hne].
    + rewrite list_lookup_alter_eq.
      destruct (workers svc !! i) as [wk0|] eqn:E; cbn; [|discriminate].
      intros [= <-]. apply Hstop. exact (Hall i wk0 E).
    + rewrite list_lookup_alter_ne by exact Hne. apply Hall.
  - destruct (workers svc !! k) as [wk0|] eqn:Hk;
      [|rewrite worker_step_missing by exact Hk; apply Hall].
    rewrite (proj1 (worker_step_workers w now k svc wk0 Hk)).
    destruct (decide (k = i)) as [->|Hne].
    + rewrite list_lookup_insert_eq by (apply lookup_lt_is_Some; eauto).
      intros [= <-]. apply Hslot. exact (Hall i wk0 Hk).
    + rewrite list_lookup_insert_ne by exact Hne. apply Hall.
Qed.

Lemma run_all_workers (P : worker Frame -> Prop) (trace : list (Z * call)) svc :
  (forall class j feed_id,
     P {| feed_id_of := feed_id; processor := new_processor (new_handler class) j;
          thread := NotStarted |}) ->
  (forall wk, P wk -> P (worker_after w wk)) ->
  (forall wk, P wk -> P {| feed_id_of := feed_id_of wk;
                           processor := stop_processing (processor wk);
                           thread := thread wk |}) ->
  all_workers P svc -> all_workers P (fst (run w trace svc)).
Proof.
  intros Hnew Hslot Hstop. revert svc.
  induction trace as [|[now c] rest IH]; intros svc Hall; [exact Hall|].
  cbn [run]. pose proof (step_all_workers P now c svc Hnew Hslot Hstop Hall) as Hstep.
  destruct (step w now c svc) as [svc1 e1]. cbn [fst] in Hstep.
  specialize (IH svc1 Hstep). destruct (run w rest svc1) as [svc2 e2]. exact IH.
Qed.

Lemma all_workers_new (P : worker Frame -> Prop) : all_workers P new_service.
Proof. intros i wk Hwk. cbn in Hwk. rewrite lookup_nil in Hwk. discriminate. Qed.

Lemma handler_open_release (h : VideoHandler Frame) : handler_open (release h) = false.
Proof. unfold handler_open, release. cbn. destruct (cap h); reflexivity. Qed.

Lemma worker_after_handle wk :
  handle_follows_thread wk -> handle_follows_thread (worker_after w wk).
Proof.
  unfold handle_follows_thread, worker_after.
  destruct (thread wk) eqn:Ht; intros Hwk.
  - pose proof (get_video_stream_open w (video_handler (processor wk)) Hwk) as Hopen.
    destruct (get_video_stream w (video_handler (processor wk))) as [h ok].
    cbn [fst snd] in Hopen. destruct ok; cbn.
    + symmetry. exact Hopen.
    + apply handler_open_release.
  - destruct (is_processing (processor wk) && negb (stop_event (processor wk)));
      [|cbn; apply handler_open_release].
    destruct (cap (video_handler (processor wk))) as [c|] eqn:Hc;
      cbn [mbind option_bind]; [|cbn; apply handler_open_release].
    unfold read. unfold handler_open in Hwk. rewrite Hc in Hwk. rewrite Hwk.
    destruct (pending c); cbn; [apply handler_open_release | reflexivity].
  - rewrite Ht. exact Hwk.
  - rewrite Ht. exact Hwk.
Qed.

(** X13. In every execution of the service, a worker's source handle is
    open exactly while its thread is in the loop of [process_video_stream]:
    a worker whose thread has not run yet holds no capture, and a worker
    whose thread has ended, by the end of the stream, by a stop request or
    by a failed open, holds no open handle. The [finally] block releases
    the handle on every exit path. *)
Theorem handle_open_iff_in_loop (trace : list (Z * call)) (i : nat) wk :
  workers (fst (run w trace new_service)) !! i = Some wk ->
  (handle_open (fst (run w trace new_service)) i = true <-> thread wk = InLoop) /\
  (thread wk = NotStarted -> cap (video_handler (processor wk)) = None).
Proof.
  intros Hwk.
  assert (handle_follows_thread wk) as Hinv.
  { apply (run_all_workers handle_follows_thread trace new_service) with (i := i).
    - intros class j feed_id. reflexivity.
    - apply worker_after_handle.
    - intros wk0 Hwk0. exact Hwk0.
    - apply all_workers_new.
    - exact Hwk. }
  unfold handle_open. rewrite Hwk. unfold handle_follows_thread, handler_open in Hinv.
  destruct (thread wk).
  - rewrite Hinv. split; [split; discriminate | intros _; reflexivity].
  - split; [|discriminate].
    destruct (cap (video_handler (processor wk))) as [c|]; [|discriminate].
    rewrite Hinv. split; reflexivity.
  - split; [|discriminate].
    destruct (cap (video_handler (processor wk))) as [c|]; [rewrite Hinv|];
      split; discriminate.
  - split; [|discriminate].
    destruct (cap (video_handler (processor wk))) as [c|]; [rewrite Hinv|];
      split; discriminate.
Qed.

Lemma step_registry_consistent (now : Z) (c : call) svc :
  registry_consistent svc -> registry_consistent (fst (step w now c svc)).
Proof.
  intros Hinv feed_id i.
  destruct c as [j path name|j url name|j ip name user pw|fid|k]; cbn [step fst].
  1-3: cbn [start_feed upload_and_process_video add_youtube_feed add_cctv_feed
            fst workers active_processors];
       match goal with |- <[?new := _]> _ !! _ = _ -> _ =>
         destruct (decide (new = feed_id)) as [Heq|Hne] end;
       [rewrite Heq, lookup_insert_eq; intros [= <-];
        eexists; split;
         [rewrite lookup_app_r by lia; rewrite Nat.sub_diag; reflexivity | reflexivity]
       |rewrite lookup_insert_ne by exact Hne; intros Hreg;
        destruct (Hinv feed_id i Hreg) as (wk & Hwk & Hid);
        exists wk; split; [|exact Hid];
        rewrite lookup_app_l by (apply lookup_lt_is_Some; eauto); exact Hwk].
  - unfold stop_feed. destruct (active_processors svc !! fid) as [k|] eqn:Hfid;
      [|apply Hinv].
    cbn [active_processors workers].
    destruct (decide (fid = feed_id)) as [->|Hne];
      [rewrite lookup_delete_eq; discriminate|].
    rewrite lookup_delete_ne by exact Hne. intros Hreg.
    destruct (Hinv feed_id i Hreg) as (wk & Hwk & Hid).
    destruct (decide (k = i)) as [->|Hki].
    + eexists. split; [rewrite list_lookup_alter_eq, Hwk; reflexivity | exact Hid].
    + exists wk. split; [rewrite list_lookup_alter_ne by exact Hki; exact Hwk | exact Hid].
  - destruct (workers svc !! k) as [wk0|] eqn:Hk;
      [|rewrite worker_step_missing by exact Hk; apply Hinv].
    destruct (worker_step_workers w now k svc wk0 Hk) as [Hws Hreg]. rewrite Hws, Hreg.
    intros Hi. destruct (Hinv feed_id i Hi) as (wk & Hwk & Hid).
    destruct (decide (k = i)) as [->|Hne].
    + exists (worker_after w wk0).
      split; [apply list_lookup_insert_eq, lookup_lt_is_Some; eauto|].
      rewrite worker_after_feed_id. congruence.
    + exists wk. split; [rewrite list_lookup_insert_ne by exact Hne; exact Hwk | exact Hid].
Qed.

(** X14. In every execution of the service the registry is consistent:
    each feed id in [active_processors] refers to a worker that exists and
    was started under that very feed id; so two different feed ids never
    refer to the same worker. *)
Theorem registry_stays_consistent (trace : list (Z * call)) :
  let svc := fst (run w trace new_service) in
  registry_consistent svc /\
  (forall (f1 f2 : string) (i : nat),
     active_processors svc !! f1 = Some i -> active_processors svc !! f2 = Some i ->
     f1 = f2).
Proof.
  cbv zeta.
  assert (registry_consistent (fst (run w trace (@new_service Frame)))) as Hinv.
  { assert (registry_consistent (@new_service Frame)) as H0
      by (intros f i Hf; cbn in Hf; rewrite lookup_empty in Hf; discriminate).
    revert H0. generalize (@new_service Frame) as svc.
    induction trace as [|[now c] rest IH]; intros svc Hsvc; [exact Hsvc|].
    cbn [run]. pose proof (step_registry_consistent now c svc Hsvc) as Hstep.
    destruct (step w now c svc) as [svc1 e1]. cbn [fst] in Hstep.
    specialize (IH svc1 Hstep). destruct (run w rest svc1) as [svc2 e2]. exact IH. }
  split; [exact Hinv|].
  intros f1 f2 i H1 H2.
  destruct (Hinv f1 i H1) as (wk1 & Hwk1 & Hid1).
  destruct (Hinv f2 i H2) as (wk2 & Hwk2 & Hid2).
  congruence.
Qed.

End ServiceInvariants.

Section SnapshotInvariant.
Import video_handler.
Context {Frame : Type} (w : world Frame).

Implicit Types (svc : VideoAnalysisService Frame) (wk : worker Frame).

Lemma worker_after_frame_count wk :
  0 <= frame_count (processor wk) -> 0 <= frame_count (processor (worker_after w wk)).
Proof.
  unfold worker_after. intros Hfc. repeat case_match; cbn; lia.
Qed.

Lemma worker_step_snapshots (now : Z) (i : nat) svc wk :
  workers svc !! i = Some wk ->
  0 <= frame_count (processor wk) ->
  (forall f snap, analysis_results svc !! f = Some snap -> snapshot_well_formed snap) ->
  forall f snap,
    analysis_results (fst (worker_step w now i svc)) !! f = Some snap ->
    snapshot_well_formed snap.
Proof.
  intros Hwk Hfc Hold f snap. unfold worker_step, _process_feed_body, set_worker.
  rewrite Hwk.
  repeat case_match; simplify_eq; cbn [fst analysis_results]; try apply Hold.
  destruct (decide (feed_id_of wk = f)) as [<-|Hne];
    [|rewrite lookup_insert_ne by exact Hne; apply Hold].
  rewrite lookup_insert_eq. intros [= <-].
  match goal with Hp : OpenCVAnalyzer.process_frame _ _ = Some _ |- _ =>
    destruct (process_frame_agree _ _ _ Hp) as [Hlen Hsum] end.
  match goal with Hm : (_ =? 0) = true |- _ => apply Z.eqb_eq in Hm; rename Hm into Hmod end.
  unfold snapshot_well_formed.
  cbn [snap_frame_count snap_vehicle_count snap_detections snap_vehicle_types].
  split; [lia|]. split; [exact Hmod|]. split; assumption.
Qed.

Lemma step_snapshots (now : Z) (c : call) svc :
  all_workers (fun wk => 0 <= frame_count (processor wk)) svc ->
  (forall f snap, analysis_results svc !! f = Some snap -> snapshot_well_formed snap) ->
  forall f snap,
    analysis_results (fst (step w now c svc)) !! f = Some snap ->
    snapshot_well_formed snap.
Proof.
  intros Hall Hold.
  destruct c as [j path name|j url name|j ip name user pw|fid|k]; cbn [step fst];
    try exact Hold.
  - unfold stop_feed. destruct (active_processors svc !! fid); exact Hold.
  - destruct (workers svc !! k) as [wk|] eqn:Hk;
      [|rewrite worker_step_missing by exact Hk; exact Hold].
    apply (worker_step_snapshots now k svc wk Hk); [exact (Hall k wk Hk) | exact Hold].
Qed.

(** X15. In every execution of the service, every snapshot that
    [get_feed_results] can return is one that a worker stored at a sampled
    frame: its frame count is a positive multiple of 30, and its vehicle
    count equals the length of its detections list and the sum of its type
    histogram. *)
Theorem snapshots_are_sampled_frames (trace : list (Z * call)) (feed_id : string)
    (snap : snapshot) :
  get_feed_results (fst (run w trace new_service)) feed_id = Some snap ->
  0 < snap_frame_count snap /\
  snap_frame_count snap mod 30 = 0 /\
  snap_vehicle_count snap = Z.of_nat (length (snap_detections snap)) /\
  snap_vehicle_count snap = histogram_total (snap_vehicle_types snap).
Proof.
  unfold get_feed_results.
  assert (all_workers (fun wk : worker Frame => 0 <= frame_count (processor wk))
            new_service) as Hall by apply all_workers_new.
  assert (forall f s, analysis_results (@new_service Frame) !! f = Some s ->
                      snapshot_well_formed s) as Hres
    by (intros f s Hs; cbn in Hs; rewrite lookup_empty in Hs; discriminate).
  revert Hall Hres. generalize (@new_service Frame) as svc. revert feed_id snap.
  induction trace as [|[now c] rest IH]; intros feed_id snap svc Hall Hres;
    [apply Hres|].
  cbn [run].
  pose proof (step_snapshots now c svc Hall Hres) as Hres1.
  pose proof (step_all_workers w (fun wk => 0 <= frame_count (processor wk)) now c svc)
    as Hall1.
  destruct (step w now c svc) as [svc1 e1]. cbn [fst] in *.
  specialize (IH feed_id snap svc1).
  destruct (run w rest svc1) as [svc2 e2]. cbn [fst] in *.
  apply IH; [|exact Hres1].
  apply Hall1; [ | | |exact Hall].
  - intros class j fid. cbn. lia.
  - apply worker_after_frame_count.
  - intros wk Hwk. exact Hwk.
Qed.

End SnapshotInvariant.

(** The thirty-frame upload after its thirtieth frame. *)
Lemma snapshots_are_sampled_frames_witness :
  let snap :=
    {| video_handler.snap_frame_count := 30;
       video_handler.snap_vehicle_count := 1;
       video_handler.snap_vehicle_types := {[ "car" := 1 ]};
       video_handler.snap_timestamp := 1;
       video_handler.snap_detections :=
         [{| type := "car"; confidence := (9 # 10)%Q; bbox := (0, 0, 10, 10)%Q |}] |} in
  video_handler.get_feed_results
    (fst (video_handler.run world_30_frames (example_upload :: slots 1 0 31)
            video_handler.new_service)) "J1_cam_0" = Some snap /\
  video_handler.snap_vehicle_count snap
    = histogram_total (video_handler.snap_vehicle_types snap).
Proof.
  cbv zeta.
  assert (video_handler.get_feed_results
            (fst (video_handler.run world_30_frames (example_upload :: slots 1 0 31)
                    video_handler.new_service)) "J1_cam_0"
          = Some {| video_handler.snap_frame_count := 30;
                    video_handler.snap_vehicle_count := 1;
                    video_handler.snap_vehicle_types := {[ "car" := 1 ]};
                    video_handler.snap_timestamp := 1;
                    video_handler.snap_detections :=
                      [{| type := "car"; confidence := (9 # 10)%Q;
                          bbox := (0, 0, 10, 10)%Q |}] |}) as E
    by (vm_compute; reflexivity).
  split; [exact E|].
  exact (proj2 (proj2 (proj2 (snapshots_are_sampled_frames world_30_frames
                                (example_upload :: slots 1 0 31) "J1_cam_0" _ E)))).
Defined.

(** The running three-frame upload. *)
Lemma handle_open_iff_in_loop_witness :
  video_handler.handle_open service_running 0 = true.
Proof.
  destruct (video_handler.workers service_running !! 0%nat) as [wk|] eqn:Hwk;
    [|vm_compute in Hwk; discriminate].
  apply (proj2 (proj1 (handle_open_iff_in_loop world_3_frames
                         (example_upload :: slots 1 0 1) 0%nat wk Hwk))).
  vm_compute in Hwk. injection Hwk as <-. reflexivity.
Defined.

Section StopAndCollide.
Import video_handler.
Context {Frame : Type}.

Implicit Types (svc : VideoAnalysisService Frame) (wk : worker Frame).

(** X16. [stop_feed] is idempotent: a second call for the same feed id
    changes nothing, as does any call for an id that is not in the registry.
    A call leaves the stored snapshots, the registry entries of other feed
    ids and the workers of other feeds as they are. *)
Theorem stop_feed_idempotent svc (feed_id : string) :
  stop_feed (stop_feed svc feed_id) feed_id = stop_feed svc feed_id /\
  (active_processors svc !! feed_id = None -> stop_feed svc feed_id = svc) /\
  analysis_results (stop_feed svc feed_id) = analysis_results svc /\
  (forall other, other <> feed_id ->
     active_processors (stop_feed svc feed_id) !! other = active_processors svc !! other) /\
  (forall k, active_processors svc !! feed_id <> Some k ->
     workers (stop_feed svc feed_id) !! k = workers svc !! k).
Proof.
  split; [|split; [|split; [|split]]].
  - unfold stop_feed at 1.
    assert (active_processors (stop_feed svc feed_id) !! feed_id = None) as ->; [|reflexivity].
    unfold stop_feed. destruct (active_processors svc !! feed_id) eqn:E; [|exact E].
    cbn. apply lookup_delete_eq.
  - intros Hnone. unfold stop_feed. rewrite Hnone. reflexivity.
  - unfold stop_feed. destruct (active_processors svc !! feed_id); reflexivity.
  - intros other Hne. unfold stop_feed.
    destruct (active_processors svc !! feed_id); [|reflexivity].
    cbn. apply lookup_delete_ne. congruence.
  - intros k Hk. unfold stop_feed.
    destruct (active_processors svc !! feed_id) as [i|]; [|reflexivity].
    cbn. apply list_lookup_alter_ne. congruence.
Qed.

(** X17. Feed ids are built from the junction, the feed name and the clock
    in whole seconds, so two feeds created for the same junction and name
    within the same second get the same feed id. The second creation then
    takes over the registry entry: no feed id refers to the first worker any
    more, and [stop_feed] with the shared id stops the second worker and
    leaves the first one as it is. *)
Theorem feed_ids_collide_within_a_second svc (class1 class2 : handler_class)
    (j name : string) (now1 now2 : Z) :
  Z.quot now1 1000000 = Z.quot now2 1000000 ->
  (forall f i, active_processors svc !! f = Some i -> (i < length (workers svc))%nat) ->
  let '(svc1, id1) := start_feed svc class1 j name now1 in
  let '(svc2, id2) := start_feed svc1 class2 j name now2 in
  let first := length (workers svc) in
  id1 = id2 /\
  active_processors svc1 !! id1 = Some first /\
  active_processors svc2 !! id2 = Some (S first) /\
  (forall f, active_processors svc2 !! f <> Some first) /\
  workers (stop_feed svc2 id2) !! first =
    Some {| feed_id_of := id1; processor := new_processor (new_handler class1) j;
            thread := NotStarted |} /\
  (stop_event ∘ processor <$> workers (stop_feed svc2 id2) !! S first) = Some true.
Proof.
  intros Hsec Hbound. cbn [start_feed]. cbv zeta. rewrite Hsec.
  set (fid := j +:+ "_" +:+ name +:+ "_" +:+ pretty (Z.quot now2 1000000)).
  cbn [active_processors workers].
  split; [reflexivity|]. split; [apply lookup_insert_eq|].
  rewrite length_app. cbn [length]. rewrite Nat.add_1_r.
  split; [apply lookup_insert_eq|]. split.
  - intros f Hf. destruct (decide (fid = f)) as [<-|Hne].
    + rewrite lookup_insert_eq in Hf. injection Hf as Hf. lia.
    + rewrite !lookup_insert_ne in Hf by exact Hne.
      specialize (Hbound f _ Hf). lia.
  - unfold stop_feed. cbn [active_processors workers].
    rewrite lookup_insert_eq. cbn [workers].
    split.
    + rewrite list_lookup_alter_ne by lia.
      rewrite lookup_app_l by (rewrite length_app; cbn; lia).
      rewrite lookup_app_r by lia. rewrite Nat.sub_diag. reflexivity.
    + rewrite list_lookup_alter_eq.
      rewrite lookup_app_r by (rewrite length_app; cbn; lia).
      rewrite length_app. cbn [length].
      replace (S (length (workers svc)) - (length (workers svc) + 1))%nat with 0%nat by lia.
      reflexivity.
Qed.

End StopAndCollide.

(** Two uploads for junction J1 and feed name cam, 0.2 s apart. *)
Lemma feed_ids_collide_within_a_second_witness :
  let '(svc1, id1) :=
    video_handler.upload_and_process_video (@video_handler.new_service nat)
      "J1" "/videos/J1/a.mp4" "cam" 5300000 in
  let '(svc2, id2) :=
    video_handler.upload_and_process_video svc1 "J1" "/videos/J1/b.mp4" "cam" 5500000 in
  id1 = id2 /\ forall f, video_handler.active_processors svc2 !! f <> Some 0%nat.
Proof.
  pose proof (feed_ids_collide_within_a_second (@video_handler.new_service nat)
                (video_handler.UploadedVideoHandler "/videos/J1/a.mp4")
                (video_handler.UploadedVideoHandler "/videos/J1/b.mp4")
                "J1" "cam" 5300000 5500000 eq_refl) as H.
  unfold video_handler.upload_and_process_video.
  destruct (video_handler.start_feed _ _ _ _ 5300000) as [svc1 id1].
  destruct (video_handler.start_feed svc1 _ _ _ _) as [svc2 id2].
  destruct H as (Hid & _ & _ & Hnone & _).
  - intros f i Hf. cbn in Hf. rewrite lookup_empty in Hf. discriminate.
  - split; [exact Hid | exact Hnone].
Defined.

Section VideoStatistics.
Import video_processor.
Context {Frame : Type}.

Implicit Types (w : world Frame) (t : totals) (frames taken rest : list Frame)
  (ds : list VehicleDetector.detection_dict).


Lemma count_max_nonneg ds : 0 <= count_max ds.
Proof. unfold count_max. induction ds as [|d ds IH]; cbn; lia. Qed.

Lemma count_max_app ds1 ds2 :
  count_max (ds1 ++ ds2) = Z.max (count_max ds1) (count_max ds2).
Proof.
  pose proof (count_max_nonneg ds2) as Hnn. unfold count_max in *.
  induction ds1 as [|d ds1 IH]; cbn; [lia|]. rewrite IH. lia.
Qed.

(** [detect_vehicles] never reports a negative count. *)
Lemma vehicle_count_nonneg (model : Frame -> option (list yolo_result)) (frame : Frame) :
  0 <= VehicleDetector.vehicle_count (VehicleDetector.detect_vehicles model frame).
Proof.
  unfold VehicleDetector.detect_vehicles.
  destruct (model frame) as [results|]; cbn; [|lia].
  destruct (collect_collected results) as (_ & -> & _). lia.
Qed.

Lemma count_sum_detected_bounds w frames :
  0 <= count_sum (detected w frames) /\
  count_max (detected w frames) <= count_sum (detected w frames) /\
  count_sum (detected w frames)
    <= count_max (detected w frames) * Z.of_nat (length frames).
Proof.
  induction frames as [|frame frames IH]; [cbn; lia|].
  cbn [detected map count_sum count_max foldr length].
  fold (detected w frames). fold (count_sum (detected w frames)).
  fold (count_max (detected w frames)).
  pose proof (vehicle_count_nonneg (model w) (resize w frame)) as Hc.
  pose proof (count_max_nonneg (detected w frames)) as Hm.
  destruct IH as (IH1 & IH2 & IH3). nia.
Qed.

(** What the frame loop has done when it stops. [taken] are the frames
    whose callback returned; [Inv] is any property of the callback state
    that a returning callback carries from the detections before to the
    detections with the new one, and that a raising callback keeps. *)
Lemma frame_loop_spec {S : Type} w (callback : option (@callback_type S))
    (max_frames : option Z) (Inv : S -> list VehicleDetector.detection_dict -> Prop) :
  (forall s ds d n,
     Inv s ds ->
     match call_back callback s d n with
     | (s', None) => Inv s' (ds ++ [d])
     | (s', Some _) => Inv s' ds
     end) ->
  forall frames t s t' s' rest err,
  frame_loop w callback max_frames frames t s = (t', s', rest, err) ->
  Inv s (all_detections t) ->
  0 <= peak_vehicles t ->
  exists taken,
    frame_count t' = frame_count t + Z.of_nat (length taken) /\
    Inv s' (all_detections t ++ detected w taken) /\
    (forall m, max_frames = Some m -> frame_count t' <= Z.max (frame_count t) m) /\
    match err with
    | None =>
        frames = taken ++ rest /\
        all_detections t' = all_detections t ++ detected w taken /\
        total_vehicles t' = total_vehicles t + count_sum (detected w taken) /\
        peak_vehicles t' = Z.max (peak_vehicles t) (count_max (detected w taken)) /\
        (rest = [] \/ exists m, max_frames = Some m /\ m <= frame_count t')
    | Some _ =>
        callback <> None /\
        below max_frames (frame_count t') = true /\
        exists frame, frames = taken ++ frame :: rest
    end.
Proof.
  intros Hcb frames.
  induction frames as [|frame frames IH]; intros t s t' s' rest err Hloop Hinv Hpeak0.
  - exists []. cbn in Hloop.
    destruct (below max_frames (frame_count t)) eqn:Hb; simplify_eq; cbn;
      rewrite app_nil_r; (split; [lia|]); (split; [exact Hinv|]);
      (split; [intros; lia|]); (repeat split; try lia; auto).
  - cbn [frame_loop] in Hloop.
    destruct (below max_frames (frame_count t)) eqn:Hb.
    + specialize (Hcb s (all_detections t)
        (VehicleDetector.detect_vehicles (model w) (resize w frame)) (frame_count t) Hinv).
      destruct (call_back callback s _ (frame_count t)) as [s1 [e|]] eqn:Hcall.
      * simplify_eq. exists []. cbn. rewrite app_nil_r.
        split; [lia|]. split; [exact Hcb|]. split; [intros; lia|].
        split; [intros ->; cbn in Hcall; discriminate|].
        split; [exact Hb|]. exists frame; reflexivity.
      * apply IH in Hloop; [|exact Hcb|cbn; lia].
        destruct Hloop as (taken & Hcount & Hinv' & Hmax & Herr).
        cbn [frame_count total_vehicles peak_vehicles all_detections] in *.
        exists (frame :: taken). cbn [length detected map].
        fold (detected w taken).
        rewrite <- app_assoc in Hinv'. cbn [app] in Hinv'.
        split; [lia|]. split; [exact Hinv'|]. split.
        { intros m Hm. specialize (Hmax m Hm). subst max_frames. cbn in Hb. lia. }
        destruct err as [e|].
        -- destruct Herr as (Hsome & Hbelow & frame' & ->). split; [exact Hsome|].
           split; [exact Hbelow|]. exists frame'. reflexivity.
        -- destruct Herr as (-> & Hall & Htot & Hpeak & Hstop).
           split; [reflexivity|]. rewrite <- app_assoc in Hall. cbn [app] in Hall.
           split; [exact Hall|]. cbn [count_sum count_max foldr].
           fold (count_sum (detected w taken)). fold (count_max (detected w taken)).
           split; [lia|]. split; [lia|]. exact Hstop.
    + simplify_eq. exists []. cbn. rewrite app_nil_r.
      split; [lia|]. split; [exact Hinv|]. split; [intros; lia|].
      split; [reflexivity|]. split; [reflexivity|]. split; [lia|]. split; [lia|].
      right. destruct max_frames as [m|]; [|discriminate].
      exists m. cbn in Hb. split; [reflexivity|lia].
Qed.

(** The loop without any claim on the callback state. *)
Lemma frame_loop_frames {S : Type} w (callback : option (@callback_type S))
    (max_frames : option Z) frames (s : S) t' s' rest err :
  frame_loop w callback max_frames frames no_frames s = (t', s', rest, err) ->
  exists taken,
    frame_count t' = Z.of_nat (length taken) /\
    (forall m, max_frames = Some m -> frame_count t' <= Z.max 0 m) /\
    match err with
    | None =>
        frames = taken ++ rest /\
        all_detections t' = detected w taken /\
        total_vehicles t' = count_sum (detected w taken) /\
        peak_vehicles t' = count_max (detected w taken) /\
        (rest = [] \/ exists m, max_frames = Some m /\ m <= frame_count t')
    | Some _ =>
        callback <> None /\
        below max_frames (frame_count t') = true /\
        exists frame, frames = taken ++ frame :: rest
    end.
Proof.
  intros Hloop.
  apply (frame_loop_spec w callback max_frames (fun _ _ => True)) in Hloop;
    [| intros s0 ds d n _; destruct (call_back callback s0 d n) as [? [?|]]; exact I
     | exact I | cbn; lia].
  destruct Hloop as (taken & Hcount & _ & Hmax & Herr).
  exists taken. cbn in Hcount, Hmax. split; [lia|]. split; [exact Hmax|].
  destruct err; [exact Herr|].
  destruct Herr as (? & ? & ? & Hpeak & ?). cbn in *.
  pose proof (count_max_nonneg (detected w taken)).
  repeat split; try assumption; lia.
Qed.

Lemma process_stream_success {S : Type} w (stream_url : string)
    (callback : option (@callback_type S)) (max_frames : Z) (s : S)
    (r : stream_stats) (cap' : video_handler.VideoCapture Frame) (s' : S) :
  process_stream w stream_url callback max_frames s = (success r, cap', s') ->
  let cap := VideoCapture_of w stream_url in
  exists taken,
    video_handler.pending cap = taken ++ video_handler.pending cap' /\
    video_handler.isOpened cap = true /\
    video_handler.isOpened cap' = false /\
    stream_detections r = detected w taken /\
    frames_processed r = Z.of_nat (length taken) /\
    frames_processed r <= Z.max 0 max_frames /\
    (video_handler.pending cap' = [] \/ max_frames <= frames_processed r) /\
    stream_total_vehicles r = count_sum (detected w taken) /\
    stream_peak_vehicles r = count_max (detected w taken) /\
    stream_average_vehicles r
      = average (stream_total_vehicles r) (frames_processed r).
Proof.
  intros Hrun. cbv zeta. unfold process_stream in Hrun.
  destruct (video_handler.isOpened (VideoCapture_of w stream_url)) eqn:Hopen;
    [|discriminate].
  cbn [negb] in Hrun.
  destruct (frame_loop w callback (Some max_frames) _ no_frames s)
    as [[[t s1] rest] [e|]] eqn:Hloop; [discriminate|].
  injection Hrun as <- <- <-.
  apply frame_loop_frames in Hloop.
  destruct Hloop as (taken & Hcount & Hmax & Hframes & Hall & Htot & Hpeak & Hstop).
  exists taken. cbn.
  split; [exact Hframes|]. split; [reflexivity|]. split; [reflexivity|].
  split; [exact Hall|]. split; [exact Hcount|].
  split; [apply Hmax; reflexivity|]. split.
  { destruct Hstop as [->|(m & Hm & Hle)]; [left; reflexivity|].
    right. injection Hm as <-. exact Hle. }
  split; [exact Htot|]. split; [exact Hpeak|]. reflexivity.
Qed.


(** X19. The numbers of a successful [process_stream] fit together: the
    peak is not negative and not above the total, the total is at most the
    peak times the number of frames, and the average lies between zero and
    the peak. With no frame processed the average is 0, not a division by
    zero. *)
Theorem process_stream_average_bounds {S : Type} w (stream_url : string)
    (callback : option (@callback_type S)) (max_frames : Z) (s : S)
    (r : stream_stats) (cap' : video_handler.VideoCapture Frame) (s' : S) :
  process_stream w stream_url callback max_frames s = (success r, cap', s') ->
  0 <= stream_peak_vehicles r <= stream_total_vehicles r /\
  stream_total_vehicles r <= stream_peak_vehicles r * frames_processed r /\
  (0 <= stream_average_vehicles r <= inject_Z (stream_peak_vehicles r))%Q /\
  (frames_processed r = 0 -> (stream_average_vehicles r == 0)%Q).
Proof.
  intros Hrun. apply process_stream_success in Hrun.
  destruct Hrun as (taken & _ & _ & _ & _ & Hcount & _ & _ & Htot & Hpeak & Havg).
  pose proof (count_sum_detected_bounds w taken) as (Hs0 & Hms & Hsm).
  pose proof (count_max_nonneg (detected w taken)) as Hm0.
  rewrite <- Htot, <- Hpeak, <- Hcount in *.
  split; [lia|]. split; [lia|].
  rewrite Havg. unfold average.
  set (n := Z.max (frames_processed r) 1).
  assert (1 <= n) as Hn by lia.
  assert (0 < inject_Z n)%Q as Hnq by (unfold Qlt; cbn; lia).
  split; [split|].
  - apply Qle_shift_div_l; [exact Hnq|]. rewrite Qmult_0_l.
    unfold Qle; cbn; lia.
  - apply Qle_shift_div_r; [exact Hnq|]. rewrite <- inject_Z_mult.
    unfold Qle; cbn. nia.
  - intros H0. assert (stream_total_vehicles r = 0) as -> by nia.
    unfold Qdiv. apply Qmult_0_l.
Qed.

(** X20. [process_stream] fails in two ways only. Either the source did not
    open: the error names the stream and no callback ran. Or a callback
    raised: the capture had delivered the frame of that callback, and the
    method returns its failure dictionary without having called
    [cap.release()], which is only reached on the way to the success
    dictionary. Without a callback an open source never gives the failure
    dictionary. *)
Theorem process_stream_failure {S : Type} w (stream_url : string)
    (callback : option (@callback_type S)) (max_frames : Z) (s : S)
    (e : string) (cap' : video_handler.VideoCapture Frame) (s' : S) :
  process_stream w stream_url callback max_frames s = (failure e, cap', s') ->
  let cap := VideoCapture_of w stream_url in
  (video_handler.isOpened cap = false /\
   e = "Cannot open stream: " +:+ stream_url /\ cap' = cap /\ s' = s) \/
  (video_handler.isOpened cap = true /\ callback <> None /\
   video_handler.isOpened cap' = true /\
   exists taken frame,
     video_handler.pending cap = taken ++ frame :: video_handler.pending cap' /\
     Z.of_nat (length taken) < max_frames).
Proof.
  intros Hrun. cbv zeta. unfold process_stream in Hrun.
  destruct (video_handler.isOpened (VideoCapture_of w stream_url)) eqn:Hopen;
    cbn [negb] in Hrun.
  - right.
    destruct (frame_loop w callback (Some max_frames) _ no_frames s)
      as [[[t s1] rest] [e1|]] eqn:Hloop; [|discriminate].
    injection Hrun as <- <- <-.
    pose proof Hloop as Hspec. apply frame_loop_frames in Hspec.
    destruct Hspec as (taken & Hcount & Hmax & Hcb & Hbelow & frame & Hframes).
    split; [reflexivity|]. split; [exact Hcb|]. split; [exact Hopen|].
    exists taken, frame. cbn. split; [exact Hframes|].
    cbn in Hbelow. lia.
  - left. injection Hrun as <- <- <-. repeat split; reflexivity.
Qed.

(** X21. [process_youtube_video] succeeds only on a resolved stream, and
    then processes the first 300 frames of it, or all of them when the
    stream is shorter. When the resolver raises, its text is the error and
    no callback runs. *)
Theorem process_youtube_video_at_most_300 {S : Type} w (youtube_url : string)
    (callback : option (@callback_type S)) (s : S) :
  match process_youtube_video w youtube_url callback s with
  | (success r, cap', s') =>
      exists stream_url,
        extract_info w youtube_url = inl stream_url /\
        frames_processed r
          = Z.min 300 (Z.of_nat (length (video_handler.pending
                                           (VideoCapture_of w stream_url)))) /\
        stream_detections r
          = detected w (take 300 (video_handler.pending (VideoCapture_of w stream_url)))
  | (failure e, cap', s') =>
      forall e', extract_info w youtube_url = inr e' ->
                 e = e' /\ cap' = None /\ s' = s
  end.
Proof.
  unfold process_youtube_video.
  destruct (extract_info w youtube_url) as [stream_url|e0] eqn:Hinfo.
  - destruct (process_stream w stream_url callback 300 s) as [[[r|e] cap1] s1] eqn:Hrun;
      [|intros e'; discriminate].
    exists stream_url. split; [reflexivity|].
    apply process_stream_success in Hrun.
    destruct Hrun as (taken & Hframes & _ & _ & Hdet & Hcount & Hmax & Hstop & _).
    rewrite Hdet, Hcount, Hframes, length_app.
    destruct Hstop as [->|Hge].
    + cbn [length]. rewrite Nat.add_0_r, app_nil_r.
      split; [lia|]. rewrite take_ge by lia. reflexivity.
    + split; [lia|]. rewrite take_app_le by lia.
      rewrite take_ge by lia. reflexivity.
  - intros e' [= <-]. repeat split.
Qed.



(** X23. [process_and_store] stores one row per frame, in the order of the
    frames, after the rows the table had. After a success the table has a
    row for every frame of the video, beyond the 100 detections of the
    returned dictionary. A source that does not open stores nothing. When an
    insert raises, processing stops there: the rows of the frames before
    stay stored, the frames after are not read and [cap.release()] is not
    called. *)
Theorem process_and_store_rows w (table : list vehicle_detection_row)
    (video_path : string) (junction_id : Z) (video_feed_id : option Z) :
  let cap := VideoCapture_of w video_path in
  match process_and_store w table video_path junction_id video_feed_id with
  | (res, cap', table') =>
      exists taken,
        table' = table ++
                   map (detection_row junction_id video_feed_id) (detected w taken) /\
        match res with
        | success r =>
            taken = video_handler.pending cap /\
            total_frames r = Z.of_nat (length taken) /\
            file_total_vehicles r = count_sum (detected w taken)
        | failure e =>
            (video_handler.isOpened cap = false /\ taken = [] /\
             e = "Cannot open video file: " +:+ video_path) \/
            (video_handler.isOpened cap = true /\
             video_handler.isOpened cap' = true /\
             exists frame,
               video_handler.pending cap = taken ++ frame :: video_handler.pending cap')
        end
  end.
Proof.
  cbv zeta. unfold process_and_store, process_video_file.
  destruct (video_handler.isOpened (VideoCapture_of w video_path)) eqn:Hopen;
    cbn [negb].
  - destruct (frame_loop w _ None _ no_frames table)
      as [[[t table1] rest] err] eqn:Hloop.
    apply (frame_loop_spec w _ None
             (fun table1 ds =>
                table1 = table ++ map (detection_row junction_id video_feed_id) ds))
      in Hloop.
    + destruct Hloop as (taken & Hcount & Hinv & _ & Herr).
      cbn [all_detections no_frames app] in Hinv. cbn in Hcount.
      destruct err as [e|].
      * destruct Herr as (_ & _ & frame & Hframes).
        exists taken. split; [exact Hinv|]. right.
        split; [reflexivity|]. split; [exact Hopen|].
        exists frame. exact Hframes.
      * destruct Herr as (Hframes & _ & Htot & _ & Hstop).
        destruct Hstop as [->|(m & Hm & _)]; [|discriminate].
        rewrite app_nil_r in Hframes. exists taken.
        split; [exact Hinv|]. cbn. split; [symmetry; exact Hframes|].
        split; [lia|]. cbn in Htot. lia.
    + intros table0 ds d n ->. cbn [call_back]. unfold detection_callback.
      destruct (insert_error w _ _); [reflexivity|].
      rewrite map_app, app_assoc. reflexivity.
    + cbn. rewrite app_nil_r. reflexivity.
    + cbn. lia.
  - exists []. cbn. rewrite app_nil_r. split; [reflexivity|].
    left. repeat split.
Qed.

End VideoStatistics.

(** A model answer with a car and a person: the car is kept. *)
Lemma detect_vehicles_keeps_vehicle_classes_witness :
  VehicleDetector.vehicle_count
    (VehicleDetector.detect_vehicles
       (fun _ : unit =>
          Some [{| boxes := [{| cls := 2; conf := (9 # 10)%Q; xyxy := (0, 0, 10, 10)%Q |};
                             {| cls := 0; conf := (8 # 10)%Q; xyxy := (5, 5, 9, 9)%Q |}] |}])
       tt) = 1.
Proof.
  exact (proj1 (proj2 (detect_vehicles_keeps_vehicle_classes
                         (fun _ : unit =>
                            Some [{| boxes := [{| cls := 2; conf := (9 # 10)%Q;
                                                  xyxy := (0, 0, 10, 10)%Q |};
                                               {| cls := 0; conf := (8 # 10)%Q;
                                                  xyxy := (5, 5, 9, 9)%Q |}] |}])
                         tt _ eq_refl))).
Defined.


Lemma process_stream_average_bounds_witness :
  match video_processor.process_stream (stream_world [1; 2; 3]%nat)
          "rtsp://camera/stream1" (@None (@video_processor.callback_type unit)) 300 tt with
  | (video_processor.success r, _, _) =>
      (video_processor.stream_average_vehicles r
       <= inject_Z (video_processor.stream_peak_vehicles r))%Q
  | _ => False
  end.
Proof.
  destruct (video_processor.process_stream (stream_world [1; 2; 3]%nat)
              "rtsp://camera/stream1" None 300 tt) as [[[r|e] cap'] s'] eqn:E.
  - exact (proj2 (proj1 (proj2 (proj2 (process_stream_average_bounds _ _ _ _ _ _ _ _ E))))).
  - vm_compute in E. discriminate E.
Defined.

(** The callback raises at the first frame: the capture stays open. *)
Lemma process_stream_failure_witness :
  match video_processor.process_stream (stream_world [1; 2; 3]%nat)
          "rtsp://camera/stream1" (Some raising_callback) 300 tt with
  | (video_processor.failure e, cap', _) => video_handler.isOpened cap' = true
  | _ => False
  end.
Proof.
  destruct (video_processor.process_stream (stream_world [1; 2; 3]%nat)
              "rtsp://camera/stream1" (Some raising_callback) 300 tt)
    as [[[r|e] cap'] s'] eqn:E.
  - vm_compute in E. discriminate E.
  - destruct (process_stream_failure _ _ _ _ _ _ _ _ E)
      as [(Hclosed & _)|(_ & _ & Hopen & _)].
    + vm_compute in Hclosed. discriminate Hclosed.
    + exact Hopen.
Defined.


Section ProcessVideo.
Import opencv_analyzer.
Context {Frame : Type}.

Implicit Types (model : Frame -> option (list yolo_result)) (frames : list Frame)
  (acc : vehicle_data * Q).

Lemma counting_refl acc : counting acc acc.
Proof. repeat split. Qed.

Lemma count_box_counting acc0 acc (box : yolo_box) :
  counting acc0 acc -> counting acc0 (count_box acc box).
Proof.
  destruct acc as [data total_confidence]. unfold count_box.
  destruct (OpenCVAnalyzer.vehicle_classes !! cls box) as [vehicle_type|]; [|auto].
  intros (H1 & H2 & H3 & H4 & H5). unfold counting. cbn in *.
  rewrite histogram_total_incr. repeat split; try assumption. lia.
Qed.

Lemma foldl_count_box_counting acc0 (bs : list yolo_box) acc :
  counting acc0 acc -> counting acc0 (foldl count_box acc bs).
Proof.
  revert acc. induction bs as [|b bs IH]; intros acc Hacc; cbn; [exact Hacc|].
  apply IH, count_box_counting, Hacc.
Qed.

Lemma results_counting acc0 (results : list yolo_result) acc :
  counting acc0 acc ->
  counting acc0
    (foldl (fun acc result => foldl count_box acc (boxes result)) acc results).
Proof.
  revert acc. induction results as [|r rs IH]; intros acc Hacc; cbn; [exact Hacc|].
  apply IH, foldl_count_box_counting, Hacc.
Qed.

(** The box loop of [process_video] counts the boxes that the box loop of
    [process_frame] counts. *)
Lemma foldl_count_box_total (bs : list yolo_box) acc (d : OpenCVAnalyzer.frame_dict) :
  total_vehicles (fst (foldl count_box acc bs)) - total_vehicles (fst acc)
  = OpenCVAnalyzer.vehicle_count (foldl OpenCVAnalyzer.add_box d bs)
    - OpenCVAnalyzer.vehicle_count d.
Proof.
  revert acc d. induction bs as [|b bs IH]; intros acc d; cbn [foldl]; [lia|].
  specialize (IH (count_box acc b) (OpenCVAnalyzer.add_box d b)).
  assert (total_vehicles (fst (count_box acc b)) - total_vehicles (fst acc)
          = OpenCVAnalyzer.vehicle_count (OpenCVAnalyzer.add_box d b)
            - OpenCVAnalyzer.vehicle_count d) as Hstep; [|lia].
  destruct acc as [data total_confidence].
  unfold count_box, OpenCVAnalyzer.add_box.
  destruct (OpenCVAnalyzer.vehicle_classes !! cls b); cbn; lia.
Qed.

Lemma results_total (results : list yolo_result) acc (d : OpenCVAnalyzer.frame_dict) :
  total_vehicles
    (fst (foldl (fun acc result => foldl count_box acc (boxes result)) acc results))
    - total_vehicles (fst acc)
  = OpenCVAnalyzer.vehicle_count
      (foldl (fun d result => foldl OpenCVAnalyzer.add_box d (boxes result)) d results)
    - OpenCVAnalyzer.vehicle_count d.
Proof.
  revert acc d. induction results as [|r rs IH]; intros acc d; cbn [foldl]; [lia|].
  specialize (IH (foldl count_box acc (boxes r))
                 (foldl OpenCVAnalyzer.add_box d (boxes r))).
  pose proof (foldl_count_box_total (boxes r) acc d). lia.
Qed.

Lemma read_frames_spec model frames (n : Z) acc :
  match read_frames model frames n acc with
  | (Some (n', acc'), rest) =>
      rest = [] /\ n' = n + Z.of_nat (length frames) /\ counting acc acc' /\
      total_vehicles (fst acc') = total_vehicles (fst acc) + video_vehicles model frames /\
      (forall frame, frame ∈ frames -> model frame <> None)
  | (None, rest) =>
      exists taken frame, frames = taken ++ frame :: rest /\ model frame = None
  end.
Proof.
  revert n acc. induction frames as [|frame frames IH]; intros n acc; cbn [read_frames].
  - split; [reflexivity|]. cbn. split; [lia|]. split; [apply counting_refl|].
    split; [lia|]. intros frame Hin. apply elem_of_nil in Hin. contradiction.
  - destruct (model frame) as [results|] eqn:Hmodel.
    + specialize (IH (n + 1)
        (foldl (fun acc result => foldl count_box acc (boxes result)) acc results)).
      destruct (read_frames model frames _ _) as [[[n' acc']|] rest].
      * destruct IH as (-> & -> & Hcounting & Htotal & Hall).
        split; [reflexivity|]. cbn [length]. split; [lia|]. split.
        { pose proof (results_counting acc results acc (counting_refl acc)) as Hfirst.
          destruct Hcounting as (H1 & H2 & H3 & H4 & H5).
          destruct Hfirst as (G1 & G2 & G3 & G4 & G5).
          repeat split; congruence. }
        split.
        { rewrite Htotal. cbn [video_vehicles foldr].
          fold (video_vehicles model frames).
          unfold frame_vehicles, OpenCVAnalyzer.process_frame. rewrite Hmodel.
          pose proof (results_total results acc OpenCVAnalyzer.empty_frame_dict) as Hr.
          cbn [OpenCVAnalyzer.vehicle_count OpenCVAnalyzer.empty_frame_dict] in Hr.
          cbn [OpenCVAnalyzer.empty_frame_dict]. lia. }
        intros frame' [->|Hin]%elem_of_cons; [congruence | apply Hall, Hin].
      * destruct IH as (taken & frame' & -> & Hnone).
        exists (frame :: taken), frame'. split; [reflexivity | exact Hnone].
    + exists [], frame. split; [reflexivity | exact Hmodel].
Qed.

(** X24. When [process_video] returns, it has read the video to its end and
    released it. [total_vehicles] is the sum over the frames of the counts
    that [process_frame] gives frame by frame, and equals the sum of the
    histogram. The congestion level follows from this total over the whole
    video with the thresholds 100, 50 and 20, however long the video is.
    [bottleneck_detected] is always false and [stable_vehicles] always 0. *)
Theorem process_video_totals
    (VideoCapture_of : string -> video_handler.VideoCapture Frame) model
    (video_path : string) (data : vehicle_data) (cap' : video_handler.VideoCapture Frame) :
  process_video VideoCapture_of model video_path = (Some data, cap') ->
  let frames := video_handler.pending (VideoCapture_of video_path) in
  frames_processed data = Z.of_nat (length frames) /\
  total_vehicles data = video_vehicles model frames /\
  total_vehicles data = histogram_total (vehicle_types data) /\
  congestion_level data =
    (if 100 <? total_vehicles data then "critical"
     else if 50 <? total_vehicles data then "high"
     else if 20 <? total_vehicles data then "medium" else "low") /\
  bottleneck_detected data = false /\
  stable_vehicles data = 0 /\
  (total_vehicles data = 0 -> average_confidence data = 0%Q) /\
  video_handler.isOpened cap' = false /\
  video_handler.pending cap' = [].
Proof.
  intros Hrun. cbv zeta. unfold process_video in Hrun.
  destruct (video_handler.isOpened (VideoCapture_of video_path)); [|discriminate].
  cbn [negb] in Hrun.
  match type of Hrun with context [read_frames ?m ?f ?n ?a] =>
    pose proof (read_frames_spec m f n a) as Hspec;
    destruct (read_frames m f n a) as [[[n' [data' total_confidence]]|] rest]
  end; [|discriminate].
  injection Hrun as <- <-.
  destruct Hspec as (-> & -> & (H1 & H2 & H3 & H4 & H5) & Htotal & _).
  cbn in *. rewrite histogram_total_empty in H5.
  split; [lia|]. split; [lia|]. split; [lia|].
  split; [rewrite H1; reflexivity|]. split; [exact H2|]. split; [exact H3|].
  split; [intros ->; exact H4|]. split; reflexivity.
Qed.

(** X25. [process_video] raises exactly when the source does not open or
    the model call raises on one of its frames. In the second case the
    exception leaves the method before [cap.release()] is called: there is
    no handler and no [finally] block. *)
Theorem process_video_raises_iff
    (VideoCapture_of : string -> video_handler.VideoCapture Frame) model
    (video_path : string) :
  let cap := VideoCapture_of video_path in
  let result := process_video VideoCapture_of model video_path in
  (fst result = None <->
   video_handler.isOpened cap = false \/
   exists frame, frame ∈ video_handler.pending cap /\ model frame = None) /\
  (video_handler.isOpened cap = true -> fst result = None ->
   video_handler.isOpened (snd result) = true).
Proof.
  cbv zeta. unfold process_video.
  destruct (video_handler.isOpened (VideoCapture_of video_path)) eqn:Hopen; cbn [negb].
  - match goal with |- context [read_frames ?m ?f ?n ?a] =>
      pose proof (read_frames_spec m f n a) as Hspec;
      destruct (read_frames m f n a) as [[[n' [data' total_confidence]]|] rest]
    end; cbn [fst snd].
    + destruct Hspec as (_ & _ & _ & _ & Hall). split; [|discriminate].
      split; [discriminate|].
      intros [?|(frame & Hin & Hnone)]; [discriminate|].
      exfalso. exact (Hall frame Hin Hnone).
    + destruct Hspec as (taken & frame & Hframes & Hnone).
      split; [|reflexivity]. split; [|reflexivity].
      intros _. right. exists frame. split; [|exact Hnone].
      rewrite Hframes. apply elem_of_app. right. apply elem_of_cons. left. reflexivity.
  - cbn [fst snd]. split; [|discriminate].
    split; [intros _; left; reflexivity | reflexivity].
Qed.

End ProcessVideo.

Lemma process_video_totals_witness :
  match opencv_analyzer.process_video (video_file [1; 2; 3]%nat)
          (fun _ => Some one_car) "/videos/J1/a.mp4" with
  | (Some data, _) => opencv_analyzer.total_vehicles data = 3
  | _ => False
  end.
Proof.
  destruct (opencv_analyzer.process_video (video_file [1; 2; 3]%nat)
              (fun _ => Some one_car) "/videos/J1/a.mp4") as [[data|] cap'] eqn:E.
  - exact (proj1 (proj2 (process_video_totals _ _ _ _ _ E))).
  - vm_compute in E. discriminate E.
Defined.

Lemma elem_of_concat {A : Type} (x : A) (ls : list (list A)) :
  x ∈ concat ls <-> exists l, x ∈ l /\ l ∈ ls.
Proof.
  induction ls as [|l ls IH]; cbn [concat].
  - split; [intros []%elem_of_nil | intros (l & _ & []%elem_of_nil)].
  - rewrite elem_of_app, IH. split.
    + intros [Hx|(l' & Hx & Hl')].
      * exists l. split; [exact Hx | apply elem_of_cons; left; reflexivity].
      * exists l'. split; [exact Hx | apply elem_of_cons; right; exact Hl'].
    + intros (l' & Hx & [->|Hl']%elem_of_cons).
      * left. exact Hx.
      * right. exists l'. split; assumption.
Qed.

Section Notifications.
Import alert_service.
Context (smtp_ok : string -> bool).

Implicit Types (st : state) (i : inspector).

Lemma notify_inspector_spec (alert : Z) (title description : string) st i :
  db_up st = true ->
  let st' := notify_inspector smtp_ok alert title description st i in
  inspectors st' = inspectors st /\
  db_up st' = true /\
  alert_notifications st' = alert_notifications st ++ rows_of smtp_ok alert i /\
  outbox st' = outbox st ++ mails_of smtp_ok title i.
Proof.
  intros Hup. cbv zeta.
  unfold notify_inspector, rows_of, mails_of, send_email_alert, send_sms_alert,
    _log_notification.
  destruct (email_notification_enabled i), (smtp_ok (email i)),
    (sms_notification_enabled i), (phone_number i) as [[|c phone]|];
    cbn; rewrite ?Hup; cbn; rewrite ?Hup; cbn;
    rewrite ?app_nil_r, <- ?app_assoc; repeat split; try assumption; reflexivity.
Qed.

Lemma foldl_notify_spec (alert : Z) (title description : string)
    (selected : list inspector) st :
  db_up st = true ->
  let st' := foldl (notify_inspector smtp_ok alert title description) st selected in
  inspectors st' = inspectors st /\
  db_up st' = true /\
  alert_notifications st'
    = alert_notifications st ++ concat (map (rows_of smtp_ok alert) selected) /\
  outbox st' = outbox st ++ concat (map (mails_of smtp_ok title) selected).
Proof.
  revert st. induction selected as [|i selected IH]; intros st Hup; cbn [foldl map concat].
  - rewrite !app_nil_r. repeat split. exact Hup.
  - destruct (notify_inspector_spec alert title description st i Hup)
      as (Hi & Hup' & Hrows & Hmails).
    destruct (IH _ Hup') as (Hi2 & Hup2 & Hrows2 & Hmails2).
    cbv zeta in *. rewrite Hi2, Hrows2, Hmails2, Hi, Hrows, Hmails, !app_assoc.
    repeat split. exact Hup2.
Qed.

Lemma rows_of_length (alert : Z) i :
  length (rows_of smtp_ok alert i) =
  ((if email_notification_enabled i then 1 else 0)
   + (if sms_notification_enabled i && truthy (phone_number i) then 1 else 0))%nat.
Proof.
  unfold rows_of. rewrite length_app.
  destruct (email_notification_enabled i), (sms_notification_enabled i && truthy _);
    reflexivity.
Qed.

Lemma new_rows_length (alert : Z) (selected : list inspector) :
  length (concat (map (rows_of smtp_ok alert) selected)) =
  (length (filter (fun i => email_notification_enabled i = true) selected)
   + length (filter (fun i => sms_notification_enabled i = true /\
                              truthy (phone_number i) = true) selected))%nat.
Proof.
  induction selected as [|i l IH]; [reflexivity|].
  cbn [map concat]. rewrite length_app, IH, rows_of_length.
  rewrite (filter_cons (fun i => email_notification_enabled i = true)).
  rewrite (filter_cons (fun i => sms_notification_enabled i = true /\ _)).
  destruct (email_notification_enabled i), (sms_notification_enabled i),
    (truthy (phone_number i)); cbn [andb];
    repeat case_decide; cbn [length]; try lia; exfalso; naive_solver.
Qed.

(** X26. With the database up, [send_notifications_to_inspectors] appends to
    the notification table, inspector by inspector in the order of the
    query, one e-mail row for every inspector of the junction with e-mail
    notifications enabled, with the status sent or failed as the SMTP
    hand-over went, followed by one SMS row if the inspector has SMS
    notifications enabled and a phone number that is not empty, always with
    the status sent. So the number of new rows is the number of such
    inspectors with e-mail enabled plus the number with SMS enabled and a
    phone number: one row per inspector and method, none twice. Every new
    row carries the alert id; inspectors of other junctions get none. *)
Theorem notification_rows_iff st (junction_id : string) (alert : Z)
    (title description : string) :
  db_up st = true ->
  let st' := send_notifications_to_inspectors smtp_ok st junction_id alert title description in
  let selected :=
    filter (fun i => inspector_junction_id i = junction_id) (inspectors st) in
  let new := concat (map (rows_of smtp_ok alert) selected) in
  alert_notifications st' = alert_notifications st ++ new /\
  length new =
    (length (filter (fun i => email_notification_enabled i = true) selected)
     + length (filter (fun i => sms_notification_enabled i = true /\
                                truthy (phone_number i) = true) selected))%nat /\
  forall row, row ∈ new <->
    exists i, i ∈ inspectors st /\ inspector_junction_id i = junction_id /\
      alert_id row = alert /\ notified_inspector_id row = inspector_id i /\
      ((notification_method row = "email" /\ email_notification_enabled i = true /\
        status row = (if smtp_ok (email i) then "sent" else "failed")) \/
       (notification_method row = "sms" /\ sms_notification_enabled i = true /\
        (exists phone, phone_number i = Some phone /\ phone <> EmptyString) /\
        status row = "sent")).
Proof.
  intros Hup. cbv zeta. unfold send_notifications_to_inspectors. rewrite Hup.
  destruct (foldl_notify_spec alert title description
              (filter (fun i => inspector_junction_id i = junction_id) (inspectors st))
              st Hup) as (_ & _ & Hrows & _).
  cbv zeta in Hrows. split; [exact Hrows|]. split; [apply new_rows_length|].
  intros row. rewrite elem_of_concat. split.
  - intros (rows & Hrow & (i & -> & Hi)%list_elem_of_fmap).
    apply list_elem_of_filter in Hi. destruct Hi as [Hj Hi].
    exists i. split; [exact Hi|]. split; [exact Hj|].
    unfold rows_of in Hrow. apply elem_of_app in Hrow.
    destruct Hrow as [Hrow|Hrow].
    + destruct (email_notification_enabled i); [|apply elem_of_nil in Hrow; contradiction].
      apply list_elem_of_singleton in Hrow. subst row. cbn.
      split; [reflexivity|]. split; [reflexivity|]. left. repeat split.
    + destruct (sms_notification_enabled i);
        [|apply elem_of_nil in Hrow; contradiction].
      destruct (phone_number i) as [[|c phone]|] eqn:Hphone;
        try (apply elem_of_nil in Hrow; contradiction).
      apply list_elem_of_singleton in Hrow. subst row. cbn.
      split; [reflexivity|]. split; [reflexivity|]. right.
      split; [reflexivity|]. split; [reflexivity|]. split; [|reflexivity].
      exists (String c phone). split; [reflexivity | discriminate].
  - intros (i & Hi & Hj & Halert & Hid & Hcase).
    exists (rows_of smtp_ok alert i). split.
    + unfold rows_of. apply elem_of_app.
      destruct row as [a n m s]. cbn in *. subst a n.
      destruct Hcase as [(-> & -> & ->)|(-> & -> & (phone & -> & Hphone) & ->)].
      * left. apply list_elem_of_singleton. reflexivity.
      * right. destruct phone as [|c phone]; [contradiction|].
        apply list_elem_of_singleton. reflexivity.
    + apply list_elem_of_fmap. exists i. split; [reflexivity|].
      apply list_elem_of_filter. split; assumption.
Qed.

(** X27. [send_notifications_to_inspectors] never changes the table of
    inspectors. With the database down it does nothing at all: no message is
    handed over and no row is written. With the database up it hands over,
    in the order of the query, one message per inspector of the junction
    with e-mail notifications enabled whose hand-over goes through, under
    the subject "Track-V Alert: " followed by the title. *)
Theorem notification_mails st (junction_id : string) (alert : Z)
    (title description : string) :
  let st' := send_notifications_to_inspectors smtp_ok st junction_id alert title description in
  inspectors st' = inspectors st /\
  (db_up st = false -> st' = st) /\
  (db_up st = true ->
   outbox st' = outbox st ++
     map (fun i => {| mail_to := email i; subject := "Track-V Alert: " +:+ title |})
       (filter (fun i => inspector_junction_id i = junction_id /\
                         email_notification_enabled i = true /\
                         smtp_ok (email i) = true)
               (inspectors st))).
Proof.
  cbv zeta. unfold send_notifications_to_inspectors.
  destruct (db_up st) eqn:Hup.
  - destruct (foldl_notify_spec alert title description
                (filter (fun i => inspector_junction_id i = junction_id) (inspectors st))
                st Hup) as (Hi & _ & _ & Hmails).
    cbv zeta in Hi, Hmails. split; [exact Hi|]. split; [discriminate|].
    intros _. rewrite Hmails. f_equal. clear Hi Hmails Hup.
    induction (inspectors st) as [|i l IH]; [reflexivity|].
    rewrite (filter_cons (fun i => inspector_junction_id i = junction_id)).
    rewrite (filter_cons (fun i => inspector_junction_id i = junction_id /\ _)).
    destruct (decide (inspector_junction_id i = junction_id)) as [Hj|Hj].
    + cbn [map concat]. rewrite IH. unfold mails_of.
      destruct (email_notification_enabled i) eqn:He, (smtp_ok (email i)) eqn:Hs; cbn [andb].
      * rewrite decide_True by (repeat split; assumption). reflexivity.
      * rewrite decide_False by (intros (_ & _ & ?); congruence). reflexivity.
      * rewrite decide_False by (intros (_ & ? & _); congruence). reflexivity.
      * rewrite decide_False by (intros (_ & ? & _); congruence). reflexivity.
    + rewrite decide_False by (intros (? & _); contradiction). exact IH.
  - repeat split. intros; discriminate.
Qed.

End Notifications.

Section AllowedFile.
Import Stdlib.Strings.Ascii video_routes.

Lemma after_last_dot_None (s : string) :
  after_last_dot s = None <-> has_dot s = false.
Proof.
  induction s as [|c rest IH]; cbn; [tauto|].
  destruct (after_last_dot rest) as [ext|].
  - split; [discriminate|]. intros [_ Hrest]%orb_false_iff.
    apply IH in Hrest. discriminate.
  - destruct (Ascii.eqb c "."%char) eqn:Hc; cbn.
    + split; discriminate.
    + split; intros _; [apply IH|]; reflexivity.
Qed.

Lemma after_last_dot_Some (s ext : string) :
  after_last_dot s = Some ext <->
  exists stem, s = stem +:+ String "."%char ext /\ has_dot ext = false.
Proof.
  split.
  - revert ext. induction s as [|c rest IH]; intros ext; cbn; [discriminate|].
    destruct (after_last_dot rest) as [ext'|] eqn:Hrest.
    + intros [= ->]. destruct (IH ext eq_refl) as (stem & -> & Hext).
      exists (String c stem). split; [reflexivity | exact Hext].
    + destruct (Ascii.eqb c "."%char) eqn:Hc; [|discriminate].
      intros [= ->]. apply Ascii.eqb_eq in Hc. subst c.
      exists EmptyString. split; [reflexivity|].
      apply after_last_dot_None, Hrest.
  - intros (stem & -> & Hext). apply after_last_dot_None in Hext.
    induction stem as [|c stem IH].
    + change (after_last_dot (String "."%char ext) = Some ext).
      cbn. rewrite Hext. reflexivity.
    + change (after_last_dot (String c (stem +:+ String "."%char ext)) = Some ext).
      cbn. rewrite IH. reflexivity.
Qed.

(** X28. For a file name of ASCII characters, [allowed_file] accepts the
    name exactly when it has a dot and the text after its last dot is, up to
    the case of its letters, one of mp4, avi, mov, mkv, flv and wmv. What
    stands before the last dot plays no part: a name that is only a dot and
    an allowed extension is accepted, and so is any name with inner dots. A
    name without a dot is rejected. *)
Theorem allowed_file_last_extension (filename : string) :
  isascii filename = true ->
  (allowed_file filename = true <->
   exists stem ext,
     filename = stem +:+ String "."%char ext /\ has_dot ext = false /\
     lower ext ∈ ALLOWED_EXTENSIONS) /\
  (has_dot filename = false -> allowed_file filename = false).
Proof.
  intros _. unfold allowed_file. split.
  - destruct (after_last_dot filename) as [ext|] eqn:Hext.
    + rewrite bool_decide_eq_true. split.
      * intros Hin. apply after_last_dot_Some in Hext.
        destruct Hext as (stem & -> & Hnodot). exists stem, ext. auto.
      * intros (stem & ext' & Hname & Hnodot & Hin).
        assert (after_last_dot filename = Some ext') as Hext'
          by (apply after_last_dot_Some; exists stem; auto).
        congruence.
    + split; [discriminate|].
      intros (stem & ext' & Hname & Hnodot & Hin).
      assert (after_last_dot filename = Some ext') as Hext'
        by (apply after_last_dot_Some; exists stem; auto).
      congruence.
  - intros Hnodot. apply after_last_dot_None in Hnodot. rewrite Hnodot. reflexivity.
Qed.

End AllowedFile.

Lemma allowed_file_last_extension_witness :
  video_routes.allowed_file "evening.rush.MP4" = true.
Proof.
  apply (proj1 (allowed_file_last_extension "evening.rush.MP4" eq_refl)).
  exists "evening.rush", "MP4". split; [reflexivity|]. split; [reflexivity|].
  apply elem_of_cons. left. reflexivity.
Defined.

Section RegistryLifetime.
Import video_handler.
Context {Frame : Type} (w : world Frame).

Implicit Types (svc : VideoAnalysisService Frame) (wk : worker Frame).

Lemma step_keeps_entry (now : Z) (c : call) svc (feed_id : string) :
  stops_feed feed_id c = false ->
  is_Some (active_processors svc !! feed_id) ->
  is_Some (active_processors (fst (step w now c svc)) !! feed_id).
Proof.
  intros Hc Hreg.
  destruct c as [j path name|j url name|j ip name user pw|fid|k]; cbn [step fst].
  1-3: cbn [start_feed upload_and_process_video add_youtube_feed add_cctv_feed
            fst active_processors];
       apply lookup_insert_is_Some';  right; exact Hreg.
  - cbn in Hc. apply bool_decide_eq_false in Hc.
    unfold stop_feed. destruct (active_processors svc !! fid); [|exact Hreg].
    cbn [active_processors]. rewrite lookup_delete_ne by exact Hc. exact Hreg.
  - destruct (workers svc !! k) as [wk0|] eqn:Hk;
      [|rewrite worker_step_missing by exact Hk; exact Hreg].
    rewrite (proj2 (worker_step_workers w now k svc wk0 Hk)). exact Hreg.
Qed.

(** X29. A feed id stays in [active_processors] until [stop_feed] is called
    with it: no slot of any worker removes an entry, so the entry of a feed
    whose thread has ended, at the end of its video or by a failed open, is
    still there. *)
Theorem registry_entry_outlives_worker (trace : list (Z * call)) svc (feed_id : string) :
  is_Some (active_processors svc !! feed_id) ->
  existsb (fun tc => stops_feed feed_id (snd tc)) trace = false ->
  is_Some (active_processors (fst (run w trace svc)) !! feed_id).
Proof.
  revert svc. induction trace as [|[now c] rest IH]; intros svc Hreg Hno; [exact Hreg|].
  cbn [existsb snd] in Hno. apply orb_false_iff in Hno. destruct Hno as [Hc Hrest].
  cbn [run]. pose proof (step_keeps_entry now c svc feed_id Hc Hreg) as Hstep.
  destruct (step w now c svc) as [svc1 e1]. cbn [fst] in Hstep.
  specialize (IH svc1 Hstep Hrest). destruct (run w rest svc1) as [svc2 e2]. exact IH.
Qed.

Lemma worker_after_stop_event wk :
  stop_event (processor (worker_after w wk)) = stop_event (processor wk).
Proof. unfold worker_after, finally. repeat case_match; reflexivity. Qed.

Lemma step_registered_not_stopped (now : Z) (c : call) svc :
  registry_consistent svc -> registered_not_stopped svc ->
  registered_not_stopped (fst (step w now c svc)).
Proof.
  intros Hcons Hinv feed_id i wk.
  destruct c as [j path name|j url name|j ip name user pw|fid|k]; cbn [step fst].
  1-3: cbn [start_feed upload_and_process_video add_youtube_feed add_cctv_feed
            fst workers active_processors];
       match goal with |- <[?new := _]> _ !! _ = _ -> _ =>
         destruct (decide (new = feed_id)) as [Heq|Hne] end;
       [rewrite Heq, lookup_insert_eq; intros [= <-];
        rewrite lookup_app_r by lia; rewrite Nat.sub_diag; intros [= <-]; reflexivity
       |rewrite lookup_insert_ne by exact Hne; intros Hreg;
        destruct (Hcons feed_id i Hreg) as (wk0 & Hwk0 & _);
        rewrite lookup_app_l by (apply lookup_lt_is_Some; eauto);
        apply (Hinv feed_id i wk Hreg)].
  - unfold stop_feed. destruct (active_processors svc !! fid) as [k|] eqn:Hfid;
      [|apply Hinv].
    cbn [active_processors workers].
    destruct (decide (fid = feed_id)) as [->|Hne];
      [rewrite lookup_delete_eq; discriminate|].
    rewrite lookup_delete_ne by exact Hne. intros Hreg.
    assert (k <> i) as Hki.
    { intros ->. destruct (Hcons fid i Hfid) as (wk1 & Hwk1 & Hid1).
      destruct (Hcons feed_id i Hreg) as (wk2 & Hwk2 & Hid2). congruence. }
    rewrite list_lookup_alter_ne by exact Hki. apply (Hinv feed_id i wk Hreg).
  - destruct (workers svc !! k) as [wk0|] eqn:Hk;
      [|rewrite worker_step_missing by exact Hk; apply Hinv].
    destruct (worker_step_workers w now k svc wk0 Hk) as [Hws Hreg]. rewrite Hws, Hreg.
    intros Hi. destruct (decide (k = i)) as [->|Hne].
    + rewrite list_lookup_insert_eq by (apply lookup_lt_is_Some; eauto).
      intros [= <-]. rewrite worker_after_stop_event. apply (Hinv feed_id i wk0 Hi Hk).
    + rewrite list_lookup_insert_ne by exact Hne. apply (Hinv feed_id i wk Hi).
Qed.

(** X30. In every execution of the service, the worker that a feed id of
    [active_processors] refers to has not been told to stop: its stop event
    is clear. [stop_feed] sets the event and removes the entry in one call,
    and nothing else sets it; whether the thread still runs is another
    matter, it may have ended on its own. *)
Theorem registered_worker_not_stopped (trace : list (Z * call)) (feed_id : string)
    (i : nat) wk :
  active_processors (fst (run w trace new_service)) !! feed_id = Some i ->
  workers (fst (run w trace new_service)) !! i = Some wk ->
  stop_event (processor wk) = false.
Proof.
  assert (registry_consistent (fst (run w trace (@new_service Frame))) /\
          registered_not_stopped (fst (run w trace (@new_service Frame)))) as [_ Hinv].
  { assert (registry_consistent (@new_service Frame) /\
            registered_not_stopped (@new_service Frame)) as H0.
    { split; intros f k; cbn; rewrite lookup_empty; discriminate. }
    revert H0. generalize (@new_service Frame) as svc.
    induction trace as [|[now c] rest IH]; intros svc Hsvc; [exact Hsvc|].
    cbn [run]. destruct Hsvc as [Hcons Hns].
    pose proof (step_registry_consistent w now c svc Hcons) as Hstep1.
    pose proof (step_registered_not_stopped now c svc Hcons Hns) as Hstep2.
    destruct (step w now c svc) as [svc1 e1]. cbn [fst] in Hstep1, Hstep2.
    specialize (IH svc1 (conj Hstep1 Hstep2)).
    destruct (run w rest svc1) as [svc2 e2]. exact IH. }
  apply Hinv.
Qed.

End RegistryLifetime.

(** Junction J1: the first inspector gets an e-mail row and an SMS row, the
    second, with e-mail off and no phone number, none. *)
Lemma notification_rows_iff_witness :
  alert_service.alert_notifications
    (alert_service.send_notifications_to_inspectors (fun _ => true)
       example_inspectors "J1" 7 "Congestion" "High congestion at J1")
  = [{| alert_service.alert_id := 7; alert_service.notified_inspector_id := 1;
        alert_service.notification_method := "email";
        alert_service.status := "sent" |};
     {| alert_service.alert_id := 7; alert_service.notified_inspector_id := 1;
        alert_service.notification_method := "sms";
        alert_service.status := "sent" |}].
Proof.
  exact (proj1 (notification_rows_iff (fun _ => true) example_inspectors "J1" 7
                  "Congestion" "High congestion at J1" eq_refl)).
Defined.

(** The three-frame video has ended after five slots of its worker; its
    feed id is still registered. *)
Lemma registry_entry_outlives_worker_witness :
  is_Some (video_handler.active_processors
             (fst (video_handler.run world_3_frames (slots 1 0 5) service_running))
           !! "J1_cam_0").
Proof.
  apply registry_entry_outlives_worker; [|reflexivity].
  exists 0%nat. vm_compute. reflexivity.
Defined.

Lemma registered_worker_not_stopped_witness :
  match video_handler.workers service_running !! 0%nat with
  | Some wk => video_handler.stop_event (video_handler.processor wk) = false
  | None => False
  end.
Proof.
  destruct (video_handler.workers service_running !! 0%nat) as [wk|] eqn:E.
  - apply (registered_worker_not_stopped world_3_frames (example_upload :: slots 1 0 1)
             "J1_cam_0" 0 wk); [vm_compute; reflexivity | exact E].
  - vm_compute in E. discriminate E.
Defined.
